(** * A shallow embedding of the backtesting engine of [backtester.py]

    The development follows the Python source: the portfolio ledger
    ([execute_trade], [get_portfolio_value]), the position sizing policy,
    the bar-by-bar replay loop of [run_backtest], the seven strategy
    classes and the two closed-form metrics (annualized return and maximum
    drawdown).

    Numbers.  Python floats are modelled as exact rationals ([Q]); rounding
    is not modelled, and equalities between amounts are stated with [==].
    Where the source tests a value with [pd.isna] the value is an
    [option Q] ([None] is NaN).  A float division whose divisor may be zero
    returns a [float64], which adds the two infinities and NaN to the
    rationals; zero carries no sign. *)

From Stdlib Require Import ZArith QArith Qround Qminmax Lqa Lia Sorted.
From stdpp Require Import gmap strings list.

Local Open Scope Q_scope.

(** ** Numbers *)

(** [int(x)] on a float truncates toward zero. *)
Definition py_int (x : Q) : Z := Z.quot (Qnum x) (Z.pos (Qden x)).

Definition Qlt_bool (x y : Q) : bool := negb (Qle_bool y x).

(** Results of float operations that can leave the rationals. *)
Inductive float64 : Type :=
  | Fin (q : Q)
  | PosInf
  | NegInf
  | NaN.

(** [a / b] on numpy floats: a zero divisor yields an infinity of the sign
    of [a], or NaN for [0 / 0]. *)
Definition fdiv (a b : Q) : float64 :=
  if Qeq_bool b 0 then
    if Qlt_bool 0 a then PosInf else if Qlt_bool a 0 then NegInf else NaN
  else Fin (a / b).

Definition fopp (x : float64) : float64 :=
  match x with
  | Fin q => Fin (- q)
  | PosInf => NegInf
  | NegInf => PosInf
  | NaN => NaN
  end.

Definition fadd (x y : float64) : float64 :=
  match x, y with
  | NaN, _ | _, NaN => NaN
  | Fin a, Fin b => Fin (a + b)
  | PosInf, NegInf | NegInf, PosInf => NaN
  | PosInf, _ | _, PosInf => PosInf
  | NegInf, _ | _, NegInf => NegInf
  end.

Definition fsub (x y : float64) : float64 := fadd x (fopp y).

(** Comparisons of a float with a finite bound; every comparison with NaN
    is false. *)
Definition fgt (x : float64) (t : Q) : bool :=
  match x with Fin q => Qlt_bool t q | PosInf => true | _ => false end.
Definition flt (x : float64) (t : Q) : bool :=
  match x with Fin q => Qlt_bool q t | NegInf => true | _ => false end.
Definition fge (x : float64) (t : Q) : bool :=
  match x with Fin q => Qle_bool t q | PosInf => true | _ => false end.
Definition fle (x : float64) (t : Q) : bool :=
  match x with Fin q => Qle_bool q t | NegInf => true | _ => false end.

Definition isna (x : float64) : bool :=
  match x with NaN => true | _ => false end.

(** Equality of float values up to the representation of the rational. *)
Definition feq (x y : float64) : Prop :=
  match x, y with
  | Fin a, Fin b => a == b
  | PosInf, PosInf | NegInf, NegInf | NaN, NaN => True
  | _, _ => False
  end.

(** ** Exceptions *)

Inductive exn : Type := ZeroDivisionError.

Inductive outcome (A : Type) : Type :=
  | Ok (a : A)
  | Raise (e : exn).
Arguments Ok {A} a.
Arguments Raise {A} e.

Definition obind {A B} (m : outcome A) (k : A -> outcome B) : outcome B :=
  match m with
  | Ok a => k a
  | Raise e => Raise e
  end.

Notation "x <-- m ;; k" := (obind m (fun x => k))
  (at level 100, m at next level, right associativity).

(** ** Data model *)

(** A pandas timestamp, in nanoseconds since the epoch. *)
Definition Timestamp : Type := Z.
Bind Scope Z_scope with Timestamp.

(** An entry of [self.positions]. *)
Record Position : Type := mkPosition {
  pos_quantity : Z;
  pos_avg_price : Q;
  pos_cost : Q
}.

(** An entry of [self.trade_history]; a BUY carries ['cost'], a SELL
    ['revenue']. *)
Record Trade : Type := mkTrade {
  trade_date : Timestamp;
  trade_symbol : string;
  trade_action : string;
  trade_quantity : Z;
  trade_price : Q;
  trade_cost : option Q;
  trade_revenue : option Q;
  trade_portfolio_value : Q
}.

(** An entry of [self.portfolio_values]. *)
Record EquityPoint : Type := mkEquityPoint {
  ep_date : Timestamp;
  ep_portfolio_value : Q;
  ep_price : Q
}.

Record BacktestEngine : Type := mkEngine {
  initial_capital : Q;
  current_capital : Q;
  positions : gmap string Position;
  trade_history : list Trade;
  portfolio_values : list EquityPoint;
  daily_returns : list Q
}.

(** [BacktestEngine.__init__] *)
Definition BacktestEngine_init (capital : Q) : BacktestEngine :=
  {| initial_capital := capital;
     current_capital := capital;
     positions := ∅;
     trade_history := [];
     portfolio_values := [];
     daily_returns := [] |}.

(** ** The ledger *)

(** [get_portfolio_value]: the priced symbol at the current price, every
    other position at its average price. *)
Definition get_portfolio_value (self : BacktestEngine) (current_price : Q)
    (symbol : string) : Q :=
  map_fold
    (fun pos_symbol position portfolio_value =>
       if decide (pos_symbol = symbol)
       then portfolio_value + inject_Z (pos_quantity position) * current_price
       else portfolio_value
            + inject_Z (pos_quantity position) * pos_avg_price position)
    (current_capital self) (positions self).

Definition with_ledger (self : BacktestEngine) (cash : Q)
    (ps : gmap string Position) : BacktestEngine :=
  {| initial_capital := initial_capital self;
     current_capital := cash;
     positions := ps;
     trade_history := trade_history self;
     portfolio_values := portfolio_values self;
     daily_returns := daily_returns self |}.

Definition record_trade (self : BacktestEngine) (t : Trade) : BacktestEngine :=
  {| initial_capital := initial_capital self;
     current_capital := current_capital self;
     positions := positions self;
     trade_history := trade_history self ++ [t];
     portfolio_values := portfolio_values self;
     daily_returns := daily_returns self |}.

(** The position written by a BUY.  Adding to a held position divides the
    total cost by the total quantity; a zero total quantity makes that
    division undefined (ZeroDivisionError on Python floats, an infinity or
    NaN on numpy floats, which a ledger of rationals cannot hold) and is
    reported as an exception, raised before anything is written. *)
Definition bought_position (held : option Position) (quantity : Z)
    (price cost : Q) : outcome Position :=
  match held with
  | Some pos =>
      let total_quantity := (pos_quantity pos + quantity)%Z in
      let total_cost := pos_cost pos + cost in
      if (total_quantity =? 0)%Z then Raise ZeroDivisionError
      else Ok {| pos_quantity := total_quantity;
                 pos_avg_price := total_cost / inject_Z total_quantity;
                 pos_cost := total_cost |}
  | None =>
      Ok {| pos_quantity := quantity; pos_avg_price := price; pos_cost := cost |}
  end.

(** [execute_trade] *)
Definition execute_trade (self : BacktestEngine) (symbol action : string)
    (quantity : Z) (price : Q) (date : Timestamp) : outcome BacktestEngine :=
  if decide (action = "BUY") then
    let cost := inject_Z quantity * price in
    if Qle_bool cost (current_capital self) then
      position <-- bought_position (positions self !! symbol) quantity price cost ;;
      let self := with_ledger self (current_capital self - cost)
                    (<[symbol := position]> (positions self)) in
      Ok (record_trade self
            {| trade_date := date;
               trade_symbol := symbol;
               trade_action := action;
               trade_quantity := quantity;
               trade_price := price;
               trade_cost := Some cost;
               trade_revenue := None;
               trade_portfolio_value := get_portfolio_value self price symbol |})
    else Ok self
  else if decide (action = "SELL") then
    match positions self !! symbol with
    | Some pos =>
        let quantity_to_sell := Z.min quantity (pos_quantity pos) in
        let revenue := inject_Z quantity_to_sell * price in
        let pos' :=
          {| pos_quantity := (pos_quantity pos - quantity_to_sell)%Z;
             pos_avg_price := pos_avg_price pos;
             pos_cost := pos_cost pos
                         - inject_Z quantity_to_sell * pos_avg_price pos |} in
        let positions' :=
          if (pos_quantity pos' <=? 0)%Z then delete symbol (positions self)
          else <[symbol := pos']> (positions self) in
        let self := with_ledger self (current_capital self + revenue) positions' in
        Ok (record_trade self
              {| trade_date := date;
                 trade_symbol := symbol;
                 trade_action := action;
                 trade_quantity := quantity_to_sell;
                 trade_price := price;
                 trade_cost := None;
                 trade_revenue := Some revenue;
                 trade_portfolio_value := get_portfolio_value self price symbol |})
    | None => Ok self
    end
  else Ok self.

(** [calculate_position_size]: a fifth of the cash, in whole shares.  The
    quotient is truncated as an exact rational; the source truncates the
    rounded double, which is one share more where the exact quotient lies
    less than a rounding step below a whole number. *)
Definition calculate_position_size (self : BacktestEngine) (price : Q) : Z :=
  let max_position_value := current_capital self * 0.2 in
  if Qlt_bool 0 price then py_int (max_position_value / price) else 0%Z.

(** ** Bars and signals *)

(** A row handed to a strategy.  The replay loop skips rows whose close is
    NaN before any strategy sees them, so [Close] is a number here; the
    indicator columns are undefined ([None]) during their warm-up, and
    [Volume] is [None] when the column is missing or NaN.  The columns no
    strategy reads (the exponential averages and MACD) are left out. *)
Record Row : Type := mkRow {
  Open : Q;
  High : Q;
  Low : Q;
  Close : Q;
  Volume : option Q;
  SMA_10 : option Q;
  SMA_30 : option Q;
  RSI : option Q;
  BB_Upper : option Q;
  BB_Middle : option Q;
  BB_Lower : option Q
}.

(** The frame returned by [get_historical_data]: rows in index order, [None]
    standing for a row whose close is NaN. *)
Definition DataFrame : Type := list (Timestamp * option Row).

(** A signal dictionary; [sig_info] holds the diagnostic entries that the
    engine never reads. *)
Record Signal : Type := mkSignal {
  sig_symbol : string;
  sig_action : string;
  sig_price : Q;
  sig_info : list (string * float64)
}.

(** The interface of [PandasStrategy]: one call consumes a row, returns the
    signals and leaves the object in its next state. *)
Class Strategy (S : Type) : Type :=
  generate_signals : S -> Row -> list Signal * S.

(** The shape shared by the threshold strategies:
    [if buy: append BUY / elif sell: append SELL]. *)
Definition buy_elif_sell (buy sell : bool) (mk : string -> Signal) : list Signal :=
  if buy then [mk "BUY"] else if sell then [mk "SELL"] else [].

(** *** MovingAverageCrossoverStrategy *)

Record MovingAverageCrossoverStrategy : Type := mkMovingAverageCrossover {
  mac_short_window : Z;
  mac_long_window : Z;
  mac_symbol : string;
  mac_last_signal : option string
}.

Definition MovingAverageCrossoverStrategy_init (short_window long_window : Z)
    (symbol : string) : MovingAverageCrossoverStrategy :=
  {| mac_short_window := short_window; mac_long_window := long_window;
     mac_symbol := symbol; mac_last_signal := None |}.

#[export] Instance mac_generate_signals : Strategy MovingAverageCrossoverStrategy :=
  fun self data =>
    match SMA_10 data, SMA_30 data with
    | Some sma_10, Some sma_30 =>
        let current_signal := if Qlt_bool sma_30 sma_10 then "BUY" else "SELL" in
        if decide (mac_last_signal self <> Some current_signal) then
          ([ {| sig_symbol := mac_symbol self;
                sig_action := current_signal;
                sig_price := Close data;
                sig_info := [("short_ma", Fin sma_10); ("long_ma", Fin sma_30)] |} ],
           {| mac_short_window := mac_short_window self;
              mac_long_window := mac_long_window self;
              mac_symbol := mac_symbol self;
              mac_last_signal := Some current_signal |})
        else ([], self)
    | _, _ => ([], self)
    end.

(** *** ScalpingStrategy *)

Record ScalpingStrategy : Type := mkScalping {
  sc_symbol : string;
  sc_last_price : option Q;
  sc_trade_count : Z
}.

Definition ScalpingStrategy_init (symbol : string) : ScalpingStrategy :=
  {| sc_symbol := symbol; sc_last_price := None; sc_trade_count := 0 |}.

Definition sc_set_last_price (self : ScalpingStrategy) (p : Q) : ScalpingStrategy :=
  {| sc_symbol := sc_symbol self; sc_last_price := Some p;
     sc_trade_count := sc_trade_count self |}.

#[export] Instance scalping_generate_signals : Strategy ScalpingStrategy :=
  fun self data =>
    match sc_last_price self with
    | None => ([], sc_set_last_price self (Close data))
    | Some last_price =>
        let price_change := fdiv (Close data - last_price) last_price in
        (buy_elif_sell (fgt price_change 0.005) (flt price_change (-0.005))
           (fun action =>
              {| sig_symbol := sc_symbol self;
                 sig_action := action;
                 sig_price := Close data;
                 sig_info := [("price_change", price_change)] |}),
         sc_set_last_price self (Close data))
    end.

(** *** MomentumStrategy *)

Record MomentumStrategy : Type := mkMomentum {
  mom_symbol : string;
  mom_last_signal : option string
}.

Definition MomentumStrategy_init (symbol : string) : MomentumStrategy :=
  {| mom_symbol := symbol; mom_last_signal := None |}.

#[export] Instance momentum_generate_signals : Strategy MomentumStrategy :=
  fun self data =>
    match Volume data with
    | Some _ =>
        let price_momentum := fdiv (Close data - Open data) (Open data) in
        let volume_ratio := Fin 1 in
        (buy_elif_sell (fgt price_momentum 0.02) (flt price_momentum (-0.02))
           (fun action =>
              {| sig_symbol := mom_symbol self;
                 sig_action := action;
                 sig_price := Close data;
                 sig_info := [("momentum", price_momentum);
                              ("volume_ratio", volume_ratio)] |}),
         self)
    | None => ([], self)
    end.

(** *** MeanReversionStrategy *)

Record MeanReversionStrategy : Type := mkMeanReversion {
  mr_symbol : string;
  mr_last_signal : option string
}.

Definition MeanReversionStrategy_init (symbol : string) : MeanReversionStrategy :=
  {| mr_symbol := symbol; mr_last_signal := None |}.

#[export] Instance mean_reversion_generate_signals : Strategy MeanReversionStrategy :=
  fun self data =>
    match SMA_30 data with
    | Some sma_30 =>
        let deviation := fdiv (Close data - sma_30) sma_30 in
        (buy_elif_sell (flt deviation (-0.05)) (fgt deviation 0.05)
           (fun action =>
              {| sig_symbol := mr_symbol self;
                 sig_action := action;
                 sig_price := Close data;
                 sig_info := [("deviation", deviation)] |}),
         self)
    | None => ([], self)
    end.

(** *** BollingerBandsStrategy *)

Record BollingerBandsStrategy : Type := mkBollingerBands {
  bb_window : Z;
  bb_std_dev : Q;
  bb_symbol : string;
  bb_last_signal : option string
}.

Definition BollingerBandsStrategy_init (window : Z) (std_dev : Q)
    (symbol : string) : BollingerBandsStrategy :=
  {| bb_window := window; bb_std_dev := std_dev; bb_symbol := symbol;
     bb_last_signal := None |}.

#[export] Instance bollinger_generate_signals : Strategy BollingerBandsStrategy :=
  fun self data =>
    match BB_Upper data, BB_Lower data, BB_Middle data with
    | Some upper, Some lower, Some middle =>
        let bb_position := fdiv (Close data - lower) (upper - lower) in
        (buy_elif_sell (fle bb_position 0.1) (fge bb_position 0.9)
           (fun action =>
              {| sig_symbol := bb_symbol self;
                 sig_action := action;
                 sig_price := Close data;
                 sig_info := [("upper_band", Fin upper); ("lower_band", Fin lower);
                              ("middle_band", Fin middle);
                              ("bb_position", bb_position)] |}),
         self)
    | _, _, _ => ([], self)
    end.

(** *** RSIStrategy *)

Record RSIStrategy : Type := mkRSI {
  rsi_oversold : Z;
  rsi_overbought : Z;
  rsi_symbol : string;
  rsi_last_signal : option string
}.

Definition RSIStrategy_init (oversold overbought : Z) (symbol : string) : RSIStrategy :=
  {| rsi_oversold := oversold; rsi_overbought := overbought;
     rsi_symbol := symbol; rsi_last_signal := None |}.

#[export] Instance rsi_generate_signals : Strategy RSIStrategy :=
  fun self data =>
    match RSI data with
    | Some rsi =>
        (buy_elif_sell (Qle_bool rsi (inject_Z (rsi_oversold self)))
           (Qle_bool (inject_Z (rsi_overbought self)) rsi)
           (fun action =>
              {| sig_symbol := rsi_symbol self;
                 sig_action := action;
                 sig_price := Close data;
                 sig_info := [("rsi", Fin rsi)] |}),
         self)
    | None => ([], self)
    end.

(** *** BreakoutStrategy

    [recent_high] and [recent_low] are attributes created by the first call;
    [None] is the attribute not yet set. *)

Record BreakoutStrategy : Type := mkBreakout {
  bo_symbol : string;
  bo_recent_high : option Q;
  bo_recent_low : option Q
}.

Definition BreakoutStrategy_init (symbol : string) : BreakoutStrategy :=
  {| bo_symbol := symbol; bo_recent_high := None; bo_recent_low := None |}.

#[export] Instance breakout_generate_signals : Strategy BreakoutStrategy :=
  fun self data =>
    let signals :=
      match bo_recent_high self, bo_recent_low self with
      | Some recent_high, Some recent_low =>
          buy_elif_sell (Qlt_bool (recent_high * 1.01) (Close data))
            (Qlt_bool (Close data) (recent_low * 0.99))
            (fun action =>
               {| sig_symbol := bo_symbol self;
                  sig_action := action;
                  sig_price := Close data;
                  sig_info :=
                    if decide (action = "BUY")
                    then [("breakout_level", Fin recent_high)]
                    else [("breakdown_level", Fin recent_low)] |})
      | _, _ => []
      end in
    let recent_high :=
      match bo_recent_high self with
      | Some h => if Qlt_bool h (High data) then High data else h
      | None => High data
      end in
    let recent_low :=
      match bo_recent_low self with
      | Some l => if Qlt_bool (Low data) l then Low data else l
      | None => Low data
      end in
    (signals,
     {| bo_symbol := bo_symbol self;
        bo_recent_high := Some recent_high;
        bo_recent_low := Some recent_low |}).

(** *** Any of the seven classes *)

Inductive PandasStrategy : Type :=
  | MovingAverageCrossover (s : MovingAverageCrossoverStrategy)
  | Scalping (s : ScalpingStrategy)
  | Momentum (s : MomentumStrategy)
  | MeanReversion (s : MeanReversionStrategy)
  | BollingerBands (s : BollingerBandsStrategy)
  | RSIStrat (s : RSIStrategy)
  | Breakout (s : BreakoutStrategy).

#[export] Instance pandas_generate_signals : Strategy PandasStrategy :=
  fun self data =>
    match self with
    | MovingAverageCrossover s => prod_map id MovingAverageCrossover (generate_signals s data)
    | Scalping s => prod_map id Scalping (generate_signals s data)
    | Momentum s => prod_map id Momentum (generate_signals s data)
    | MeanReversion s => prod_map id MeanReversion (generate_signals s data)
    | BollingerBands s => prod_map id BollingerBands (generate_signals s data)
    | RSIStrat s => prod_map id RSIStrat (generate_signals s data)
    | Breakout s => prod_map id Breakout (generate_signals s data)
    end.

(** ** The replay loop *)

Section Replay.
Context {S : Type} `{Strategy S}.

(** The body of [for signal in signals]. *)
Definition apply_signal (self : BacktestEngine) (symbol : string)
    (date : Timestamp) (signal : Signal) : outcome BacktestEngine :=
  if decide (sig_action signal = "BUY" /\ sig_symbol signal = symbol) then
    let quantity := calculate_position_size self (sig_price signal) in
    if (0 <? quantity)%Z
    then execute_trade self symbol "BUY" quantity (sig_price signal) date
    else Ok self
  else if decide (sig_action signal = "SELL" /\ sig_symbol signal = symbol) then
    match positions self !! symbol with
    | Some pos =>
        execute_trade self symbol "SELL" (pos_quantity pos) (sig_price signal) date
    | None => Ok self
    end
  else Ok self.

Fixpoint apply_signals (self : BacktestEngine) (symbol : string)
    (date : Timestamp) (signals : list Signal) : outcome BacktestEngine :=
  match signals with
  | [] => Ok self
  | signal :: rest =>
      self <-- apply_signal self symbol date signal ;;
      apply_signals self symbol date rest
  end.

(** [self.portfolio_values.append(...)] *)
Definition record_portfolio_value (self : BacktestEngine) (date : Timestamp)
    (close : Q) (symbol : string) : BacktestEngine :=
  {| initial_capital := initial_capital self;
     current_capital := current_capital self;
     positions := positions self;
     trade_history := trade_history self;
     portfolio_values :=
       portfolio_values self
       ++ [ {| ep_date := date;
               ep_portfolio_value := get_portfolio_value self close symbol;
               ep_price := close |} ];
     daily_returns := daily_returns self |}.

(** One iteration of [for date, row in data.iterrows()]. *)
Definition process_row (self : BacktestEngine) (strategy : S)
    (symbol : string) (date : Timestamp) (row : option Row)
    : outcome (BacktestEngine * S) :=
  match row with
  | None => Ok (self, strategy)
  | Some row =>
      let '(signals, strategy) := generate_signals strategy row in
      self <-- apply_signals self symbol date signals ;;
      Ok (record_portfolio_value self date (Close row) symbol, strategy)
  end.

Fixpoint replay (self : BacktestEngine) (strategy : S) (symbol : string)
    (data : DataFrame) : outcome (BacktestEngine * S) :=
  match data with
  | [] => Ok (self, strategy)
  | (date, row) :: rest =>
      st <-- process_row self strategy symbol date row ;;
      replay (fst st) (snd st) symbol rest
  end.
End Replay.

(** ** Performance metrics *)

(** [Timedelta.days]: whole days, rounded toward minus infinity. *)
Definition ns_per_day : Z := 86400000000000.
Definition timedelta_days (last_ first : Timestamp) : Z :=
  ((last_ - first) / ns_per_day)%Z.

(** [Series.expanding().max()] *)
Fixpoint expanding_max_from (peak : Q) (values : list Q) : list Q :=
  match values with
  | [] => []
  | v :: rest => let peak := Qmax peak v in peak :: expanding_max_from peak rest
  end.

Definition expanding_max (values : list Q) : list Q :=
  match values with
  | [] => []
  | v :: rest => v :: expanding_max_from v rest
  end.

(** The smaller of two floats, NaN being skipped. *)
Definition fmin (x y : float64) : float64 :=
  match x, y with
  | NaN, z | z, NaN => z
  | NegInf, _ | _, NegInf => NegInf
  | PosInf, z | z, PosInf => z
  | Fin a, Fin b => Fin (Qmin a b)
  end.

(** [Series.min()]: NaN entries are skipped, the result is NaN when nothing
    is left. *)
Definition series_min (xs : list float64) : float64 := foldr fmin NaN xs.

(** [calculate_max_drawdown] *)
Definition calculate_max_drawdown (portfolio_values : list Q) : float64 :=
  let peak := expanding_max portfolio_values in
  let drawdown := zip_with (fun v p => fdiv (v - p) p) portfolio_values peak in
  series_min drawdown.

Definition nan_to_zero (x : float64) : float64 := if isna x then Fin 0 else x.

(** The result dictionary of a completed run.  The Sharpe ratio and the
    two return columns of the frame need a square root and are left out;
    no statement below depends on them. *)
Record PerformanceReport : Type := mkReport {
  total_return : float64;
  annualized_return : float64;
  max_drawdown : float64;
  final_portfolio_value : Q;
  report_initial_capital : Q;
  total_trades : nat;
  report_portfolio_values : list EquityPoint;
  report_trade_history : list Trade
}.

Inductive BacktestResult : Type :=
  | ErrorResult (error : string)
  | Report (report : PerformanceReport).

Section Metrics.
(** The float power [x ** y]. *)
Variable float_pow : float64 -> Q -> float64.

(** [calculate_annualized_return] *)
Definition calculate_annualized_return (self : BacktestEngine)
    (df_values : list EquityPoint) : float64 :=
  if (length df_values <? 2)%nat then Fin 0
  else
    match head df_values, last df_values with
    | Some first, Some last_ =>
        let days := timedelta_days (ep_date last_) (ep_date first) in
        if (days =? 0)%Z then Fin 0
        else
          let total_return :=
            fsub (fdiv (ep_portfolio_value last_) (initial_capital self)) (Fin 1) in
          fsub (float_pow (fadd (Fin 1) total_return) (365 / inject_Z days)) (Fin 1)
    | _, _ => Fin 0
    end.

(** [calculate_performance_metrics] *)
Definition calculate_performance_metrics (self : BacktestEngine) : BacktestResult :=
  match last (portfolio_values self) with
  | None => ErrorResult "No portfolio values recorded"
  | Some final =>
      let total_return :=
        fdiv (ep_portfolio_value final - initial_capital self) (initial_capital self) in
      let annualized_return :=
        calculate_annualized_return self (portfolio_values self) in
      let max_drawdown :=
        calculate_max_drawdown (map ep_portfolio_value (portfolio_values self)) in
      Report
        {| total_return := nan_to_zero total_return;
           annualized_return := nan_to_zero annualized_return;
           max_drawdown := nan_to_zero max_drawdown;
           final_portfolio_value := ep_portfolio_value final;
           report_initial_capital := initial_capital self;
           total_trades := length (trade_history self);
           report_portfolio_values := portfolio_values self;
           report_trade_history := trade_history self |}
  end.

Context {S : Type} `{Strategy S}.

(** The first five assignments of [run_backtest]; [daily_returns] is not
    among them. *)
Definition reset (self : BacktestEngine) (capital : Q) : BacktestEngine :=
  {| initial_capital := capital;
     current_capital := capital;
     positions := ∅;
     trade_history := [];
     portfolio_values := [];
     daily_returns := daily_returns self |}.

(** [run_backtest], given the frame that [get_historical_data] returned.
    The result is the engine and the strategy object as the call leaves
    them, and the returned dictionary. *)
Definition run_backtest (self : BacktestEngine) (strategy : S)
    (symbol : string) (data : DataFrame) (capital : Q)
    : outcome (BacktestEngine * S * BacktestResult) :=
  let self := reset self capital in
  match data with
  | [] => Ok (self, strategy, ErrorResult ("No data available for " +:+ symbol))
  | _ =>
      st <-- replay self strategy symbol data ;;
      Ok (fst st, snd st, calculate_performance_metrics (fst st))
  end.
End Metrics.

(** * Vocabulary of the statements *)

(** Every held position has a positive quantity. *)
Definition positions_positive (self : BacktestEngine) : Prop :=
  forall s pos, positions self !! s = Some pos -> (0 < pos_quantity pos)%Z.

(** What every signal leaves untouched, and what it keeps true. *)
Record step_ok (self after : BacktestEngine) : Prop := {
  step_positions : positions_positive self -> positions_positive after;
  step_initial : initial_capital after = initial_capital self;
  step_values : portfolio_values after = portfolio_values self;
  step_returns : daily_returns after = daily_returns self;
  step_trades : exists new, trade_history after = trade_history self ++ new
}.

(** What a bar leaves untouched and what it keeps true; the equity curve
    only grows. *)
Record bar_ok (self after : BacktestEngine) : Prop := {
  bar_positions : positions_positive after;
  bar_initial : initial_capital after = initial_capital self;
  bar_returns : daily_returns after = daily_returns self;
  bar_trades : exists new, trade_history after = trade_history self ++ new;
  bar_values : exists new, portfolio_values after = portfolio_values self ++ new
}.

(** The two parts of the value of the held positions, as the specification
    words them: the priced symbol at the bar's close, every other held
    symbol at its average cost basis. *)
Definition priced_value (ps : gmap string Position) (symbol : string)
    (close : Q) : Q :=
  match ps !! symbol with
  | Some pos => inject_Z (pos_quantity pos) * close
  | None => 0
  end.

Definition at_cost (ps : gmap string Position) : Q :=
  map_fold (fun _ pos acc => acc + inject_Z (pos_quantity pos) * pos_avg_price pos)
    0 ps.

Definition others_at_cost (ps : gmap string Position) (symbol : string) : Q :=
  at_cost (delete symbol ps).

(** A power function for the concrete runs below: exact on whole exponents,
    NaN elsewhere.  The statements of this file hold for every power
    function; the concrete runs need one to be closed terms. *)
Definition sample_pow (x : float64) (y : Q) : float64 :=
  match x with
  | Fin q => if (Z.pos (Qden y) =? 1)%Z then Fin (q ^ Qnum y) else NaN
  | _ => NaN
  end.

(** The payload of a call that returned. *)
Definition returned {A : Type} (default : A) (o : outcome A) : A :=
  match o with Ok a => a | Raise _ => default end.

(** A bar whose four prices are [close] and whose indicators are all in
    warm-up. *)
Definition flat_bar (date : Timestamp) (close : Q) : Timestamp * option Row :=
  (date, Some (mkRow close close close close None None None None None None None)).

Definition three_bars : DataFrame :=
  [flat_bar 0%Z 100; flat_bar ns_per_day 90; flat_bar (2 * ns_per_day)%Z 99].

(** The claim C3 as it is worded: the second run receives the engine and
    the strategy object as the first run left them. *)
Definition reruns_indistinguishable {S : Type} `{Strategy S}
    (float_pow : float64 -> Q -> float64) (strategy : S) : Prop :=
  forall self symbol data capital after1 strategy1 result1 after2 strategy2 result2,
    run_backtest float_pow self strategy symbol data capital
    = Ok (after1, strategy1, result1) ->
    run_backtest float_pow after1 strategy1 symbol data capital
    = Ok (after2, strategy2, result2) ->
    portfolio_values after2 = portfolio_values after1
    /\ trade_history after2 = trade_history after1.

(** The first run of the counterexample to C3 and, on the engine and the
    strategy object it leaves behind, the second. *)
Definition scalping_first_run :
    outcome (BacktestEngine * ScalpingStrategy * BacktestResult) :=
  run_backtest sample_pow (BacktestEngine_init 100000)
    (ScalpingStrategy_init "AAPL") "AAPL" three_bars 1000.

Definition no_run : BacktestEngine * ScalpingStrategy * BacktestResult :=
  (BacktestEngine_init 0, ScalpingStrategy_init "", ErrorResult "").

Definition scalping_first : BacktestEngine * ScalpingStrategy * BacktestResult :=
  returned no_run scalping_first_run.

Definition scalping_second_run :
    outcome (BacktestEngine * ScalpingStrategy * BacktestResult) :=
  run_backtest sample_pow scalping_first.1.1 scalping_first.1.2 "AAPL"
    three_bars 1000.

Definition scalping_second : BacktestEngine * ScalpingStrategy * BacktestResult :=
  returned no_run scalping_second_run.

(** One call of [execute_trade]. *)
Record call : Type := mkCall {
  call_symbol : string;
  call_action : string;
  call_quantity : Z;
  call_price : Q;
  call_date : Timestamp
}.

(** The ledger after a call; a call that raises has written nothing. *)
Definition call_execute (self : BacktestEngine) (c : call) : BacktestEngine :=
  match execute_trade self (call_symbol c) (call_action c) (call_quantity c)
          (call_price c) (call_date c) with
  | Ok after => after
  | Raise _ => self
  end.

Definition execute_trades (self : BacktestEngine) (calls : list call)
    : BacktestEngine :=
  foldl call_execute self calls.

(** The total return as the specification words it:
    [(final_value - initial_capital) / initial_capital]. *)
Definition spec_total_return (self : BacktestEngine) (final : EquityPoint)
    : float64 :=
  fdiv (ep_portfolio_value final - initial_capital self) (initial_capital self).

(** The day count between the first and the last point of a curve. *)
Definition elapsed_days (df_values : list EquityPoint) : Z :=
  match head df_values, last df_values with
  | Some first, Some last_ => timedelta_days (ep_date last_) (ep_date first)
  | _, _ => 0
  end.

(** The drawdown series after a given running peak. *)
Definition drawdown_from (peak : Q) (values : list Q) : list float64 :=
  zip_with (fun v p => fdiv (v - p) p) values (expanding_max_from peak values).

(** The values never fall below the peak reached so far. *)
Fixpoint rises_from (peak : Q) (values : list Q) : Prop :=
  match values with
  | [] => True
  | v :: rest => peak <= v /\ rises_from v rest
  end.

(** The claim C7 as it is worded, for any curve. *)
Definition max_drawdown_claim (values : list Q) : Prop :=
  exists d,
    calculate_max_drawdown values = Fin d
    /\ d <= 0
    /\ (d == 0 <-> Sorted Qle values).

(** The signals a strategy can emit on the rows of a frame all carry a
    positive price. *)
Definition positive_prices (S : Type) `{Strategy S} (data : DataFrame) : Prop :=
  forall (strategy : S) date row,
    (date, Some row) ∈ data ->
    Forall (fun signal => 0 < sig_price signal) (generate_signals strategy row).1.

(** A Scalping object that has seen the close [p]. *)
Definition scalping_seen (symbol : string) (p : Q) : ScalpingStrategy :=
  mkScalping symbol (Some p) 0.

(** The engine at the end of the three-bar example: two shares bought at 99
    on the third bar. *)
Definition three_bar_final (self : BacktestEngine) (symbol : string)
    (d1 d2 d3 : Timestamp) : BacktestEngine :=
  let cost := inject_Z 2 * 99 in
  {| initial_capital := 1000;
     current_capital := 1000 - cost;
     positions := <[symbol := mkPosition 2 99 cost]> ∅;
     trade_history :=
       [mkTrade d3 symbol "BUY" 2 99 (Some cost) None (1000 - cost + inject_Z 2 * 99)];
     portfolio_values :=
       [mkEquityPoint d1 1000 100; mkEquityPoint d2 1000 90;
        mkEquityPoint d3 (1000 - cost + inject_Z 2 * 99) 99];
     daily_returns := daily_returns self |}.

(** * Vocabulary of the further properties *)

(** The cash a trade moved: the revenue of a SELL comes in, the cost of a
    BUY goes out. *)
Definition trade_cash_flow (t : Trade) : Q :=
  match trade_revenue t, trade_cost t with
  | Some revenue, _ => revenue
  | None, Some cost => - cost
  | None, None => 0
  end.

Definition cash_flows (ts : list Trade) : Q :=
  foldr (fun t acc => trade_cash_flow t + acc) 0 ts.

(** The shares of [symbol] a trade added to the holdings. *)
Definition trade_net_quantity (symbol : string) (t : Trade) : Z :=
  if decide (trade_symbol t = symbol) then
    if decide (trade_action t = "BUY") then trade_quantity t
    else (- trade_quantity t)%Z
  else 0%Z.

Definition net_quantity (symbol : string) (ts : list Trade) : Z :=
  foldr (fun t acc => (trade_net_quantity symbol t + acc)%Z) 0%Z ts.

(** The quantity held of a symbol, zero when it has no entry. *)
Definition held_quantity (self : BacktestEngine) (symbol : string) : Z :=
  match positions self !! symbol with
  | Some pos => pos_quantity pos
  | None => 0%Z
  end.

(** The cash is the initial capital plus the cash flows of the log. *)
Definition cash_balanced (self : BacktestEngine) : Prop :=
  current_capital self == initial_capital self + cash_flows (trade_history self).

(** The holdings are the net quantities of the log. *)
Definition holdings_balanced (self : BacktestEngine) : Prop :=
  forall s, held_quantity self s = net_quantity s (trade_history self).

(** The total cost of every position is its quantity at its average price. *)
Definition cost_basis_consistent (self : BacktestEngine) : Prop :=
  forall s pos, positions self !! s = Some pos ->
    pos_cost pos == inject_Z (pos_quantity pos) * pos_avg_price pos.

(** The rows of a frame that carry a close, as pairs of date and close. *)
Definition closes (data : DataFrame) : list (Timestamp * Q) :=
  omap (fun bar : Timestamp * option Row =>
          match bar.2 with
          | Some row => Some (bar.1, Close row)
          | None => None
          end) data.

(** No symbol other than [symbol] is held. *)
Definition only_symbol (symbol : string) (self : BacktestEngine) : Prop :=
  forall s, s <> symbol -> positions self !! s = None.

(** The [symbol] attribute of a strategy object. *)
Definition strategy_symbol (strategy : PandasStrategy) : string :=
  match strategy with
  | MovingAverageCrossover s => mac_symbol s
  | Scalping s => sc_symbol s
  | Momentum s => mom_symbol s
  | MeanReversion s => mr_symbol s
  | BollingerBands s => bb_symbol s
  | RSIStrat s => rsi_symbol s
  | Breakout s => bo_symbol s
  end.

(** The classes whose [generate_signals] assigns no attribute. *)
Definition stateless (strategy : PandasStrategy) : Prop :=
  match strategy with
  | Momentum _ | MeanReversion _ | BollingerBands _ | RSIStrat _ => True
  | _ => False
  end.

(** The signals a strategy object emits over successive rows, and the
    object they leave. *)
Fixpoint signals_over {S : Type} `{Strategy S} (strategy : S) (rows : list Row)
    : list Signal * S :=
  match rows with
  | [] => ([], strategy)
  | row :: rest =>
      let '(signals, strategy) := generate_signals strategy row in
      let '(later, strategy) := signals_over strategy rest in
      (signals ++ later, strategy)
  end.

(** Two concrete runs of a Scalping object over the three bars: one
    backtesting the object's own symbol, one backtesting another symbol. *)
Definition no_pandas_run : BacktestEngine * PandasStrategy * BacktestResult :=
  (BacktestEngine_init 0, Scalping (ScalpingStrategy_init ""), ErrorResult "").

Definition own_symbol_run : BacktestEngine * PandasStrategy * BacktestResult :=
  returned no_pandas_run
    (run_backtest sample_pow (BacktestEngine_init 100000)
       (Scalping (ScalpingStrategy_init "AAPL")) "AAPL" three_bars 1000).

Definition foreign_symbol_run : BacktestEngine * PandasStrategy * BacktestResult :=
  returned no_pandas_run
    (run_backtest sample_pow (BacktestEngine_init 100000)
       (Scalping (ScalpingStrategy_init "AAPL")) "MSFT" three_bars 1000).

(** The run of a [ScalpingStrategy] over the three bars with no capital. *)
Definition zero_capital_run
    : BacktestEngine * PandasStrategy * BacktestResult :=
  returned no_pandas_run
    (run_backtest sample_pow (BacktestEngine_init 100000)
       (Scalping (ScalpingStrategy_init "AAPL")) "AAPL" three_bars 0).

(** * The live strategies of [trading_strategies.py] *)

(** [l[start:]] for a possibly negative [start]. *)
Definition slice_from {A : Type} (start : Z) (l : list A) : list A :=
  if (start <? 0)%Z
  then drop (Z.to_nat (Z.of_nat (length l) + start)) l
  else drop (Z.to_nat start) l.

(** [l[i]] for a possibly negative [i]; [None] is IndexError. *)
Definition py_index {A : Type} (l : list A) (i : Z) : option A :=
  if (i <? 0)%Z then
    if (Z.of_nat (length l) + i <? 0)%Z then None
    else l !! Z.to_nat (Z.of_nat (length l) + i)
  else l !! Z.to_nat i.

(** [np.mean]: NaN on an empty array. *)
Definition np_mean (xs : list Q) : float64 :=
  fdiv (foldr Qplus 0 xs) (inject_Z (Z.of_nat (length xs))).

(** Comparisons between two floats; false as soon as one is NaN. *)
Definition fgt2 (x y : float64) : bool :=
  match x, y with
  | NaN, _ | _, NaN => false
  | Fin a, Fin b => Qlt_bool b a
  | PosInf, PosInf | NegInf, NegInf => false
  | PosInf, _ | _, NegInf => true
  | _, _ => false
  end.

Definition flt2 (x y : float64) : bool := fgt2 y x.

(** The product of a finite factor and a float. *)
Definition fscale (a : Q) (x : float64) : float64 :=
  match x with
  | Fin b => Fin (a * b)
  | NaN => NaN
  | PosInf =>
      if Qeq_bool a 0 then NaN else if Qlt_bool 0 a then PosInf else NegInf
  | NegInf =>
      if Qeq_bool a 0 then NaN else if Qlt_bool 0 a then NegInf else PosInf
  end.

(** One entry of the market data handed to a strategy: the dictionary a
    ticker fills, each key present or not. *)
Record Tick : Type := mkTick {
  tick_price : option Q;
  tick_tickType : option Z;
  tick_size : option Z
}.

(** The market data: keys in insertion order, each with its entry. *)
Definition MarketData : Type := list (string * Tick).

(** One entry of the dictionary [calculate_signals] returns. *)
Record LiveSignal : Type := mkLiveSignal {
  live_price : Q;
  live_signal : string;
  live_info : list (string * float64)
}.

(** [f"SYMBOL_{reqId}"] for a key that is a string. *)
Definition symbol_of_key (key : string) : string := "SYMBOL_" +:+ key.

(** [update_price_history], the same in the three classes up to the name
    of the window attribute. *)
Definition update_price_history (window : Z)
    (price_history : gmap string (list Q)) (symbol : string) (price : Q)
    : gmap string (list Q) :=
  let prices := default [] (price_history !! symbol) ++ [price] in
  if (window + 1 <? Z.of_nat (length prices))%Z
  then <[symbol := slice_from (- window - 1) prices]> price_history
  else <[symbol := prices]> price_history.

(** [get_position_size], the same in the three classes up to the fraction
    of the account. *)
Definition get_position_size (fraction : Q) (account_value : Q) : Z :=
  Z.max 1 (py_int (account_value * fraction / 100)).

(** The attributes [name], [positions] and [trade_history] of the base
    class, which no method reads, are left out of the records. *)
Module TradingStrategies.

(** The loop shared by the three [calculate_signals]: every entry with a
    positive ['price'] is filed under the symbol made from its key, and the
    class decides what to do with the price.  [on_price] returns the object
    after its history was updated and either an exception ([None]), no
    entry, or the entry to store under the symbol.  The result of the loop
    is [None] when an exception left it. *)
Definition scan_market {S : Type}
    (on_price : S -> string -> Q -> S * option (option LiveSignal))
    (self : S) (market_data : MarketData)
    : S * option (gmap string LiveSignal) :=
  foldl
    (fun (acc : S * option (gmap string LiveSignal)) (item : string * Tick) =>
       match acc.2 with
       | None => acc
       | Some signals =>
           match tick_price item.2 with
           | Some price =>
               if Qlt_bool 0 price then
                 let symbol := symbol_of_key item.1 in
                 let out := on_price acc.1 symbol price in
                 match out.2 with
                 | None => (out.1, None)
                 | Some None => (out.1, Some signals)
                 | Some (Some entry) =>
                     (out.1, Some (<[symbol := entry]> signals))
                 end
               else acc
           | None => acc
           end
       end)
    (self, Some ∅) market_data.

(** [symbol in signals and signals[symbol]['signal'] == action] *)
Definition has_signal (signals : gmap string LiveSignal)
    (symbol action : string) : bool :=
  match signals !! symbol with
  | Some entry => bool_decide (live_signal entry = action)
  | None => false
  end.

(** *** MovingAverageCrossover *)

Record MovingAverageCrossover : Type := mkMovingAverageCrossover {
  short_window : Z;
  long_window : Z;
  ma_price_history : gmap string (list Q)
}.

Definition MovingAverageCrossover_init (short_window long_window : Z)
    : MovingAverageCrossover :=
  mkMovingAverageCrossover short_window long_window ∅.

Definition ma_on_price (self : MovingAverageCrossover) (symbol : string)
    (price : Q) : MovingAverageCrossover * option (option LiveSignal) :=
  let self :=
    mkMovingAverageCrossover (short_window self) (long_window self)
      (update_price_history (long_window self) (ma_price_history self)
         symbol price) in
  let prices := default [] (ma_price_history self !! symbol) in
  if (long_window self <=? Z.of_nat (length prices))%Z then
    let short_ma := np_mean (slice_from (- short_window self) prices) in
    let long_ma := np_mean (slice_from (- long_window self) prices) in
    (self,
     Some (Some {| live_price := price;
                   live_signal :=
                     if fgt2 short_ma long_ma then "BUY"
                     else if flt2 short_ma long_ma then "SELL" else "HOLD";
                   live_info := [("short_ma", short_ma);
                                 ("long_ma", long_ma)] |}))
  else (self, Some None).

Definition ma_calculate_signals (self : MovingAverageCrossover)
    (market_data : MarketData) :=
  scan_market ma_on_price self market_data.

(** *** MomentumStrategy *)

Record MomentumStrategy : Type := mkMomentumStrategy {
  lookback_period : Z;
  momentum_threshold : Q;
  mom_price_history : gmap string (list Q)
}.

Definition MomentumStrategy_init (lookback_period : Z)
    (momentum_threshold : Q) : MomentumStrategy :=
  mkMomentumStrategy lookback_period momentum_threshold ∅.

(** [calculate_momentum]; [None] is the IndexError of [prices[-k]]. *)
Definition calculate_momentum (self : MomentumStrategy) (prices : list Q)
    : option Q :=
  if (length prices <? 2)%nat then Some 0
  else
    current_price ← py_index prices (-1);
    past_price ← py_index prices
                   (- Z.min (Z.of_nat (length prices)) (lookback_period self));
    if Qeq_bool past_price 0 then Some 0
    else Some ((current_price - past_price) / past_price).

Definition mom_on_price (self : MomentumStrategy) (symbol : string)
    (price : Q) : MomentumStrategy * option (option LiveSignal) :=
  let self :=
    mkMomentumStrategy (lookback_period self) (momentum_threshold self)
      (update_price_history (lookback_period self) (mom_price_history self)
         symbol price) in
  let prices := default [] (mom_price_history self !! symbol) in
  if (2 <=? length prices)%nat then
    match calculate_momentum self prices with
    | Some momentum =>
        (self,
         Some (Some {| live_price := price;
                       live_signal :=
                         if Qlt_bool (momentum_threshold self) momentum
                         then "BUY"
                         else if Qlt_bool momentum (- momentum_threshold self)
                              then "SELL" else "HOLD";
                       live_info := [("momentum", Fin momentum)] |}))
    | None => (self, None)
    end
  else (self, Some None).

Definition mom_calculate_signals (self : MomentumStrategy)
    (market_data : MarketData) :=
  scan_market mom_on_price self market_data.

(** *** MeanReversion *)

Record MeanReversion : Type := mkMeanReversion {
  window : Z;
  std_dev : Q;
  mr_price_history : gmap string (list Q)
}.

Definition MeanReversion_init (window : Z) (std_dev : Q) : MeanReversion :=
  mkMeanReversion window std_dev ∅.

(** The dictionary of [calculate_bollinger_bands]. *)
Record Bands : Type := mkBands {
  upper_band : float64;
  lower_band : float64;
  middle_band : float64;
  band_std : float64
}.

Section MeanReversionClass.
(** [np.std], the population standard deviation: a square root. *)
Variable np_std : list Q -> float64.

(** [calculate_bollinger_bands]; [None] is the empty dictionary. *)
Definition calculate_bollinger_bands (self : MeanReversion) (prices : list Q)
    : option Bands :=
  if (Z.of_nat (length prices) <? window self)%Z then None
  else
    let prices_array := slice_from (- window self) prices in
    let sma := np_mean prices_array in
    let std := np_std prices_array in
    Some {| upper_band := fadd sma (fscale (std_dev self) std);
            lower_band := fsub sma (fscale (std_dev self) std);
            middle_band := sma;
            band_std := std |}.

Definition mr_on_price (self : MeanReversion) (symbol : string) (price : Q)
    : MeanReversion * option (option LiveSignal) :=
  let self :=
    mkMeanReversion (window self) (std_dev self)
      (update_price_history (window self) (mr_price_history self) symbol
         price) in
  let prices := default [] (mr_price_history self !! symbol) in
  if (window self <=? Z.of_nat (length prices))%Z then
    match calculate_bollinger_bands self prices with
    | Some bands =>
        (self,
         Some (Some {| live_price := price;
                       live_signal :=
                         if fge (lower_band bands) price then "BUY"
                         else if fle (upper_band bands) price then "SELL"
                         else "HOLD";
                       live_info := [("upper_band", upper_band bands);
                                     ("lower_band", lower_band bands);
                                     ("middle_band", middle_band bands)] |}))
    | None => (self, Some None)
    end
  else (self, Some None).

Definition mr_calculate_signals (self : MeanReversion)
    (market_data : MarketData) :=
  scan_market mr_on_price self market_data.

(** *** Any of the three classes *)

Inductive TradingStrategy : Type :=
  | IsMovingAverageCrossover (s : MovingAverageCrossover)
  | IsMeanReversion (s : MeanReversion)
  | IsMomentumStrategy (s : MomentumStrategy).

Definition calculate_signals (self : TradingStrategy) (market_data : MarketData)
    : TradingStrategy * option (gmap string LiveSignal) :=
  match self with
  | IsMovingAverageCrossover s =>
      prod_map IsMovingAverageCrossover id (ma_calculate_signals s market_data)
  | IsMeanReversion s =>
      prod_map IsMeanReversion id (mr_calculate_signals s market_data)
  | IsMomentumStrategy s =>
      prod_map IsMomentumStrategy id (mom_calculate_signals s market_data)
  end.

(** [should_buy] and [should_sell]: each runs [calculate_signals], so each
    leaves the object with its histories extended. *)
Definition should_buy (self : TradingStrategy) (symbol : string)
    (market_data : MarketData) : TradingStrategy * option bool :=
  let out := calculate_signals self market_data in
  (out.1, (fun signals => has_signal signals symbol "BUY") <$> out.2).

Definition should_sell (self : TradingStrategy) (symbol : string)
    (market_data : MarketData) : TradingStrategy * option bool :=
  let out := calculate_signals self market_data in
  (out.1, (fun signals => has_signal signals symbol "SELL") <$> out.2).

(** [get_position_size] of each class. *)
Definition position_size (self : TradingStrategy) (account_value : Q) : Z :=
  match self with
  | IsMovingAverageCrossover _ => get_position_size 0.05 account_value
  | IsMeanReversion _ => get_position_size 0.03 account_value
  | IsMomentumStrategy _ => get_position_size 0.07 account_value
  end.

(** The price history of an object. *)
Definition price_history (self : TradingStrategy) : gmap string (list Q) :=
  match self with
  | IsMovingAverageCrossover s => ma_price_history s
  | IsMeanReversion s => mr_price_history s
  | IsMomentumStrategy s => mom_price_history s
  end.

(** *** StrategyManager *)

Record StrategyManager : Type := mkStrategyManager {
  strategies : gmap string TradingStrategy;
  active_strategy : string
}.

Definition StrategyManager_init : StrategyManager :=
  {| strategies :=
       <["momentum" := IsMomentumStrategy (MomentumStrategy_init 10 0.02)]>
         (<["mean_reversion" := IsMeanReversion (MeanReversion_init 20 2)]>
            (<["ma_crossover" :=
                 IsMovingAverageCrossover
                   (MovingAverageCrossover_init 10 30)]> ∅));
     active_strategy := "ma_crossover" |}.

Definition get_strategy (self : StrategyManager) (name : string)
    : option TradingStrategy :=
  strategies self !! name.

Definition set_active_strategy (self : StrategyManager) (name : string)
    : StrategyManager :=
  if decide (is_Some (strategies self !! name))
  then {| strategies := strategies self; active_strategy := name |}
  else self.

(** [get_active_strategy]; [None] is the KeyError of the lookup. *)
Definition get_active_strategy (self : StrategyManager)
    : option TradingStrategy :=
  strategies self !! active_strategy self.
End MeanReversionClass.

End TradingStrategies.

(** * Vocabulary of the properties of the live strategies *)

(** The last [n] elements of a list. *)
Definition last_prices {A : Type} (n : nat) (l : list A) : list A :=
  drop (length l - n) l.

(** [update_price_history] called once for each of [prices], in order. *)
Definition record_prices (window : Z) (price_history : gmap string (list Q))
    (symbol : string) (prices : list Q) : gmap string (list Q) :=
  foldl (fun h price => update_price_history window h symbol price)
    price_history prices.

(** The window attribute of an object: [long_window], [window] or
    [lookback_period]. *)
Definition history_window (self : TradingStrategies.TradingStrategy) : Z :=
  match self with
  | TradingStrategies.IsMovingAverageCrossover s =>
      TradingStrategies.long_window s
  | TradingStrategies.IsMeanReversion s => TradingStrategies.window s
  | TradingStrategies.IsMomentumStrategy s =>
      TradingStrategies.lookback_period s
  end.

(** [update_price_history] called once for each entry of the market data
    that carries a positive price, under the symbol made from its key. *)
Definition record_market (window : Z) (price_history : gmap string (list Q))
    (market_data : MarketData) : gmap string (list Q) :=
  foldl
    (fun h (item : string * Tick) =>
       match tick_price item.2 with
       | Some price =>
           if Qlt_bool 0 price
           then update_price_history window h (symbol_of_key item.1) price
           else h
       | None => h
       end)
    price_history market_data.

(** A market-data entry that carries a price and nothing else. *)
Definition price_tick (price : Q) : Tick := mkTick (Some price) None None.

(** The fraction of the account a class sizes a position at, at an assumed
    100 per share. *)
Definition account_fraction (self : TradingStrategies.TradingStrategy) : Q :=
  match self with
  | TradingStrategies.IsMovingAverageCrossover _ => 0.05
  | TradingStrategies.IsMeanReversion _ => 0.03
  | TradingStrategies.IsMomentumStrategy _ => 0.07
  end.

(** The names [set_active_strategy] accepts, out of a list of requests. *)
Definition registered_names (self : TradingStrategies.StrategyManager)
    (names : list string) : list string :=
  filter (fun name => is_Some (TradingStrategies.strategies self !! name))
    names.

(** A [MomentumStrategy] that has seen one price of key 1. *)
Definition momentum_after_100 : TradingStrategies.TradingStrategy :=
  TradingStrategies.IsMomentumStrategy
    (TradingStrategies.mkMomentumStrategy 10 0.02 {["SYMBOL_1" := [100]]}).

(** A stand-in for [np.std] where its value plays no part. *)
Definition no_std (prices : list Q) : float64 := NaN.

(** * The indicators of [backtester.py] *)

(** A column of prices is a list with a number in each row, or [None] for
    NaN. *)

(** [prices.diff()]: NaN in the first row and wherever one of the two
    prices is NaN. *)
Definition diff (prices : list (option Q)) : list (option Q) :=
  match prices with
  | [] => []
  | _ :: later =>
      None :: zip_with
                (fun price previous =>
                   match price, previous with
                   | Some a, Some b => Some (a - b)
                   | _, _ => None
                   end)
                later prices
  end.

(** [delta.where(delta > 0, 0)]: a NaN compares false and becomes 0. *)
Definition gains (delta : list (option Q)) : list Q :=
  map (fun d => match d with
                | Some x => if Qlt_bool 0 x then x else 0
                | None => 0
                end) delta.

(** [-delta.where(delta < 0, 0)] *)
Definition losses (delta : list (option Q)) : list Q :=
  map (fun d => - match d with
                  | Some x => if Qlt_bool x 0 then x else 0
                  | None => 0
                  end) delta.

(** The sum of the [window] values that end in row [i]. *)
Definition window_sum (window i : nat) (xs : list Q) : Q :=
  foldr Qplus 0 (take window (drop (i + 1 - window) xs)).

(** [.rolling(window=window).mean()] of a column without NaN: NaN until
    [window] rows are there (and in every row when [window] is 0), then the
    mean of the last [window] rows. *)
Definition rolling_mean (window : nat) (xs : list Q) : list (option Q) :=
  imap (fun i _ =>
          if (i + 1 <? window)%nat || (window =? 0)%nat then None
          else Some (window_sum window i xs / inject_Z (Z.of_nat window)))
    xs.

(** [a / x] for a float [x]. *)
Definition qdivf (a : Q) (x : float64) : float64 :=
  match x with
  | Fin b => fdiv a b
  | PosInf | NegInf => Fin 0
  | NaN => NaN
  end.

(** [calculate_rsi]; [None] is the ValueError of a negative window. *)
Definition calculate_rsi (prices : list (option Q)) (period : Z)
    : option (list float64) :=
  if (period <? 0)%Z then None
  else
    let delta := diff prices in
    let gain := rolling_mean (Z.to_nat period) (gains delta) in
    let loss := rolling_mean (Z.to_nat period) (losses delta) in
    let rs := zip_with
                (fun g l => match g, l with
                            | Some a, Some b => fdiv a b
                            | _, _ => NaN
                            end)
                gain loss in
    Some (map (fun r => fsub (Fin 100) (qdivf 100 (fadd (Fin 1) r))) rs).

(** * Vocabulary of the properties of the indicators *)

(** Four closes: up 2, down 1, flat. *)
Definition four_closes : list (option Q) :=
  [Some 10; Some 12; Some 11; Some 11].

(** What a run leaves behind apart from the strategy object: the engine
    and the returned dictionary, or the exception. *)
Definition engine_and_report {S : Type}
    (out : outcome (BacktestEngine * S * BacktestResult))
    : outcome (BacktestEngine * BacktestResult) :=
  match out with
  | Ok (self, _, result) => Ok (self, result)
  | Raise e => Raise e
  end.

(** [calculate_signals] called once for each of [prices], every time with a
    market data that holds this price under the one key; the object and
    the dictionary the last call leaves. *)
Definition feed_key (np_std : list Q -> float64)
    (self : TradingStrategies.TradingStrategy) (key : string)
    (prices : list Q)
    : TradingStrategies.TradingStrategy * option (gmap string LiveSignal) :=
  foldl
    (fun acc price =>
       TradingStrategies.calculate_signals np_std acc.1
         [(key, price_tick price)])
    (self, Some ∅) prices.

(** The number of prices a class wants in a history before it files a
    signal: [long_window], [window], or 2. *)
Definition warm_up (self : TradingStrategies.TradingStrategy) : Z :=
  match self with
  | TradingStrategies.IsMovingAverageCrossover s =>
      TradingStrategies.long_window s
  | TradingStrategies.IsMeanReversion s => TradingStrategies.window s
  | TradingStrategies.IsMomentumStrategy _ => 2
  end.

(** * Properties *)

(** ** Arithmetic helpers *)

Lemma Qlt_bool_iff (x y : Q) : Qlt_bool x y = true <-> x < y.
Proof.
  unfold Qlt_bool. rewrite negb_true_iff.
  split; intros Hxy.
  - apply Qnot_le_lt. intros Hle. apply Qle_bool_iff in Hle. congruence.
  - destruct (Qle_bool y x) eqn:E; [|done].
    apply Qle_bool_iff in E. lra.
Qed.

Lemma Qlt_bool_false (x y : Q) : Qlt_bool x y = false <-> y <= x.
Proof.
  unfold Qlt_bool. rewrite negb_false_iff. apply Qle_bool_iff.
Qed.

Lemma Qle_bool_false (x y : Q) : Qle_bool x y = false <-> y < x.
Proof.
  rewrite <- Qlt_bool_iff. unfold Qlt_bool.
  destruct (Qle_bool x y); simpl; split; congruence.
Qed.

Lemma py_int_floor (x : Q) : 0 <= x -> py_int x = Qfloor x.
Proof.
  intros Hx. destruct x as [n d]. unfold py_int, Qfloor. simpl.
  apply Z.quot_div_nonneg; [|lia].
  unfold Qle in Hx. simpl in Hx. lia.
Qed.

Lemma py_int_le (x : Q) : 0 <= x -> inject_Z (py_int x) <= x.
Proof. intros Hx. rewrite py_int_floor by done. apply Qfloor_le. Qed.

Lemma py_int_nonpos (x : Q) : x <= 0 -> (py_int x <= 0)%Z.
Proof.
  intros Hx. destruct x as [n d]. unfold py_int. simpl.
  unfold Qle in Hx. simpl in Hx.
  assert (Hn : (n <= 0)%Z) by lia.
  replace n with (- (- n))%Z by lia.
  rewrite Z.quot_opp_l by lia.
  pose proof (Z.quot_pos (- n) (Z.pos d)). lia.
Qed.

Lemma inject_Z_pos (z : Z) : (0 < z)%Z -> 0 < inject_Z z.
Proof. intros Hz. change 0 with (inject_Z 0). by rewrite <- Zlt_Qlt. Qed.

Lemma inject_Z_nonneg (z : Z) : (0 <= z)%Z -> 0 <= inject_Z z.
Proof. intros Hz. change 0 with (inject_Z 0). by rewrite <- Zle_Qle. Qed.

(** The sized quantity never costs more than a fifth of a non-negative cash
    balance. *)
Lemma position_size_cost (self : BacktestEngine) (price : Q) :
  0 <= current_capital self -> 0 < price ->
  inject_Z (calculate_position_size self price) * price
  <= current_capital self * 0.2.
Proof.
  intros Hc Hp. unfold calculate_position_size.
  apply Qlt_bool_iff in Hp as Hb. rewrite Hb.
  set (x := current_capital self * 0.2 / price).
  assert (Hx : 0 <= x).
  { unfold x. apply Qle_shift_div_l; [done|]. lra. }
  apply py_int_le in Hx.
  assert (E : x * price == current_capital self * 0.2).
  { unfold x. field. lra. }
  rewrite <- E. apply Qmult_le_compat_r; [done | lra].
Qed.

(** A positive size needs a positive price and a positive balance. *)
Lemma position_size_pos (self : BacktestEngine) (price : Q) :
  (0 < calculate_position_size self price)%Z ->
  0 < price /\ 0 < current_capital self.
Proof.
  unfold calculate_position_size. intros Hq.
  destruct (Qlt_bool 0 price) eqn:Hb; [|lia].
  apply Qlt_bool_iff in Hb. split; [done|].
  apply Qnot_le_lt. intros Hc.
  assert (Hx : current_capital self * 0.2 / price <= 0).
  { apply Qle_shift_div_r; [done|]. lra. }
  apply py_int_nonpos in Hx. lia.
Qed.

(** ** The ledger, one call at a time *)

Lemma positions_positive_init (capital : Q) :
  positions_positive (BacktestEngine_init capital).
Proof. intros s pos Hs. simpl in Hs. by rewrite lookup_empty in Hs. Qed.

(** A BUY either changes nothing, raises, or writes the position and the
    trade. *)
Lemma execute_trade_buy (self : BacktestEngine) (symbol : string)
    (quantity : Z) (price : Q) (date : Timestamp) :
  let cost := inject_Z quantity * price in
  execute_trade self symbol "BUY" quantity price date =
    if Qle_bool cost (current_capital self) then
      position <-- bought_position (positions self !! symbol) quantity price cost ;;
      let self' := with_ledger self (current_capital self - cost)
                     (<[symbol := position]> (positions self)) in
      Ok (record_trade self'
            (mkTrade date symbol "BUY" quantity price (Some cost) None
               (get_portfolio_value self' price symbol)))
    else Ok self.
Proof. reflexivity. Qed.

Lemma execute_trade_sell (self : BacktestEngine) (symbol : string)
    (quantity : Z) (price : Q) (date : Timestamp) :
  execute_trade self symbol "SELL" quantity price date =
    match positions self !! symbol with
    | Some pos =>
        let quantity_to_sell := Z.min quantity (pos_quantity pos) in
        let revenue := inject_Z quantity_to_sell * price in
        let pos' :=
          mkPosition (pos_quantity pos - quantity_to_sell) (pos_avg_price pos)
            (pos_cost pos - inject_Z quantity_to_sell * pos_avg_price pos) in
        let self' :=
          with_ledger self (current_capital self + revenue)
            (if (pos_quantity pos' <=? 0)%Z then delete symbol (positions self)
             else <[symbol := pos']> (positions self)) in
        Ok (record_trade self'
              (mkTrade date symbol "SELL" quantity_to_sell price None (Some revenue)
                 (get_portfolio_value self' price symbol)))
    | None => Ok self
    end.
Proof. reflexivity. Qed.

Lemma bought_position_ok (held : option Position) (quantity : Z) (price cost : Q) :
  (0 < quantity)%Z ->
  (forall pos, held = Some pos -> (0 < pos_quantity pos)%Z) ->
  exists pos, bought_position held quantity price cost = Ok pos
              /\ (0 < pos_quantity pos)%Z.
Proof.
  intros Hq Hheld. unfold bought_position.
  destruct held as [pos|].
  - specialize (Hheld pos eq_refl).
    destruct (Z.eqb_spec (pos_quantity pos + quantity) 0) as [E|E]; [lia|].
    eexists. split; [done|]. simpl. lia.
  - eexists. split; [done|]. done.
Qed.

(** ** The loop body, one signal at a time *)

Lemma apply_signal_buy (self : BacktestEngine) (symbol : string)
    (date : Timestamp) (signal : Signal) :
  sig_action signal = "BUY" -> sig_symbol signal = symbol ->
  apply_signal self symbol date signal =
    let quantity := calculate_position_size self (sig_price signal) in
    if (0 <? quantity)%Z
    then execute_trade self symbol "BUY" quantity (sig_price signal) date
    else Ok self.
Proof.
  intros Ha Hs. unfold apply_signal.
  destruct (decide _) as [_|Hn]; [done|]. by destruct Hn.
Qed.

Lemma apply_signal_sell (self : BacktestEngine) (symbol : string)
    (date : Timestamp) (signal : Signal) :
  sig_action signal = "SELL" -> sig_symbol signal = symbol ->
  apply_signal self symbol date signal =
    match positions self !! symbol with
    | Some pos =>
        execute_trade self symbol "SELL" (pos_quantity pos) (sig_price signal) date
    | None => Ok self
    end.
Proof.
  intros Ha Hs. unfold apply_signal.
  destruct (decide _) as [[Hb _]|_]; [congruence|].
  destruct (decide _) as [_|Hn]; [done|]. by destruct Hn.
Qed.

(** A sized BUY passes the cash test of the ledger and is recorded. *)
Lemma sized_buy_recorded (self : BacktestEngine) (symbol : string)
    (date : Timestamp) (price : Q) :
  let quantity := calculate_position_size self price in
  let cost := inject_Z quantity * price in
  (0 < quantity)%Z -> positions_positive self ->
  exists pos,
    bought_position (positions self !! symbol) quantity price cost = Ok pos
    /\ (0 < pos_quantity pos)%Z
    /\ cost <= current_capital self * 0.2
    /\ execute_trade self symbol "BUY" quantity price date =
         let self' := with_ledger self (current_capital self - cost)
                        (<[symbol := pos]> (positions self)) in
         Ok (record_trade self'
               (mkTrade date symbol "BUY" quantity price (Some cost) None
                  (get_portfolio_value self' price symbol))).
Proof.
  intros quantity cost Hq Hpos.
  destruct (position_size_pos self price Hq) as [Hp Hc].
  assert (Hcost : cost <= current_capital self * 0.2).
  { apply position_size_cost; [lra | done]. }
  destruct (bought_position_ok (positions self !! symbol) quantity price cost Hq)
    as (pos & Hb & Hpq).
  { intros pos0 Hl. by apply (Hpos symbol). }
  exists pos. repeat split; try done.
  rewrite execute_trade_buy. fold quantity. fold cost.
  assert (Hle : Qle_bool cost (current_capital self) = true).
  { apply Qle_bool_iff. lra. }
  rewrite Hle, Hb. reflexivity.
Qed.

(** A SELL signal on a held position sells all of it. *)
Lemma full_sell (self : BacktestEngine) (symbol : string) (date : Timestamp)
    (price : Q) (held : Position) :
  positions self !! symbol = Some held ->
  execute_trade self symbol "SELL" (pos_quantity held) price date =
    let revenue := inject_Z (pos_quantity held) * price in
    let self' := with_ledger self (current_capital self + revenue)
                   (delete symbol (positions self)) in
    Ok (record_trade self'
          (mkTrade date symbol "SELL" (pos_quantity held) price None (Some revenue)
             (get_portfolio_value self' price symbol))).
Proof.
  intros Hheld. rewrite execute_trade_sell, Hheld. cbn zeta.
  rewrite Z.min_id. cbn [pos_quantity].
  replace (pos_quantity held - pos_quantity held)%Z with 0%Z by lia.
  reflexivity.
Qed.

Lemma step_ok_refl (self : BacktestEngine) : step_ok self self.
Proof. split; try done. exists []. by rewrite app_nil_r. Qed.

Lemma step_ok_trans (a b c : BacktestEngine) :
  step_ok a b -> step_ok b c -> step_ok a c.
Proof.
  intros [P1 I1 V1 R1 [n1 T1]] [P2 I2 V2 R2 [n2 T2]]. split.
  - auto.
  - congruence.
  - congruence.
  - congruence.
  - exists (n1 ++ n2). rewrite T2, T1. by rewrite app_assoc.
Qed.

Lemma apply_signal_step (self : BacktestEngine) (symbol : string)
    (date : Timestamp) (signal : Signal) :
  positions_positive self ->
  exists after, apply_signal self symbol date signal = Ok after
                /\ step_ok self after.
Proof.
  intros Hpos. unfold apply_signal.
  destruct (decide _) as [[Ha Hs]|_].
  - destruct (Z.ltb_spec 0 (calculate_position_size self (sig_price signal)))
      as [Hq|Hq]; [|exists self; split; [done | apply step_ok_refl]].
    destruct (sized_buy_recorded self symbol date (sig_price signal) Hq Hpos)
      as (pos & _ & Hpq & _ & ->).
    eexists. split; [done|]. split; simpl; try done.
    + intros _ s p. cbn [positions record_trade with_ledger]. destruct (decide (symbol = s)) as [->|Hne].
      * rewrite lookup_insert_eq. by intros [= <-].
      * rewrite lookup_insert_ne by done. apply Hpos.
    + by eexists.
  - destruct (decide _) as [[Ha Hs]|_]; [|exists self; split; [done | apply step_ok_refl]].
    destruct (positions self !! symbol) as [held|] eqn:Hheld;
      [|exists self; split; [done | apply step_ok_refl]].
    rewrite (full_sell self symbol date (sig_price signal) held Hheld).
    eexists. split; [done|]. split; simpl; try done.
    + intros _ s p. cbn [positions record_trade with_ledger]. destruct (decide (symbol = s)) as [->|Hne].
      * by rewrite lookup_delete_eq.
      * rewrite lookup_delete_ne by done. apply Hpos.
    + by eexists.
Qed.

Lemma apply_signals_step (self : BacktestEngine) (symbol : string)
    (date : Timestamp) (signals : list Signal) :
  positions_positive self ->
  exists after, apply_signals self symbol date signals = Ok after
                /\ step_ok self after.
Proof.
  revert self. induction signals as [|signal rest IH]; intros self Hpos.
  - exists self. split; [done | apply step_ok_refl].
  - destruct (apply_signal_step self symbol date signal Hpos) as (mid & Hmid & Hok).
    destruct (IH mid (step_positions _ _ Hok Hpos)) as (after & Hafter & Hok').
    exists after. split.
    + simpl. rewrite Hmid. exact Hafter.
    + by eapply step_ok_trans.
Qed.

(** ** Mark to market *)

Lemma Qplus_shuffle (y a b : Q) : y + b + a == y + a + b.
Proof. ring. Qed.

Lemma at_cost_insert (ps : gmap string Position) (s : string) (pos : Position) :
  ps !! s = None ->
  at_cost (<[s := pos]> ps)
  == at_cost ps + inject_Z (pos_quantity pos) * pos_avg_price pos.
Proof.
  intros Hs. unfold at_cost.
  exact (map_fold_insert Qeq
           (fun _ p acc => acc + inject_Z (pos_quantity p) * pos_avg_price p)
           0 s pos ps
           (fun _ _ a b Hab => Qplus_comp _ _ Hab _ _ (Qeq_refl _))
           (fun _ _ z1 z2 y _ _ _ =>
              Qplus_shuffle y (inject_Z (pos_quantity z1) * pos_avg_price z1)
                (inject_Z (pos_quantity z2) * pos_avg_price z2))
           Hs).
Qed.

Lemma portfolio_fold_split (cash price : Q) (symbol : string)
    (ps : gmap string Position) :
  map_fold
    (fun pos_symbol position portfolio_value =>
       if decide (pos_symbol = symbol)
       then portfolio_value + inject_Z (pos_quantity position) * price
       else portfolio_value
            + inject_Z (pos_quantity position) * pos_avg_price position)
    cash ps
  == cash + priced_value ps symbol price + others_at_cost ps symbol.
Proof.
  induction ps as [|s pos ps Hs Hfirst IH] using map_first_key_ind.
  - unfold priced_value, others_at_cost, at_cost.
    rewrite delete_empty, !map_fold_empty, lookup_empty. ring.
  - rewrite map_fold_insert_first_key by done.
    cbv beta. unfold priced_value, others_at_cost in *.
    destruct (decide (s = symbol)) as [->|Hne]; rewrite IH.
    + rewrite lookup_insert_eq, Hs, delete_insert_eq.
      rewrite (delete_id ps) by done. ring.
    + rewrite lookup_insert_ne by done.
      rewrite delete_insert_ne by done.
      rewrite at_cost_insert by (by rewrite lookup_delete_ne).
      ring.
Qed.

Lemma get_portfolio_value_split (self : BacktestEngine) (price : Q)
    (symbol : string) :
  get_portfolio_value self price symbol
  == current_capital self
     + priced_value (positions self) symbol price
     + others_at_cost (positions self) symbol.
Proof. apply portfolio_fold_split. Qed.

(** ** The replay loop, bar by bar *)

Section ReplayFacts.
Context {S : Type} `{Strategy S}.

Lemma bar_ok_refl (self : BacktestEngine) :
  positions_positive self -> bar_ok self self.
Proof.
  intros Hpos. split; try done; exists []; by rewrite app_nil_r.
Qed.

Lemma bar_ok_trans (a b c : BacktestEngine) :
  bar_ok a b -> bar_ok b c -> bar_ok a c.
Proof.
  intros [P1 I1 R1 [t1 T1] [v1 V1]] [P2 I2 R2 [t2 T2] [v2 V2]]. split.
  - done.
  - congruence.
  - congruence.
  - exists (t1 ++ t2). rewrite T2, T1. by rewrite app_assoc.
  - exists (v1 ++ v2). rewrite V2, V1. by rewrite app_assoc.
Qed.

(** A row with a close runs the strategy, applies its signals and records
    one equity point for the ledger as the signals left it. *)
Lemma process_row_some (self : BacktestEngine) (strategy : S)
    (symbol : string) (date : Timestamp) (row : Row) :
  positions_positive self ->
  exists ledger,
    apply_signals self symbol date (generate_signals strategy row).1 = Ok ledger
    /\ step_ok self ledger
    /\ process_row self strategy symbol date (Some row) =
         Ok (record_portfolio_value ledger date (Close row) symbol,
             (generate_signals strategy row).2).
Proof.
  intros Hpos. unfold process_row.
  destruct (generate_signals strategy row) as [signals strategy'].
  destruct (apply_signals_step self symbol date signals Hpos)
    as (ledger & Hledger & Hok).
  exists ledger. simpl. by rewrite Hledger.
Qed.

Lemma process_row_step (self : BacktestEngine) (strategy : S)
    (symbol : string) (date : Timestamp) (row : option Row) :
  positions_positive self ->
  exists after strategy',
    process_row self strategy symbol date row = Ok (after, strategy')
    /\ bar_ok self after.
Proof.
  intros Hpos. destruct row as [row|].
  - destruct (process_row_some self strategy symbol date row Hpos)
      as (ledger & _ & [P I V R T] & ->).
    eexists _, _. split; [done|]. split; simpl; try done.
    + by apply P.
    + rewrite V. by eexists.
  - exists self, strategy. split; [done|]. by apply bar_ok_refl.
Qed.

(** The loop never raises from a ledger whose positions are positive. *)
Lemma replay_step (self : BacktestEngine) (strategy : S) (symbol : string)
    (data : DataFrame) :
  positions_positive self ->
  exists after strategy',
    replay self strategy symbol data = Ok (after, strategy')
    /\ bar_ok self after.
Proof.
  revert self strategy.
  induction data as [|[date row] rest IH]; intros self strategy Hpos.
  - exists self, strategy. split; [done|]. by apply bar_ok_refl.
  - destruct (process_row_step self strategy symbol date row Hpos)
      as (mid & strategy1 & Hmid & Hok).
    destruct (IH mid strategy1 (bar_positions _ _ Hok))
      as (after & strategy' & Hafter & Hok').
    exists after, strategy'. split.
    + simpl. rewrite Hmid. exact Hafter.
    + by eapply bar_ok_trans.
Qed.

Lemma replay_app (self : BacktestEngine) (strategy : S) (symbol : string)
    (data1 data2 : DataFrame) :
  replay self strategy symbol (data1 ++ data2) =
    (st <-- replay self strategy symbol data1 ;;
     replay st.1 st.2 symbol data2).
Proof.
  revert self strategy.
  induction data1 as [|[date row] rest IH]; intros self strategy; [done|].
  simpl. destruct (process_row self strategy symbol date row) as [[mid s1]|e];
    simpl; [apply IH | done].
Qed.

Lemma positions_positive_reset (self : BacktestEngine) (capital : Q) :
  positions_positive (reset self capital).
Proof. intros s pos Hs. simpl in Hs. by rewrite lookup_empty in Hs. Qed.
End ReplayFacts.

Section RunFacts.
Context {S : Type} `{Strategy S}.
Variable float_pow : float64 -> Q -> float64.

(** A run never raises: it returns an error dictionary or a report. *)
Lemma run_backtest_total (self : BacktestEngine) (strategy : S)
    (symbol : string) (data : DataFrame) (capital : Q) :
  exists after strategy' result,
    run_backtest float_pow self strategy symbol data capital
    = Ok (after, strategy', result).
Proof.
  unfold run_backtest. destruct data as [|bar rest]; [by eexists _, _, _|].
  destruct (replay_step (reset self capital) strategy symbol (bar :: rest)
              (positions_positive_reset self capital))
    as (after & strategy' & -> & _).
  by eexists _, _, _.
Qed.

(** A run that returns has replayed the whole frame from the reset
    ledger. *)
Lemma run_backtest_replay (self : BacktestEngine) (strategy : S)
    (symbol : string) (data : DataFrame) (capital : Q)
    (after : BacktestEngine) (strategy' : S) (result : BacktestResult) :
  run_backtest float_pow self strategy symbol data capital
  = Ok (after, strategy', result) ->
  replay (reset self capital) strategy symbol data = Ok (after, strategy').
Proof.
  unfold run_backtest. destruct data as [|bar rest].
  - by intros [= <- <- _].
  - destruct (replay (reset self capital) strategy symbol (bar :: rest))
      as [[a s]|e]; simpl; [|done].
    by intros [= <- <- _].
Qed.

Lemma replay_snoc (self : BacktestEngine) (strategy : S) (symbol : string)
    (data : DataFrame) (date : Timestamp) (row : option Row) :
  replay self strategy symbol (data ++ [(date, row)]) =
    (st <-- replay self strategy symbol data ;;
     process_row st.1 st.2 symbol date row).
Proof.
  rewrite replay_app.
  destruct (replay self strategy symbol data) as [[mid s1]|e]; [|done].
  cbn [obind replay fst snd].
  by destruct (process_row mid s1 symbol date row) as [[a s2]|e].
Qed.

(** Every point a replay adds to the curve was recorded at the end of one
    bar, from the ledger as that bar's signals left it. *)
Lemma replay_equity_points (symbol : string) (data : DataFrame) :
  forall (self : BacktestEngine) (strategy : S) (after : BacktestEngine)
         (strategy' : S) (i : nat) (pt : EquityPoint),
    positions_positive self ->
    replay self strategy symbol data = Ok (after, strategy') ->
    (length (portfolio_values self) <= i)%nat ->
    portfolio_values after !! i = Some pt ->
    exists before date row rest ledger st,
      data = before ++ (date, Some row) :: rest
      /\ replay self strategy symbol (before ++ [(date, Some row)])
         = Ok (ledger, st)
      /\ length (portfolio_values ledger) = Datatypes.S i
      /\ portfolio_values ledger !! i = Some pt
      /\ ep_date pt = date
      /\ ep_price pt = Close row
      /\ ep_portfolio_value pt
         == current_capital ledger
            + priced_value (positions ledger) symbol (Close row)
            + others_at_cost (positions ledger) symbol.
Proof.
  induction data as [|[date row] data IH] using rev_ind;
    intros self strategy after strategy' i pt Hpos Hrun Hi Hpt.
  - injection Hrun as <- <-.
    apply lookup_lt_Some in Hpt. lia.
  - rewrite replay_snoc in Hrun.
    destruct (replay_step self strategy symbol data Hpos)
      as (mid & s1 & Hmid & Hok).
    rewrite Hmid in Hrun. cbn [obind fst snd] in Hrun.
    destruct row as [row|].
    + destruct (process_row_some mid s1 symbol date row (bar_positions _ _ Hok))
        as (ledger & _ & Hstep & Hrow).
      rewrite Hrow in Hrun. injection Hrun as <- <-.
      simpl in Hpt. rewrite (step_values _ _ Hstep) in Hpt.
      destruct (decide (i < length (portfolio_values mid))%nat) as [Hlt|Hge].
      * rewrite lookup_app_l in Hpt by done.
        destruct (IH self strategy mid s1 i pt Hpos Hmid Hi Hpt)
          as (before & d & r & rest & l & st & -> & Hl & Hrest).
        exists before, d, r, (rest ++ [(date, Some row)]), l, st.
        split; [|done]. by rewrite <- app_assoc.
      * rewrite lookup_app_r in Hpt by lia.
        destruct (i - length (portfolio_values mid))%nat as [|k] eqn:Hk;
          [|done].
        injection Hpt as <-.
        exists data, date, row, [],
          (record_portfolio_value ledger date (Close row) symbol),
          (generate_signals s1 row).2.
        split; [done|]. split.
        { by rewrite replay_snoc, Hmid. }
        simpl. rewrite (step_values _ _ Hstep).
        split; [rewrite length_app; simpl; lia|].
        split; [rewrite lookup_app_r by lia; by rewrite Hk|].
        split; [done|]. split; [done|].
        apply get_portfolio_value_split.
    + simpl in Hrun. injection Hrun as <- <-.
      destruct (IH self strategy mid s1 i pt Hpos Hmid Hi Hpt)
        as (before & d & r & rest & l & st & -> & Hl & Hrest).
      exists before, d, r, (rest ++ [(date, None)]), l, st.
      split; [|done]. by rewrite <- app_assoc.
Qed.
End RunFacts.

(** ** Concrete runs *)

Section RunTheorems.
Context {S : Type} `{Strategy S}.
Variable float_pow : float64 -> Q -> float64.

(** C1.  In every run, every point of the recorded equity curve was
    recorded at the end of some bar of the series, and its value is the
    cash of the ledger at that moment, plus the quantity held of the
    backtested symbol times that bar's close, plus, for every other held
    symbol, its quantity times its average cost basis. *)
Theorem equity_point_is_mark_to_market (self : BacktestEngine) (strategy : S)
    (symbol : string) (data : DataFrame) (capital : Q)
    (after : BacktestEngine) (strategy' : S) (result : BacktestResult)
    (i : nat) (pt : EquityPoint) :
  run_backtest float_pow self strategy symbol data capital
  = Ok (after, strategy', result) ->
  portfolio_values after !! i = Some pt ->
  exists before date row rest ledger st,
    data = before ++ (date, Some row) :: rest
    /\ replay (reset self capital) strategy symbol (before ++ [(date, Some row)])
       = Ok (ledger, st)
    /\ length (portfolio_values ledger) = Datatypes.S i
    /\ portfolio_values ledger !! i = Some pt
    /\ ep_date pt = date
    /\ ep_price pt = Close row
    /\ ep_portfolio_value pt
       == current_capital ledger
          + priced_value (positions ledger) symbol (Close row)
          + others_at_cost (positions ledger) symbol.
Proof.
  intros Hrun Hpt. apply run_backtest_replay in Hrun.
  eapply replay_equity_points; eauto.
  - apply positions_positive_reset.
  - simpl. lia.
Qed.

(** C3, as amended.  A second run on the engine that the first run left
    behind, over the same series and capital and with the strategy in the
    state in which the first run received it, returns what the first run
    returned: the same equity curve, the same trade log, the same result
    dictionary.  Nothing of the engine carries over. *)
Theorem rerun_is_identical (self : BacktestEngine) (strategy : S)
    (symbol : string) (data : DataFrame) (capital : Q)
    (after : BacktestEngine) (strategy' : S) (result : BacktestResult) :
  run_backtest float_pow self strategy symbol data capital
  = Ok (after, strategy', result) ->
  exists again,
    run_backtest float_pow after strategy symbol data capital
    = Ok (again, strategy', result)
    /\ portfolio_values again = portfolio_values after
    /\ trade_history again = trade_history after.
Proof.
  intros Hrun. exists after.
  assert (Hreset : reset after capital = reset self capital).
  { unfold reset. f_equal.
    destruct data as [|bar rest].
    - unfold run_backtest in Hrun. by injection Hrun as <- _ _.
    - apply run_backtest_replay in Hrun.
      destruct (replay_step (reset self capital) strategy symbol (bar :: rest)
                  (positions_positive_reset self capital))
        as (a & s & Ha & Hok).
      rewrite Ha in Hrun. injection Hrun as <- _.
      apply (bar_returns _ _ Hok). }
  split; [|done].
  unfold run_backtest in *. rewrite Hreset. exact Hrun.
Qed.

(** C5.  A run over an empty series returns the error dictionary
    ['No data available for <symbol>']: no report is produced, and the
    engine is left reset, with an empty equity curve and an empty trade
    log. *)
Theorem empty_series_is_an_error (self : BacktestEngine) (strategy : S)
    (symbol : string) (capital : Q) :
  exists after,
    run_backtest float_pow self strategy symbol [] capital
    = Ok (after, strategy, ErrorResult ("No data available for " +:+ symbol))
    /\ after = reset self capital
    /\ portfolio_values after = []
    /\ trade_history after = []
    /\ positions after = ∅
    /\ current_capital after = capital.
Proof. by exists (reset self capital). Qed.
End RunTheorems.

(** C3, counterexample.  A Scalping strategy object remembers the last close
    it saw.  Run twice over closes 100, 90, 99 with capital 1000, the first
    run records one trade and the second, starting from a last price of 99,
    records three. *)
Lemma reused_scalping_strategy_differs :
  length (trade_history scalping_first.1.1) = 1%nat
  /\ length (trade_history scalping_second.1.1) = 3%nat
  /\ ~ reruns_indistinguishable sample_pow (ScalpingStrategy_init "AAPL").
Proof.
  split; [vm_compute; reflexivity|]. split; [vm_compute; reflexivity|].
  intros Hsame.
  destruct (Hsame (BacktestEngine_init 100000) "AAPL" three_bars 1000
              scalping_first.1.1 scalping_first.1.2 scalping_first.2
              scalping_second.1.1 scalping_second.1.2 scalping_second.2)
    as [_ Htrades].
  - vm_compute. reflexivity.
  - vm_compute. reflexivity.
  - apply (f_equal length) in Htrades. vm_compute in Htrades. discriminate.
Qed.

Lemma rerun_is_identical_witness :
  scalping_first_run = Ok scalping_first
  /\ exists again,
       run_backtest sample_pow scalping_first.1.1 (ScalpingStrategy_init "AAPL")
         "AAPL" three_bars 1000
       = Ok (again, scalping_first.1.2, scalping_first.2)
       /\ portfolio_values again = portfolio_values scalping_first.1.1
       /\ trade_history again = trade_history scalping_first.1.1.
Proof.
  split; [vm_compute; reflexivity|].
  apply (rerun_is_identical sample_pow (BacktestEngine_init 100000)
           (ScalpingStrategy_init "AAPL") "AAPL" three_bars 1000).
  vm_compute. reflexivity.
Defined.

Lemma equity_point_is_mark_to_market_witness :
  let pt := mkEquityPoint (2 * ns_per_day) 1000 99 in
  portfolio_values scalping_first.1.1 !! 2%nat = Some pt
  /\ exists before date row rest ledger st,
       three_bars = before ++ (date, Some row) :: rest
       /\ replay (reset (BacktestEngine_init 100000) 1000)
            (ScalpingStrategy_init "AAPL") "AAPL" (before ++ [(date, Some row)])
          = Ok (ledger, st)
       /\ length (portfolio_values ledger) = 3%nat
       /\ portfolio_values ledger !! 2%nat = Some pt
       /\ ep_date pt = date
       /\ ep_price pt = Close row
       /\ ep_portfolio_value pt
          == current_capital ledger
             + priced_value (positions ledger) "AAPL" (Close row)
             + others_at_cost (positions ledger) "AAPL".
Proof.
  intros pt. split; [vm_compute; reflexivity|].
  apply (equity_point_is_mark_to_market sample_pow (BacktestEngine_init 100000)
           (ScalpingStrategy_init "AAPL") "AAPL" three_bars 1000
           scalping_first.1.1 scalping_first.1.2 scalping_first.2 2 pt).
  - vm_compute. reflexivity.
  - vm_compute. reflexivity.
Defined.

(** ** Sequences of ledger calls *)

(** C2.  After any sequence of [execute_trade] calls on a fresh portfolio:
    a SELL returns without raising and leaves no position with a quantity
    below zero that it touched (the position of the sold symbol is gone or
    positive, every other position is as it was); the quantity it records
    is the requested one clamped to the held one; on a symbol that is not
    held it records nothing.  A BUY whose [quantity * price] exceeds the
    cash records nothing and changes nothing. *)
Theorem execute_trade_guards (capital : Q) (calls : list call)
    (symbol : string) (quantity : Z) (price : Q) (date : Timestamp) :
  let self := execute_trades (BacktestEngine_init capital) calls in
  (exists after,
     execute_trade self symbol "SELL" quantity price date = Ok after
     /\ (forall s pos, positions after !! s = Some pos ->
           (0 < pos_quantity pos)%Z
           \/ (s <> symbol /\ positions self !! s = Some pos))
     /\ match positions self !! symbol with
        | None => after = self
        | Some held =>
            exists t,
              trade_history after = trade_history self ++ [t]
              /\ trade_action t = "SELL"
              /\ trade_quantity t = Z.min quantity (pos_quantity held)
              /\ (trade_quantity t <= pos_quantity held)%Z
              /\ match positions after !! symbol with
                 | None => (pos_quantity held - trade_quantity t = 0)%Z
                 | Some kept =>
                     pos_quantity kept
                     = (pos_quantity held - trade_quantity t)%Z
                 end
        end)
  /\ (current_capital self < inject_Z quantity * price ->
      execute_trade self symbol "BUY" quantity price date = Ok self).
Proof.
  intros self. split.
  - rewrite execute_trade_sell.
    destruct (positions self !! symbol) as [held|] eqn:Hheld.
    + cbn zeta. eexists. split; [reflexivity|].
      cbn [positions record_trade with_ledger trade_history trade_action
           trade_quantity pos_quantity].
      set (sold := Z.min quantity (pos_quantity held)).
      assert (Hsold : (sold <= pos_quantity held)%Z) by apply Z.le_min_r.
      split.
      * intros s pos.
        destruct (Z.leb_spec (pos_quantity held - sold) 0) as [Hz|Hz].
        -- destruct (decide (symbol = s)) as [->|Hne].
           ++ by rewrite lookup_delete_eq.
           ++ rewrite lookup_delete_ne by done. intros Hs. right. done.
        -- destruct (decide (symbol = s)) as [->|Hne].
           ++ rewrite lookup_insert_eq. intros [= <-]. left. simpl. lia.
           ++ rewrite lookup_insert_ne by done. intros Hs. right. done.
      * eexists. split; [reflexivity|].
        split; [done|]. split; [done|]. split; [done|].
        cbn [trade_quantity]. fold sold.
        destruct (Z.leb_spec (pos_quantity held - sold) 0) as [Hz|Hz].
        -- rewrite lookup_delete_eq. lia.
        -- by rewrite lookup_insert_eq.
    + exists self. split; [done|]. split; [|done].
      intros s pos Hs. right. split; [|done]. intros ->. congruence.
  - intros Hcash. rewrite execute_trade_buy. cbn zeta.
    apply Qle_bool_false in Hcash. by rewrite Hcash.
Qed.

Lemma execute_trade_guards_witness :
  let self :=
    execute_trades (BacktestEngine_init 100) [mkCall "AAPL" "BUY" 5 10 0%Z] in
  current_capital self < inject_Z 6 * 10
  /\ execute_trade self "AAPL" "BUY" 6 10 1%Z = Ok self.
Proof.
  split.
  - vm_compute. reflexivity.
  - apply (execute_trade_guards 100 [mkCall "AAPL" "BUY" 5 10 0%Z] "AAPL" 6 10 1%Z).
    vm_compute. reflexivity.
Defined.

(** ** Signals in the replay loop *)

(** C9.  In the loop body of a run, a SELL signal for the backtested symbol
    that finds the symbol held sells the whole position: the recorded trade
    carries the full held quantity at the signal's price, the proceeds are
    added to the cash, and the entry of the symbol is removed from the
    positions by the same call. *)
Theorem sell_signal_liquidates (self : BacktestEngine) (symbol : string)
    (date : Timestamp) (signal : Signal) (held : Position) :
  sig_action signal = "SELL" ->
  sig_symbol signal = symbol ->
  positions self !! symbol = Some held ->
  exists after t,
    apply_signal self symbol date signal = Ok after
    /\ trade_history after = trade_history self ++ [t]
    /\ trade_action t = "SELL"
    /\ trade_symbol t = symbol
    /\ trade_date t = date
    /\ trade_quantity t = pos_quantity held
    /\ trade_price t = sig_price signal
    /\ trade_revenue t = Some (inject_Z (pos_quantity held) * sig_price signal)
    /\ positions after = delete symbol (positions self)
    /\ positions after !! symbol = None
    /\ current_capital after
       = current_capital self + inject_Z (pos_quantity held) * sig_price signal.
Proof.
  intros Ha Hs Hheld.
  rewrite (apply_signal_sell self symbol date signal Ha Hs), Hheld.
  rewrite (full_sell self symbol date (sig_price signal) held Hheld).
  eexists _, _. split; [reflexivity|]. cbn.
  repeat (split; [reflexivity|]). split; [|done].
  apply lookup_delete_eq.
Qed.

Lemma sell_signal_liquidates_witness :
  let self :=
    execute_trades (BacktestEngine_init 1000) [mkCall "AAPL" "BUY" 2 99 0%Z] in
  exists after t,
    apply_signal self "AAPL" 1%Z (mkSignal "AAPL" "SELL" 90 []) = Ok after
    /\ trade_history after = trade_history self ++ [t]
    /\ trade_quantity t = 2%Z
    /\ positions after !! "AAPL" = None.
Proof.
  intros self.
  destruct (sell_signal_liquidates self "AAPL" 1%Z (mkSignal "AAPL" "SELL" 90 [])
              (mkPosition 2 99 (inject_Z 2 * 99)) eq_refl eq_refl)
    as (after & t & Hafter & Hlog & _ & _ & _ & Hq & _ & _ & _ & Hgone & _).
  - vm_compute. reflexivity.
  - exists after, t. done.
Defined.

(** ** Cash under the sizing policy *)

Lemma apply_signal_cash (self after : BacktestEngine) (symbol : string)
    (date : Timestamp) (signal : Signal) :
  positions_positive self -> 0 <= current_capital self ->
  0 < sig_price signal ->
  apply_signal self symbol date signal = Ok after ->
  0 <= current_capital after.
Proof.
  intros Hpos Hcash Hprice. unfold apply_signal.
  destruct (decide _) as [[Ha Hs]|_].
  - destruct (Z.ltb_spec 0 (calculate_position_size self (sig_price signal)))
      as [Hq|Hq]; [|by intros [= <-]].
    destruct (sized_buy_recorded self symbol date (sig_price signal) Hq Hpos)
      as (pos & _ & _ & Hcost & ->).
    intros [= <-]. simpl. lra.
  - destruct (decide _) as [[Ha Hs]|_]; [|by intros [= <-]].
    destruct (positions self !! symbol) as [held|] eqn:Hheld; [|by intros [= <-]].
    rewrite (full_sell self symbol date (sig_price signal) held Hheld).
    intros [= <-]. simpl.
    pose proof (inject_Z_pos _ (Hpos symbol held Hheld)) as Hq.
    assert (0 <= inject_Z (pos_quantity held) * sig_price signal).
    { apply Qmult_le_0_compat; lra. }
    lra.
Qed.

Lemma apply_signals_cash (symbol : string) (date : Timestamp)
    (signals : list Signal) :
  forall self after,
    positions_positive self -> 0 <= current_capital self ->
    Forall (fun signal => 0 < sig_price signal) signals ->
    apply_signals self symbol date signals = Ok after ->
    0 <= current_capital after.
Proof.
  induction signals as [|signal rest IH]; intros self after Hpos Hcash Hprices.
  - by intros [= <-].
  - apply Forall_cons in Hprices as [Hprice Hrest]. simpl.
    destruct (apply_signal_step self symbol date signal Hpos) as (mid & Hmid & Hok).
    rewrite Hmid. cbn [obind]. apply IH; [| |done].
    + by apply (step_positions _ _ Hok).
    + by eapply apply_signal_cash.
Qed.

Section CashFacts.
Context {S : Type} `{Strategy S}.

Lemma replay_cash (symbol : string) (data : DataFrame) :
  forall (self : BacktestEngine) (strategy : S) after strategy',
    positions_positive self -> 0 <= current_capital self ->
    positive_prices S data ->
    replay self strategy symbol data = Ok (after, strategy') ->
    0 <= current_capital after.
Proof.
  induction data as [|[date row] rest IH];
    intros self strategy after strategy' Hpos Hcash Hprices.
  - by intros [= <- _].
  - cbn [replay].
    destruct (process_row_step self strategy symbol date row Hpos)
      as (mid & s1 & Hmid & Hok).
    rewrite Hmid. cbn [obind fst snd].
    apply IH; [apply (bar_positions _ _ Hok)| |].
    + destruct row as [row|]; [|by injection Hmid as <- _].
      destruct (process_row_some self strategy symbol date row Hpos)
        as (ledger & Hledger & _ & Hrow).
      rewrite Hrow in Hmid. injection Hmid as <- _. simpl.
      eapply apply_signals_cash; [done|done| |exact Hledger].
      apply (Hprices strategy date row). by left.
    + intros st d r Hin. apply (Hprices st d r). by right.
Qed.

(** C10.  With a cash balance that is not negative and a positive price,
    the quantity sized for a BUY signal costs at most a fifth of the
    cash, so the ledger's cash test passes: when the quantity is positive
    the loop body records the BUY for exactly that quantity and the cash
    stays non-negative.  Over a whole replay in which every signal carries
    a positive price, the cash is never negative. *)
Theorem sized_buy_never_hits_cash_guard (self : BacktestEngine)
    (symbol : string) (date : Timestamp) (signal : Signal) :
  0 <= current_capital self ->
  0 < sig_price signal ->
  positions_positive self ->
  sig_action signal = "BUY" ->
  sig_symbol signal = symbol ->
  let quantity := calculate_position_size self (sig_price signal) in
  let cost := inject_Z quantity * sig_price signal in
  cost <= current_capital self
  /\ Qle_bool cost (current_capital self) = true
  /\ ((0 < quantity)%Z ->
      exists after t,
        apply_signal self symbol date signal = Ok after
        /\ trade_history after = trade_history self ++ [t]
        /\ trade_action t = "BUY"
        /\ trade_quantity t = quantity
        /\ trade_price t = sig_price signal
        /\ trade_cost t = Some cost
        /\ current_capital after = current_capital self - cost
        /\ 0 <= current_capital after)
  /\ (forall (strategy : S) (data : DataFrame) after strategy',
        positive_prices S data ->
        replay self strategy symbol data = Ok (after, strategy') ->
        0 <= current_capital after).
Proof.
  intros Hcash Hprice Hpos Ha Hs quantity cost.
  assert (Hcost : cost <= current_capital self * 0.2).
  { by apply position_size_cost. }
  split; [lra|]. split; [apply Qle_bool_iff; lra|]. split.
  - intros Hq. subst quantity cost.
    rewrite (apply_signal_buy self symbol date signal Ha Hs).
    cbn zeta.
    destruct (Z.ltb_spec 0 (calculate_position_size self (sig_price signal)))
      as [_|Hn]; [|lia].
    destruct (sized_buy_recorded self symbol date (sig_price signal) Hq Hpos)
      as (pos & _ & _ & _ & ->).
    eexists _, _. split; [reflexivity|].
    cbn [trade_history record_trade with_ledger trade_action trade_quantity
         trade_price trade_cost current_capital].
    repeat (split; [reflexivity|]). lra.
  - intros strategy data after strategy' Hprices Hrun.
    by eapply replay_cash.
Qed.
End CashFacts.

Lemma sized_buy_never_hits_cash_guard_witness :
  let self := BacktestEngine_init 1000 in
  let signal := mkSignal "AAPL" "BUY" 99 [] in
  calculate_position_size self 99 = 2%Z
  /\ inject_Z 2 * 99 <= 1000
  /\ exists after t,
       apply_signal self "AAPL" 0 signal = Ok after
       /\ trade_history after = [t]
       /\ trade_action t = "BUY"
       /\ trade_quantity t = 2%Z
       /\ 0 <= current_capital after.
Proof.
  intros self signal.
  destruct (sized_buy_never_hits_cash_guard (S := ScalpingStrategy)
              self "AAPL" 0 signal)
    as (Hcost & _ & Hfill & _).
  - vm_compute. discriminate.
  - vm_compute. reflexivity.
  - apply positions_positive_init.
  - reflexivity.
  - reflexivity.
  - split; [reflexivity|]. split; [exact Hcost|].
    destruct Hfill as (after & t & Hrun & Hlog & Ha & Hq & _ & _ & _ & Hcash).
    + vm_compute. reflexivity.
    + exists after, t. done.
Defined.

(** ** Strategies *)

Lemma buy_elif_sell_cases (buy sell : bool) (mk : string -> Signal) :
  buy_elif_sell buy sell mk = []
  \/ buy_elif_sell buy sell mk = [mk "BUY"]
  \/ buy_elif_sell buy sell mk = [mk "SELL"].
Proof. destruct buy, sell; simpl; auto. Qed.

Lemma buy_elif_sell_length (buy sell : bool) (mk : string -> Signal) :
  (length (buy_elif_sell buy sell mk) <= 1)%nat.
Proof. destruct buy, sell; simpl; lia. Qed.

(** C8.  Whatever the class of the strategy, the state of the object and
    the row, [generate_signals] returns at most one signal, so a BUY and a
    SELL never come out of the same call.  In the threshold strategies the
    BUY test is the [if] and the SELL test its [elif]: when the BUY test
    holds the signal is a BUY whatever the SELL test says, as for an RSI
    strategy whose two thresholds overlap. *)
Theorem at_most_one_signal (strategy : PandasStrategy) (data : Row) :
  let signals := (generate_signals strategy data).1 in
  (length signals <= 1)%nat
  /\ ~ (exists b s, b ∈ signals /\ s ∈ signals
                    /\ sig_action b = "BUY" /\ sig_action s = "SELL")
  /\ (forall sell mk, buy_elif_sell true sell mk = [mk "BUY"])
  /\ (forall (self : RSIStrategy) rsi,
        strategy = RSIStrat self -> RSI data = Some rsi ->
        rsi <= inject_Z (rsi_oversold self) ->
        exists signal, signals = [signal] /\ sig_action signal = "BUY").
Proof.
  intros signals.
  assert (Hlen : (length signals <= 1)%nat).
  { subst signals.
    destruct strategy as [s|s|s|s|s|s|s];
      unfold generate_signals, pandas_generate_signals; cbn [prod_map fst id];
      unfold generate_signals.
    - unfold mac_generate_signals.
      destruct (SMA_10 data), (SMA_30 data); simpl; try lia.
      destruct (decide _); simpl; lia.
    - unfold scalping_generate_signals.
      destruct (sc_last_price s); simpl; [apply buy_elif_sell_length | lia].
    - unfold momentum_generate_signals.
      destruct (Volume data); simpl; [apply buy_elif_sell_length | lia].
    - unfold mean_reversion_generate_signals.
      destruct (SMA_30 data); simpl; [apply buy_elif_sell_length | lia].
    - unfold bollinger_generate_signals.
      destruct (BB_Upper data), (BB_Lower data), (BB_Middle data); simpl;
        try lia; apply buy_elif_sell_length.
    - unfold rsi_generate_signals.
      destruct (RSI data); simpl; [apply buy_elif_sell_length | lia].
    - unfold breakout_generate_signals.
      destruct (bo_recent_high s), (bo_recent_low s); simpl;
        try lia; apply buy_elif_sell_length. }
  split; [done|]. split; [|split; [done|]].
  - intros (b & s & Hb & Hs & Hab & Has).
    destruct signals as [|x [|y rest]]; [| |simpl in Hlen; lia].
    + by apply elem_of_nil in Hb.
    + apply list_elem_of_singleton in Hb, Hs. subst. congruence.
  - intros self rsi -> Hrsi Hle. subst signals.
    unfold generate_signals, pandas_generate_signals; cbn [prod_map fst id].
    unfold generate_signals, rsi_generate_signals. rewrite Hrsi.
    apply Qle_bool_iff in Hle. rewrite Hle. simpl. by eexists.
Qed.

Lemma at_most_one_signal_witness :
  let strategy := RSIStrat (RSIStrategy_init 60 40 "AAPL") in
  let data := mkRow 100 101 99 100 None None None (Some 50) None None None in
  50 <= inject_Z 60
  /\ inject_Z 40 <= 50
  /\ exists signal,
       (generate_signals strategy data).1 = [signal]
       /\ sig_action signal = "BUY".
Proof.
  intros strategy data.
  assert (Hlow : 50 <= inject_Z 60) by (vm_compute; discriminate).
  split; [exact Hlow|]. split; [vm_compute; discriminate|].
  destruct (at_most_one_signal strategy data) as (_ & _ & _ & Hbuy).
  exact (Hbuy (RSIStrategy_init 60 40 "AAPL") 50 eq_refl eq_refl Hlow).
Defined.

(** ** Metrics *)

Lemma Qeq_bool_false (x y : Q) : Qeq_bool x y = false <-> ~ x == y.
Proof.
  split; [apply Qeq_bool_neq|].
  intros Hne. destruct (Qeq_bool x y) eqn:E; [|done].
  by apply Qeq_bool_eq in E.
Qed.

(** [final / initial - 1] and [(final - initial) / initial] are the same
    float, also when the initial capital is zero. *)
Lemma total_return_forms (final initial : Q) :
  feq (fsub (fdiv final initial) (Fin 1)) (fdiv (final - initial) initial).
Proof.
  unfold fdiv. destruct (Qeq_bool initial 0) eqn:Hz.
  - apply Qeq_bool_eq in Hz.
    destruct (Qlt_bool 0 final) eqn:H1.
    + apply Qlt_bool_iff in H1.
      assert (H2 : Qlt_bool 0 (final - initial) = true) by (apply Qlt_bool_iff; lra).
      by rewrite H2.
    + apply Qlt_bool_false in H1.
      assert (H2 : Qlt_bool 0 (final - initial) = false) by (apply Qlt_bool_false; lra).
      rewrite H2.
      destruct (Qlt_bool final 0) eqn:H3.
      * apply Qlt_bool_iff in H3.
        assert (H4 : Qlt_bool (final - initial) 0 = true) by (apply Qlt_bool_iff; lra).
        by rewrite H4.
      * apply Qlt_bool_false in H3.
        assert (H4 : Qlt_bool (final - initial) 0 = false) by (apply Qlt_bool_false; lra).
        by rewrite H4.
  - apply Qeq_bool_false in Hz. simpl. field. done.
Qed.

Section AnnualizedReturn.
Variable float_pow : float64 -> Q -> float64.

(** C6.  On a curve of at least two points whose first and last dates are
    at least a day apart, the annualized return is
    [(1 + total_return) ** (365 / days) - 1], where [days] is the day
    count between the first and the last point and [total_return] is the
    float [final / initial - 1], the same value as the total return
    [(final - initial) / initial] of the report.  On a curve of fewer
    than two points, or when the day count is zero, it is 0. *)
Theorem annualized_return_formula (self : BacktestEngine)
    (df_values : list EquityPoint) :
  let days := elapsed_days df_values in
  ((2 <= length df_values)%nat -> days <> 0%Z ->
   exists final total_return,
     last df_values = Some final
     /\ feq total_return (spec_total_return self final)
     /\ calculate_annualized_return float_pow self df_values
        = fsub (float_pow (fadd (Fin 1) total_return) (365 / inject_Z days))
            (Fin 1))
  /\ ((length df_values < 2)%nat \/ days = 0%Z ->
      calculate_annualized_return float_pow self df_values = Fin 0).
Proof.
  intros days. unfold calculate_annualized_return. subst days.
  unfold elapsed_days. split.
  - intros Hlen Hdays.
    destruct (Nat.ltb_spec (length df_values) 2) as [Hlt|_]; [lia|].
    destruct (head df_values) as [first|] eqn:Hfirst; [|done].
    destruct (last df_values) as [final|] eqn:Hlast; [|done].
    destruct (Z.eqb_spec (timedelta_days (ep_date final) (ep_date first)) 0)
      as [E|_]; [done|].
    exists final, (fsub (fdiv (ep_portfolio_value final) (initial_capital self))
                     (Fin 1)).
    split; [done|]. split; [apply total_return_forms | done].
  - intros [Hlt|Hdays].
    + destruct (Nat.ltb_spec (length df_values) 2) as [_|Hge]; [done | lia].
    + destruct (length df_values <? 2)%nat; [done|].
      destruct (head df_values), (last df_values); try done.
      by rewrite Hdays.
Qed.
End AnnualizedReturn.

Lemma annualized_return_formula_witness :
  let self := BacktestEngine_init 1000 in
  let df_values :=
    [mkEquityPoint 0 1000 100; mkEquityPoint (365 * ns_per_day) 1100 110] in
  elapsed_days df_values = 365%Z
  /\ (exists final total_return,
        last df_values = Some final
        /\ feq total_return (spec_total_return self final)
        /\ calculate_annualized_return sample_pow self df_values
           = fsub (sample_pow (fadd (Fin 1) total_return) (365 / inject_Z 365))
               (Fin 1))
  /\ calculate_annualized_return sample_pow self [mkEquityPoint 0 1000 100]
     = Fin 0.
Proof.
  intros self df_values.
  destruct (annualized_return_formula sample_pow self df_values) as [Hmain _].
  destruct (annualized_return_formula sample_pow self [mkEquityPoint 0 1000 100])
    as [_ Hzero].
  split; [reflexivity|]. split.
  - apply Hmain; [simpl; lia | vm_compute; discriminate].
  - apply Hzero. left. simpl. lia.
Defined.

(** *** Maximum drawdown *)

Lemma rises_from_eq (p q : Q) (values : list Q) :
  p == q -> rises_from p values <-> rises_from q values.
Proof. intros Hpq. destruct values as [|v rest]; simpl; [done|]. by rewrite Hpq. Qed.

Lemma rises_from_sorted (v : Q) (values : list Q) :
  rises_from v values <-> Sorted Qle (v :: values).
Proof.
  revert v. induction values as [|w rest IH]; intros v; simpl.
  - split; [|done]. intros _. by repeat constructor.
  - rewrite IH. split.
    + intros [Hvw Hs]. constructor; [done|]. by constructor.
    + intros Hs. apply Sorted_inv in Hs as [Hs Hhd].
      apply HdRel_inv in Hhd. done.
Qed.

Lemma fdiv_finite (a b : Q) : ~ b == 0 -> fdiv a b = Fin (a / b).
Proof.
  intros Hb. unfold fdiv. apply Qeq_bool_false in Hb. by rewrite Hb.
Qed.

Lemma drawdown_from_min (values : list Q) :
  forall peak, 0 < peak ->
    (values = [] /\ series_min (drawdown_from peak values) = NaN)
    \/ (exists d, series_min (drawdown_from peak values) = Fin d
                  /\ d <= 0 /\ (d == 0 <-> rises_from peak values)).
Proof.
  induction values as [|v rest IH]; intros peak Hpeak; [by left|].
  right. unfold drawdown_from. cbn [expanding_max_from zip_with].
  fold (drawdown_from (Qmax peak v) rest).
  unfold series_min. cbn [foldr]. fold (series_min (drawdown_from (Qmax peak v) rest)).
  pose proof (Q.le_max_l peak v) as Hl.
  pose proof (Q.le_max_r peak v) as Hr.
  assert (Hpos : 0 < Qmax peak v) by lra.
  rewrite fdiv_finite by lra.
  set (e := (v - Qmax peak v) / Qmax peak v).
  assert (He : e * Qmax peak v == v - Qmax peak v).
  { unfold e. field. lra. }
  assert (Hle : e <= 0).
  { unfold e. apply Qle_shift_div_r; [done|]. lra. }
  assert (Hzero : e == 0 <-> peak <= v).
  { split.
    - intros E. rewrite E in He. lra.
    - intros Hpv. assert (Hm : Qmax peak v == v) by (by apply Q.max_r).
      unfold e. rewrite Hm. field. lra. }
  destruct (IH (Qmax peak v) Hpos) as [[-> ->]|(d & -> & Hd & Hiff)].
  - exists e. split; [done|]. split; [done|]. simpl. rewrite Hzero. tauto.
  - exists (Qmin e d). split; [done|]. split.
    + pose proof (Q.le_min_l e d). lra.
    + cbn [rises_from]. rewrite <- Hzero. split.
      * intros Hmin.
        pose proof (Q.le_min_l e d) as H1. pose proof (Q.le_min_r e d) as H2.
        assert (E0 : e == 0) by lra. split; [done|].
        apply (rises_from_eq (Qmax peak v) v).
        { apply Q.max_r. by apply Hzero. }
        apply Hiff. lra.
      * intros [E0 Hrise].
        assert (Hd0 : d == 0).
        { apply Hiff. apply (rises_from_eq (Qmax peak v) v); [|done].
          apply Q.max_r. by apply Hzero. }
        destruct (Q.min_spec e d) as [[_ ->]|[_ ->]]; done.
Qed.

(** On a curve whose first value is positive every running peak is
    positive: the maximum drawdown is a number, it is at most 0, and it is 0
    exactly when the curve never decreases. *)
Lemma max_drawdown_positive_start (v : Q) (rest : list Q) :
  0 < v ->
  exists d,
    calculate_max_drawdown (v :: rest) = Fin d
    /\ d <= 0
    /\ (d == 0 <-> Sorted Qle (v :: rest)).
Proof.
  intros Hv. unfold calculate_max_drawdown. cbn [expanding_max zip_with].
  fold (drawdown_from v rest).
  unfold series_min. cbn [foldr]. fold (series_min (drawdown_from v rest)).
  rewrite fdiv_finite by lra.
  assert (E : (v - v) / v == 0) by (field; lra).
  pose proof (rises_from_sorted v rest) as Hsorted.
  destruct (drawdown_from_min rest v Hv) as [[-> ->]|(d & -> & Hd & Hiff)].
  - exists ((v - v) / v). split; [done|]. split; [lra|].
    rewrite <- Hsorted. simpl. by rewrite E.
  - exists (Qmin ((v - v) / v) d). split; [done|].
    pose proof (Q.le_min_l ((v - v) / v) d) as H1.
    pose proof (Q.le_min_r ((v - v) / v) d) as H2.
    split; [lra|]. rewrite <- Hsorted, <- Hiff.
    destruct (Q.min_spec ((v - v) / v) d) as [[Hlt ->]|[Hge ->]].
    + lra.
    + done.
Qed.

(** ** The three-bar example *)

Lemma get_portfolio_value_flat (self : BacktestEngine) (price : Q) (symbol : string) :
  positions self = ∅ -> get_portfolio_value self price symbol = current_capital self.
Proof. intros E. unfold get_portfolio_value. rewrite E. apply map_fold_empty. Qed.

Lemma get_portfolio_value_single (self : BacktestEngine) (price : Q)
    (symbol : string) (pos : Position) :
  positions self = <[symbol := pos]> ∅ ->
  get_portfolio_value self price symbol
  = current_capital self + inject_Z (pos_quantity pos) * price.
Proof.
  intros E. unfold get_portfolio_value. rewrite E, insert_empty, map_fold_singleton.
  by rewrite decide_True.
Qed.

Section ThreeBars.
Variable float_pow : float64 -> Q -> float64.
Variables (symbol : string) (d1 d2 d3 : Timestamp) (r1 r2 r3 : Row).
Hypothesis close1 : Close r1 = 100.
Hypothesis close2 : Close r2 = 90.
Hypothesis close3 : Close r3 = 99.

Lemma scalping_bar1 :
  generate_signals (ScalpingStrategy_init symbol) r1
  = ([], scalping_seen symbol 100).
Proof. unfold generate_signals, scalping_generate_signals. simpl. by rewrite close1. Qed.

Lemma scalping_bar2 :
  generate_signals (scalping_seen symbol 100) r2
  = ([mkSignal symbol "SELL" 90 [("price_change", fdiv (90 - 100) 100)]],
     scalping_seen symbol 90).
Proof.
  unfold generate_signals, scalping_generate_signals, sc_set_last_price.
  cbn [sc_last_price scalping_seen sc_symbol sc_trade_count]. rewrite close2.
  reflexivity.
Qed.

Lemma scalping_bar3 :
  generate_signals (scalping_seen symbol 90) r3
  = ([mkSignal symbol "BUY" 99 [("price_change", fdiv (99 - 90) 90)]],
     scalping_seen symbol 99).
Proof.
  unfold generate_signals, scalping_generate_signals, sc_set_last_price.
  cbn [sc_last_price scalping_seen sc_symbol sc_trade_count]. rewrite close3.
  reflexivity.
Qed.

Variable self : BacktestEngine.

Lemma three_bar_replay :
  replay (reset self 1000) (ScalpingStrategy_init symbol) symbol
    [(d1, Some r1); (d2, Some r2); (d3, Some r3)]
  = Ok (three_bar_final self symbol d1 d2 d3, scalping_seen symbol 99).
Proof.
  cbn [replay]. unfold process_row at 1. rewrite scalping_bar1.
  cbn [apply_signals obind fst snd].
  unfold process_row at 1. rewrite scalping_bar2.
  cbn [apply_signals obind fst snd].
  rewrite apply_signal_sell by done.
  cbn [positions record_portfolio_value reset]. rewrite lookup_empty.
  cbn [obind fst snd].
  unfold process_row at 1. rewrite scalping_bar3.
  cbn [apply_signals obind fst snd].
  rewrite apply_signal_buy by done. cbn zeta. cbn [sig_price].
  set (ledger := record_portfolio_value _ d2 (Close r2) symbol).
  assert (Hsize : calculate_position_size ledger 99 = 2%Z) by reflexivity.
  rewrite Hsize. cbn [Z.ltb Z.compare].
  rewrite execute_trade_buy. cbn zeta.
  assert (Hle : Qle_bool (inject_Z 2 * 99) (current_capital ledger) = true)
    by reflexivity.
  rewrite Hle.
  assert (Hpos : positions ledger = ∅) by reflexivity.
  rewrite Hpos, lookup_empty. cbn [bought_position obind].
  rewrite !(get_portfolio_value_single _ _ symbol (mkPosition 2 99 (inject_Z 2 * 99)))
    by reflexivity.
  subst ledger. unfold record_portfolio_value.
  rewrite (get_portfolio_value_flat (reset self 1000)) by reflexivity.
  rewrite get_portfolio_value_flat by reflexivity.
  rewrite close1, close2, close3.
  rewrite (get_portfolio_value_single _ _ symbol (mkPosition 2 99 (inject_Z 2 * 99)))
    by reflexivity.
  reflexivity.
Qed.

(** C4.  Three bars closing at 100, 90 and 99, capital 1000, a fresh
    Scalping strategy on the backtested symbol.  The first bar yields no
    signal; the second a SELL, which changes nothing since the symbol is
    not held; the third a BUY, sized to [int(1000 * 0.2 / 99) = 2] shares
    and filled at 99.  The run ends with one trade in the log, 802 in cash
    and a last recorded value of 1000. *)
Theorem scalping_three_bar_example :
  let s0 := ScalpingStrategy_init symbol in
  let s1 := (generate_signals s0 r1).2 in
  let s2 := (generate_signals s1 r2).2 in
  let s3 := (generate_signals s2 r3).2 in
  (generate_signals s0 r1).1 = []
  /\ (exists sell,
        (generate_signals s1 r2).1 = [sell]
        /\ sig_action sell = "SELL" /\ sig_symbol sell = symbol
        /\ forall ledger, positions ledger !! symbol = None ->
             apply_signal ledger symbol d2 sell = Ok ledger)
  /\ (exists buy,
        (generate_signals s2 r3).1 = [buy]
        /\ sig_action buy = "BUY" /\ sig_symbol buy = symbol
        /\ sig_price buy = 99)
  /\ py_int (1000 * 0.2 / 99) = 2%Z
  /\ Qfloor (0.2 * 1000 / 99) = 2%Z
  /\ exists after t p1 p2 p3 report,
       run_backtest float_pow self s0 symbol
         [(d1, Some r1); (d2, Some r2); (d3, Some r3)] 1000
       = Ok (after, s3, Report report)
       /\ trade_history after = [t]
       /\ trade_action t = "BUY" /\ trade_symbol t = symbol
       /\ trade_date t = d3
       /\ trade_quantity t = 2%Z /\ trade_price t = 99
       /\ trade_cost t = Some (inject_Z 2 * 99)
       /\ inject_Z 2 * 99 == 198
       /\ current_capital after == 802
       /\ (exists pos, positions after !! symbol = Some pos
                       /\ pos_quantity pos = 2%Z)
       /\ portfolio_values after = [p1; p2; p3]
       /\ ep_portfolio_value p1 == 1000
       /\ ep_portfolio_value p2 == 1000
       /\ ep_portfolio_value p3 == 802 + inject_Z 2 * 99
       /\ ep_portfolio_value p3 == 1000
       /\ final_portfolio_value report == 1000
       /\ total_trades report = 1%nat.
Proof.
  intros s0 s1 s2 s3.
  assert (E1 : generate_signals s0 r1 = ([], scalping_seen symbol 100))
    by apply scalping_bar1.
  assert (E2 : generate_signals s1 r2
               = ([mkSignal symbol "SELL" 90 [("price_change", fdiv (90 - 100) 100)]],
                  scalping_seen symbol 90)).
  { subst s1. rewrite E1. apply scalping_bar2. }
  assert (E3 : generate_signals s2 r3
               = ([mkSignal symbol "BUY" 99 [("price_change", fdiv (99 - 90) 90)]],
                  scalping_seen symbol 99)).
  { subst s2. rewrite E2. apply scalping_bar3. }
  split; [by rewrite E1|]. split.
  { eexists. rewrite E2. split; [done|]. split; [done|]. split; [done|].
    intros ledger Hnone. rewrite apply_signal_sell by done. by rewrite Hnone. }
  split.
  { eexists. rewrite E3. done. }
  split; [reflexivity|]. split; [reflexivity|].
  unfold run_backtest. subst s0.
  rewrite three_bar_replay. cbn [obind fst snd].
  subst s3. rewrite E3. cbn [snd].
  eexists (three_bar_final self symbol d1 d2 d3), _, _, _, _, _.
  split; [reflexivity|].
  cbn [trade_history three_bar_final trade_action trade_symbol trade_date
       trade_quantity
       trade_price trade_cost current_capital positions portfolio_values
       ep_portfolio_value final_portfolio_value total_trades length].
  repeat (split; [reflexivity|]).
  split; [eexists; split; [apply lookup_insert_eq | done]|].
  repeat (split; [reflexivity|]). reflexivity.
Qed.
End ThreeBars.

Lemma scalping_three_bar_example_witness :
  exists after report,
    run_backtest sample_pow (BacktestEngine_init 100000)
      (ScalpingStrategy_init "AAPL") "AAPL" three_bars 1000
    = Ok (after, mkScalping "AAPL" (Some 99) 0, Report report)
    /\ current_capital after == 802
    /\ final_portfolio_value report == 1000.
Proof.
  destruct (scalping_three_bar_example sample_pow "AAPL" 0 ns_per_day
              (2 * ns_per_day)
              (mkRow 100 100 100 100 None None None None None None None)
              (mkRow 90 90 90 90 None None None None None None None)
              (mkRow 99 99 99 99 None None None None None None None)
              eq_refl eq_refl eq_refl (BacktestEngine_init 100000))
    as (_ & _ & _ & _ & _ & after & t & p1 & p2 & p3 & report & Hrun & Hrest).
  exists after, report. split; [exact Hrun|]. tauto.
Defined.

(** * Further properties *)

(** ** The ledger as an account *)

(** The three ways a call of [execute_trade] can return. *)
Lemma execute_trade_cases (self after : BacktestEngine) (symbol action : string)
    (quantity : Z) (price : Q) (date : Timestamp) :
  execute_trade self symbol action quantity price date = Ok after ->
  after = self
  \/ (action = "BUY"
      /\ inject_Z quantity * price <= current_capital self
      /\ exists pos,
           bought_position (positions self !! symbol) quantity price
             (inject_Z quantity * price) = Ok pos
           /\ after =
              let ledger := with_ledger self
                              (current_capital self - inject_Z quantity * price)
                              (<[symbol := pos]> (positions self)) in
              record_trade ledger
                (mkTrade date symbol "BUY" quantity price
                   (Some (inject_Z quantity * price)) None
                   (get_portfolio_value ledger price symbol)))
  \/ (action = "SELL"
      /\ exists held,
           positions self !! symbol = Some held
           /\ after =
              let sold := Z.min quantity (pos_quantity held) in
              let kept :=
                mkPosition (pos_quantity held - sold) (pos_avg_price held)
                  (pos_cost held - inject_Z sold * pos_avg_price held) in
              let ledger := with_ledger self
                              (current_capital self + inject_Z sold * price)
                              (if (pos_quantity held - sold <=? 0)%Z
                               then delete symbol (positions self)
                               else <[symbol := kept]> (positions self)) in
              record_trade ledger
                (mkTrade date symbol "SELL" sold price None
                   (Some (inject_Z sold * price))
                   (get_portfolio_value ledger price symbol))).
Proof.
  unfold execute_trade. destruct (decide (action = "BUY")) as [->|Hb].
  - destruct (Qle_bool _ _) eqn:Hle; [|intros [= <-]; by left].
    apply Qle_bool_iff in Hle.
    destruct (bought_position _ _ _ _) as [pos|e] eqn:Hpos; [|done].
    intros [= <-]. right. left. split; [done|]. split; [done|].
    by exists pos.
  - destruct (decide (action = "SELL")) as [->|Hs]; [|intros [= <-]; by left].
    destruct (positions self !! symbol) as [held|] eqn:Hheld;
      [|intros [= <-]; by left].
    intros [= <-]. right. right. split; [done|]. by exists held.
Qed.

Lemma cash_flows_snoc (ts : list Trade) (t : Trade) :
  cash_flows (ts ++ [t]) == cash_flows ts + trade_cash_flow t.
Proof.
  induction ts as [|t0 ts IH]; simpl.
  - ring.
  - unfold cash_flows in *. simpl. rewrite IH. ring.
Qed.

Lemma net_quantity_snoc (symbol : string) (ts : list Trade) (t : Trade) :
  net_quantity symbol (ts ++ [t])
  = (net_quantity symbol ts + trade_net_quantity symbol t)%Z.
Proof.
  induction ts as [|t0 ts IH]; simpl.
  - lia.
  - unfold net_quantity in *. simpl. rewrite IH. lia.
Qed.

Lemma execute_trade_cash_balanced (self after : BacktestEngine)
    (symbol action : string) (quantity : Z) (price : Q) (date : Timestamp) :
  cash_balanced self ->
  execute_trade self symbol action quantity price date = Ok after ->
  cash_balanced after.
Proof.
  intros Hbal Hrun. unfold cash_balanced in *.
  destruct (execute_trade_cases _ _ _ _ _ _ _ Hrun)
    as [->|[(_ & _ & pos & _ & ->)|(_ & held & _ & ->)]]; [done| |].
  - cbn [current_capital initial_capital trade_history record_trade with_ledger].
    rewrite cash_flows_snoc. unfold trade_cash_flow. simpl. rewrite Hbal. ring.
  - cbn [current_capital initial_capital trade_history record_trade with_ledger].
    rewrite cash_flows_snoc. unfold trade_cash_flow. simpl. rewrite Hbal. ring.
Qed.

Lemma execute_trade_holdings_balanced (self after : BacktestEngine)
    (symbol action : string) (quantity : Z) (price : Q) (date : Timestamp) :
  holdings_balanced self ->
  execute_trade self symbol action quantity price date = Ok after ->
  holdings_balanced after.
Proof.
  intros Hbal Hrun s. unfold holdings_balanced, held_quantity in *.
  destruct (execute_trade_cases _ _ _ _ _ _ _ Hrun)
    as [->|[(_ & _ & pos & Hpos & ->)|(_ & held & Hheld & ->)]]; [done| |].
  - cbn [positions trade_history record_trade with_ledger].
    rewrite net_quantity_snoc, <- Hbal.
    unfold trade_net_quantity. cbn [trade_symbol trade_action trade_quantity].
    destruct (decide (symbol = s)) as [->|Hne].
    + rewrite lookup_insert_eq. rewrite decide_True by done.
      unfold bought_position in Hpos.
      destruct (positions self !! s) as [old|].
      * destruct (_ =? 0)%Z; [done|]. injection Hpos as <-. simpl. lia.
      * injection Hpos as <-. simpl. lia.
    + rewrite lookup_insert_ne by done. lia.
  - cbn [positions trade_history record_trade with_ledger pos_quantity].
    rewrite net_quantity_snoc, <- Hbal.
    unfold trade_net_quantity. cbn [trade_symbol trade_action trade_quantity].
    set (sold := Z.min quantity (pos_quantity held)).
    assert (Hsold : (sold <= pos_quantity held)%Z) by apply Z.le_min_r.
    destruct (decide (symbol = s)) as [->|Hne].
    + rewrite Hheld. rewrite decide_False by done.
      destruct (Z.leb_spec (pos_quantity held - sold) 0).
      * rewrite lookup_delete_eq. lia.
      * rewrite lookup_insert_eq. simpl. lia.
    + destruct (_ <=? 0)%Z.
      * rewrite lookup_delete_ne by done. lia.
      * rewrite lookup_insert_ne by done. lia.
Qed.

Lemma execute_trade_cost_basis (self after : BacktestEngine)
    (symbol action : string) (quantity : Z) (price : Q) (date : Timestamp) :
  cost_basis_consistent self ->
  execute_trade self symbol action quantity price date = Ok after ->
  cost_basis_consistent after.
Proof.
  intros Hc Hrun s p. unfold cost_basis_consistent in *.
  destruct (execute_trade_cases _ _ _ _ _ _ _ Hrun)
    as [->|[(_ & _ & pos & Hpos & ->)|(_ & held & Hheld & ->)]]; [apply Hc| |].
  - cbn [positions record_trade with_ledger].
    destruct (decide (symbol = s)) as [->|Hne].
    + rewrite lookup_insert_eq. intros [= <-].
      unfold bought_position in Hpos.
      destruct (positions self !! s) as [old|] eqn:Hold.
      * destruct (Z.eqb_spec (pos_quantity old + quantity) 0) as [|Hnz]; [done|].
        injection Hpos as <-. simpl. field.
        intros Hz. apply Hnz. apply inject_Z_injective. exact Hz.
      * injection Hpos as <-. simpl. ring.
    + rewrite lookup_insert_ne by done. apply Hc.
  - cbn [positions record_trade with_ledger pos_quantity].
    set (sold := Z.min quantity (pos_quantity held)).
    destruct (_ <=? 0)%Z.
    + destruct (decide (symbol = s)) as [->|Hne].
      * by rewrite lookup_delete_eq.
      * rewrite lookup_delete_ne by done. apply Hc.
    + destruct (decide (symbol = s)) as [->|Hne].
      * rewrite lookup_insert_eq. intros [= <-]. simpl.
        rewrite (Hc s held Hheld). unfold Z.sub.
        rewrite inject_Z_plus, inject_Z_opp. ring.
      * rewrite lookup_insert_ne by done. apply Hc.
Qed.

Lemma execute_trades_invariant (P : BacktestEngine -> Prop) :
  (forall self after symbol action quantity price date,
     P self ->
     execute_trade self symbol action quantity price date = Ok after ->
     P after) ->
  forall calls self, P self -> P (execute_trades self calls).
Proof.
  intros Hstep calls. induction calls as [|c calls IH]; intros self HP; [done|].
  simpl. apply IH. unfold call_execute.
  destruct (execute_trade _ _ _ _ _ _) as [after|e] eqn:Hrun; [|done].
  by eapply Hstep.
Qed.

(** X1.  After any sequence of [execute_trade] calls on a fresh engine, the
    cash is the initial capital plus the revenues of the recorded SELLs
    minus the costs of the recorded BUYs. *)
Theorem ledger_cash_identity (capital : Q) (calls : list call) :
  let self := execute_trades (BacktestEngine_init capital) calls in
  initial_capital self = capital
  /\ current_capital self == capital + cash_flows (trade_history self).
Proof.
  intros self.
  assert (Hinit : initial_capital self = capital).
  { subst self.
    apply (execute_trades_invariant (fun e => initial_capital e = capital));
      [|done].
    intros e after s a q p d He Hrun.
    destruct (execute_trade_cases _ _ _ _ _ _ _ Hrun)
      as [->|[(_ & _ & pos & _ & ->)|(_ & held & _ & ->)]]; done. }
  split; [done|]. rewrite <- Hinit at 1.
  apply (execute_trades_invariant cash_balanced).
  - intros e after s a q p d. apply execute_trade_cash_balanced.
  - unfold cash_balanced. simpl. ring.
Qed.

(** X2.  After any sequence of [execute_trade] calls on a fresh engine, the
    quantity held of every symbol is the quantity bought minus the quantity
    sold in the recorded trades of that symbol. *)
Theorem ledger_holdings_identity (capital : Q) (calls : list call)
    (symbol : string) :
  let self := execute_trades (BacktestEngine_init capital) calls in
  held_quantity self symbol = net_quantity symbol (trade_history self).
Proof.
  intros self. revert symbol.
  apply (execute_trades_invariant holdings_balanced).
  - intros e after s a q p d. apply execute_trade_holdings_balanced.
  - intros s. unfold held_quantity. simpl. by rewrite lookup_empty.
Qed.

(** X3.  After any sequence of [execute_trade] calls on a fresh engine, the
    total cost of every position is its quantity times its average price:
    a BUY recombines the average, a partial SELL reduces the cost at the
    unchanged average. *)
Theorem ledger_cost_basis (capital : Q) (calls : list call)
    (symbol : string) (pos : Position) :
  let self := execute_trades (BacktestEngine_init capital) calls in
  positions self !! symbol = Some pos ->
  pos_cost pos == inject_Z (pos_quantity pos) * pos_avg_price pos.
Proof.
  intros self. revert symbol pos.
  apply (execute_trades_invariant cost_basis_consistent).
  - intros e after s a q p d. apply execute_trade_cost_basis.
  - intros s pos. simpl. by rewrite lookup_empty.
Qed.

Lemma ledger_cost_basis_witness :
  let calls := [mkCall "AAPL" "BUY" 2 100 0; mkCall "AAPL" "BUY" 2 110 1;
                mkCall "AAPL" "SELL" 1 120 2] in
  let pos := mkPosition 3 ((inject_Z 2 * 100 + inject_Z 2 * 110) / inject_Z 4)
               (inject_Z 2 * 100 + inject_Z 2 * 110
                - inject_Z 1 * ((inject_Z 2 * 100 + inject_Z 2 * 110) / inject_Z 4)) in
  positions (execute_trades (BacktestEngine_init 1000) calls) !! "AAPL" = Some pos
  /\ pos_cost pos == inject_Z (pos_quantity pos) * pos_avg_price pos.
Proof.
  intros calls pos.
  assert (Hpos : positions (execute_trades (BacktestEngine_init 1000) calls)
                 !! "AAPL" = Some pos) by (vm_compute; reflexivity).
  split; [exact Hpos|].
  exact (ledger_cost_basis 1000 calls "AAPL" pos Hpos).
Defined.

(** ** Trading at the mark price *)

Lemma others_at_cost_insert (ps : gmap string Position) (symbol : string)
    (pos : Position) :
  others_at_cost (<[symbol := pos]> ps) symbol = others_at_cost ps symbol.
Proof. unfold others_at_cost. by rewrite delete_insert_eq. Qed.

Lemma others_at_cost_delete (ps : gmap string Position) (symbol : string) :
  others_at_cost (delete symbol ps) symbol = others_at_cost ps symbol.
Proof.
  unfold others_at_cost. f_equal. apply delete_id, lookup_delete_eq.
Qed.

Lemma execute_trade_value (self after : BacktestEngine)
    (symbol action : string) (quantity : Z) (price : Q) (date : Timestamp) :
  execute_trade self symbol action quantity price date = Ok after ->
  get_portfolio_value after price symbol == get_portfolio_value self price symbol
  /\ forall t, trade_history after = trade_history self ++ [t] ->
       trade_portfolio_value t == get_portfolio_value self price symbol.
Proof.
  intros Hrun.
  destruct (execute_trade_cases _ _ _ _ _ _ _ Hrun)
    as [->|[(_ & _ & pos & Hpos & ->)|(_ & held & Hheld & ->)]].
  - split; [done|]. intros t Ht.
    apply (f_equal length) in Ht. rewrite length_app in Ht. simpl in Ht. lia.
  - cbn zeta.
    set (ledger := with_ledger self _ _).
    assert (Hvalue : get_portfolio_value ledger price symbol
                     == get_portfolio_value self price symbol).
    { rewrite !get_portfolio_value_split. subst ledger.
      cbn [current_capital positions with_ledger].
      rewrite others_at_cost_insert. unfold priced_value.
      rewrite lookup_insert_eq. unfold bought_position in Hpos.
      destruct (positions self !! symbol) as [old|].
      - destruct (_ =? 0)%Z; [done|]. injection Hpos as <-. simpl.
        rewrite inject_Z_plus. ring.
      - injection Hpos as <-. simpl. ring. }
    split.
    + exact Hvalue.
    + intros t Ht. cbn [trade_history record_trade] in Ht.
      apply app_inj_tail in Ht as [_ <-]. exact Hvalue.
  - cbn zeta.
    set (sold := Z.min quantity (pos_quantity held)).
    set (ledger := with_ledger self _ _).
    assert (Hsold : (sold <= pos_quantity held)%Z) by apply Z.le_min_r.
    assert (Hvalue : get_portfolio_value ledger price symbol
                     == get_portfolio_value self price symbol).
    { rewrite !get_portfolio_value_split. subst ledger.
      cbn [current_capital positions with_ledger pos_quantity].
      unfold priced_value. rewrite Hheld.
      destruct (Z.leb_spec (pos_quantity held - sold) 0) as [Hz|Hz].
      - rewrite others_at_cost_delete, lookup_delete_eq.
        assert (Heq : sold = pos_quantity held) by lia. rewrite Heq. ring.
      - rewrite others_at_cost_insert, lookup_insert_eq. simpl.
        unfold Z.sub. rewrite inject_Z_plus, inject_Z_opp. ring. }
    split.
    + exact Hvalue.
    + intros t Ht. cbn [trade_history record_trade] in Ht.
      apply app_inj_tail in Ht as [_ <-]. exact Hvalue.
Qed.


(** X4.  A trade changes no value at its own price: whatever the call,
    the portfolio value marked at the trade price is the same after the
    call as before, and it is the value the trade record carries. *)
Theorem trade_is_value_neutral (self after : BacktestEngine)
    (symbol action : string) (quantity : Z) (price : Q) (date : Timestamp) :
  execute_trade self symbol action quantity price date = Ok after ->
  get_portfolio_value after price symbol == get_portfolio_value self price symbol
  /\ forall t, trade_history after = trade_history self ++ [t] ->
       trade_portfolio_value t == get_portfolio_value self price symbol.
Proof. apply execute_trade_value. Qed.

Lemma trade_is_value_neutral_witness :
  let self :=
    execute_trades (BacktestEngine_init 1000)
      [mkCall "AAPL" "BUY" 2 100 0; mkCall "MSFT" "BUY" 1 300 0] in
  exists after,
    execute_trade self "AAPL" "SELL" 1 150 1 = Ok after
    /\ get_portfolio_value after 150 "AAPL" == get_portfolio_value self 150 "AAPL".
Proof.
  intros self.
  exists (returned self (execute_trade self "AAPL" "SELL" 1 150 1)).
  assert (Hrun : execute_trade self "AAPL" "SELL" 1 150 1
                 = Ok (returned self (execute_trade self "AAPL" "SELL" 1 150 1)))
    by (vm_compute; reflexivity).
  split; [exact Hrun|].
  exact (proj1 (trade_is_value_neutral _ _ _ _ _ _ _ Hrun)).
Defined.

(** ** Invariants of a replay *)

Section ReplayInvariants.
Context {S : Type} `{Strategy S}.
Variable symbol : string.
Variable P : BacktestEngine -> Prop.
Hypothesis P_trade :
  forall self after action quantity price date,
    P self ->
    execute_trade self symbol action quantity price date = Ok after ->
    P after.
Hypothesis P_record :
  forall self date close, P self -> P (record_portfolio_value self date close symbol).

Lemma apply_signal_invariant (self after : BacktestEngine) (date : Timestamp)
    (signal : Signal) :
  P self -> apply_signal self symbol date signal = Ok after -> P after.
Proof.
  intros HP. unfold apply_signal.
  destruct (decide _) as [_|_].
  - destruct (_ <? _)%Z; [by apply P_trade | by intros [= <-]].
  - destruct (decide _) as [_|_]; [|by intros [= <-]].
    destruct (positions self !! symbol); [by apply P_trade | by intros [= <-]].
Qed.

Lemma apply_signals_invariant (date : Timestamp) (signals : list Signal) :
  forall self after,
    P self -> apply_signals self symbol date signals = Ok after -> P after.
Proof.
  induction signals as [|signal rest IH]; intros self after HP; simpl.
  - by intros [= <-].
  - destruct (apply_signal self symbol date signal) as [mid|e] eqn:Hmid; [|done].
    simpl. apply IH. by eapply apply_signal_invariant.
Qed.

Lemma process_row_invariant (self after : BacktestEngine) (strategy strategy' : S)
    (date : Timestamp) (row : option Row) :
  P self ->
  process_row self strategy symbol date row = Ok (after, strategy') ->
  P after.
Proof.
  intros HP. unfold process_row. destruct row as [row|]; [|by intros [= <- _]].
  destruct (generate_signals strategy row) as [signals s1].
  destruct (apply_signals self symbol date signals) as [ledger|e] eqn:Hledger;
    [|done].
  simpl. intros [= <- _]. apply P_record. by eapply apply_signals_invariant.
Qed.

Lemma replay_invariant (data : DataFrame) :
  forall self strategy after strategy',
    P self ->
    replay self strategy symbol data = Ok (after, strategy') ->
    P after.
Proof.
  induction data as [|[date row] rest IH]; intros self strategy after strategy' HP.
  - by intros [= <- _].
  - cbn [replay].
    destruct (process_row self strategy symbol date row) as [[mid s1]|e] eqn:Hmid;
      [|done].
    cbn [obind fst snd]. apply IH. by eapply process_row_invariant.
Qed.
End ReplayInvariants.

Lemma only_symbol_others (symbol : string) (self : BacktestEngine) :
  only_symbol symbol self -> others_at_cost (positions self) symbol = 0.
Proof.
  intros Honly. unfold others_at_cost.
  assert (E : delete symbol (positions self) = ∅).
  { apply map_eq. intros s. rewrite lookup_empty.
    destruct (decide (symbol = s)) as [->|Hne].
    - apply lookup_delete_eq.
    - rewrite lookup_delete_ne by done. apply Honly. congruence. }
  rewrite E. apply map_fold_empty.
Qed.

Lemma execute_trade_only_symbol (symbol : string) (self after : BacktestEngine)
    (action : string) (quantity : Z) (price : Q) (date : Timestamp) :
  only_symbol symbol self ->
  execute_trade self symbol action quantity price date = Ok after ->
  only_symbol symbol after.
Proof.
  intros Honly Hrun s Hs.
  destruct (execute_trade_cases _ _ _ _ _ _ _ Hrun)
    as [->|[(_ & _ & pos & _ & ->)|(_ & held & _ & ->)]]; [by apply Honly| |].
  - cbn [positions record_trade with_ledger].
    rewrite lookup_insert_ne by congruence. by apply Honly.
  - cbn [positions record_trade with_ledger].
    destruct (_ <=? 0)%Z.
    + rewrite lookup_delete_ne by congruence. by apply Honly.
    + rewrite lookup_insert_ne by congruence. by apply Honly.
Qed.

Lemma execute_trade_log_symbol (symbol : string) (self after : BacktestEngine)
    (action : string) (quantity : Z) (price : Q) (date : Timestamp) :
  Forall (fun t => trade_symbol t = symbol) (trade_history self) ->
  execute_trade self symbol action quantity price date = Ok after ->
  Forall (fun t => trade_symbol t = symbol) (trade_history after).
Proof.
  intros Hlog Hrun.
  destruct (execute_trade_cases _ _ _ _ _ _ _ Hrun)
    as [->|[(_ & _ & pos & _ & ->)|(_ & held & _ & ->)]]; [done| |];
    cbn [trade_history record_trade with_ledger];
    apply Forall_app; split; try done; by repeat constructor.
Qed.

Lemma replay_curve {S : Type} `{Strategy S} (symbol : string) (data : DataFrame) :
  forall self strategy after strategy',
    replay self strategy symbol data = Ok (after, strategy') ->
    map (fun pt => (ep_date pt, ep_price pt)) (portfolio_values after)
    = map (fun pt => (ep_date pt, ep_price pt)) (portfolio_values self)
      ++ closes data.
Proof.
  induction data as [|[date row] rest IH]; intros self strategy after strategy'.
  - intros [= <- _]. by rewrite app_nil_r.
  - cbn [replay].
    destruct (process_row self strategy symbol date row) as [[mid s1]|e] eqn:Hmid;
      [|done].
    cbn [obind fst snd]. intros Hrest. rewrite (IH _ _ _ _ Hrest).
    unfold process_row in Hmid. destruct row as [row|].
    + destruct (generate_signals strategy row) as [signals s2].
      destruct (apply_signals self symbol date signals) as [ledger|e] eqn:Hledger;
        [|done].
      injection Hmid as <- _.
      assert (Hv : portfolio_values ledger = portfolio_values self).
      { apply (apply_signals_invariant symbol
                 (fun e => portfolio_values e = portfolio_values self))
          with (date := date) (signals := signals) (self := self); try done.
        intros e a act q p d He Ht.
        destruct (execute_trade_cases _ _ _ _ _ _ _ Ht)
          as [->|[(_ & _ & pos & _ & ->)|(_ & held & _ & ->)]]; done. }
      cbn [portfolio_values record_portfolio_value]. rewrite Hv.
      rewrite map_app, <- app_assoc. done.
    + injection Hmid as <- _. done.
Qed.

Section RunAccounting.
Context {S : Type} `{Strategy S}.
Variable float_pow : float64 -> Q -> float64.

(** X5.  The equity curve of a run has exactly one point per row that
    carries a close, in the order of the frame, dated as the row and priced
    at its close; rows whose close is NaN leave no point. *)
Theorem equity_curve_follows_rows (self : BacktestEngine) (strategy : S)
    (symbol : string) (data : DataFrame) (capital : Q)
    (after : BacktestEngine) (strategy' : S) (result : BacktestResult) :
  run_backtest float_pow self strategy symbol data capital
  = Ok (after, strategy', result) ->
  map (fun pt => (ep_date pt, ep_price pt)) (portfolio_values after) = closes data
  /\ length (portfolio_values after) = length (closes data).
Proof.
  intros Hrun. apply (run_backtest_replay float_pow) in Hrun.
  assert (Hmap := replay_curve symbol data _ _ _ _ Hrun). simpl in Hmap.
  split; [done|]. rewrite <- Hmap. by rewrite length_map.
Qed.

(** X6.  At the end of a run the ledger balances against the trade log:
    the cash is the capital plus the cash flows of the log, only the
    backtested symbol can be held, every trade of the log is a trade of that
    symbol, and the quantity held is the quantity bought minus the quantity
    sold. *)
Theorem run_ledger_balances (self : BacktestEngine) (strategy : S)
    (symbol : string) (data : DataFrame) (capital : Q)
    (after : BacktestEngine) (strategy' : S) (result : BacktestResult) :
  run_backtest float_pow self strategy symbol data capital
  = Ok (after, strategy', result) ->
  initial_capital after = capital
  /\ current_capital after == capital + cash_flows (trade_history after)
  /\ (forall s, s <> symbol -> positions after !! s = None)
  /\ Forall (fun t => trade_symbol t = symbol) (trade_history after)
  /\ held_quantity after symbol = net_quantity symbol (trade_history after).
Proof.
  intros Hrun. apply (run_backtest_replay float_pow) in Hrun.
  assert (Hinv : forall P : BacktestEngine -> Prop,
            (forall e a act q p d, P e ->
               execute_trade e symbol act q p d = Ok a -> P a) ->
            (forall e d c, P e -> P (record_portfolio_value e d c symbol)) ->
            P (reset self capital) -> P after).
  { intros P Htrade Hrecord Hreset.
    exact (replay_invariant symbol P Htrade Hrecord data _ _ _ _ Hreset Hrun). }
  assert (Hinit : initial_capital after = capital).
  { apply (Hinv (fun e => initial_capital e = capital)); [|done|done].
    intros e a act q p d He Ht.
    destruct (execute_trade_cases _ _ _ _ _ _ _ Ht)
      as [->|[(_ & _ & pos & _ & ->)|(_ & held & _ & ->)]]; done. }
  split; [done|]. split.
  { rewrite <- Hinit at 1. apply (Hinv cash_balanced).
    - intros e a act q p d. apply execute_trade_cash_balanced.
    - done.
    - unfold cash_balanced. simpl. ring. }
  split.
  { apply (Hinv (only_symbol symbol)).
    - intros e a act q p d. apply execute_trade_only_symbol.
    - done.
    - intros s _. simpl. apply lookup_empty. }
  split.
  { apply (Hinv (fun e => Forall (fun t => trade_symbol t = symbol)
                            (trade_history e))).
    - intros e a act q p d. apply execute_trade_log_symbol.
    - done.
    - simpl. constructor. }
  apply (Hinv holdings_balanced).
  - intros e a act q p d. apply execute_trade_holdings_balanced.
  - done.
  - intros s. unfold held_quantity. simpl. by rewrite lookup_empty.
Qed.
End RunAccounting.

(** ** The trade log of a replay *)

Lemma execute_trade_new_trades (self after : BacktestEngine)
    (symbol action : string) (quantity : Z) (price : Q) (date : Timestamp) :
  execute_trade self symbol action quantity price date = Ok after ->
  exists new,
    trade_history after = trade_history self ++ new
    /\ (length new <= 1)%nat
    /\ Forall (fun t => trade_date t = date /\ trade_price t = price) new.
Proof.
  intros Hrun.
  destruct (execute_trade_cases _ _ _ _ _ _ _ Hrun)
    as [->|[(_ & _ & pos & _ & ->)|(_ & held & _ & ->)]].
  - exists []. rewrite app_nil_r. split; [done|]. split; [simpl; lia | constructor].
  - eexists [_]. split; [reflexivity|]. split; [simpl; lia|]. by repeat constructor.
  - eexists [_]. split; [reflexivity|]. split; [simpl; lia|]. by repeat constructor.
Qed.

Lemma StronglySorted_app_le (l1 l2 : list Z) :
  StronglySorted Z.le l1 -> StronglySorted Z.le l2 ->
  (forall x y, x ∈ l1 -> y ∈ l2 -> (x <= y)%Z) ->
  StronglySorted Z.le (l1 ++ l2).
Proof.
  intros H1 H2 Hle. induction H1 as [|x l1 Hs IH Hx]; simpl; [done|].
  constructor.
  - apply IH. intros a b Ha Hb. apply Hle; [by right | done].
  - apply Forall_app. split; [done|].
    apply Forall_forall. intros y Hy. apply Hle; [by left | done].
Qed.

Lemma StronglySorted_constant (d : Z) (l : list Z) :
  Forall (fun x => x = d) l -> StronglySorted Z.le l.
Proof.
  induction 1 as [|x l -> Hl IH]; constructor; [done|].
  eapply Forall_impl; [exact Hl|]. intros y ->. simpl. lia.
Qed.

Section TradeLog.
Context {S : Type} `{Strategy S}.

Lemma apply_signal_new_trades (self after : BacktestEngine) (symbol : string)
    (date : Timestamp) (signal : Signal) :
  apply_signal self symbol date signal = Ok after ->
  exists new,
    trade_history after = trade_history self ++ new
    /\ (length new <= 1)%nat
    /\ Forall (fun t => trade_date t = date /\ trade_price t = sig_price signal) new.
Proof.
  unfold apply_signal.
  assert (Hnone : exists new : list Trade,
            trade_history self = trade_history self ++ new
            /\ (length new <= 1)%nat
            /\ Forall (fun t => trade_date t = date
                                /\ trade_price t = sig_price signal) new).
  { exists []. rewrite app_nil_r. split; [done|]. split; [simpl; lia | constructor]. }
  destruct (decide _) as [_|_].
  - destruct (_ <? _)%Z;
      [apply execute_trade_new_trades | intros [= <-]; exact Hnone].
  - destruct (decide _) as [_|_]; [|intros [= <-]; exact Hnone].
    destruct (positions self !! symbol);
      [apply execute_trade_new_trades | intros [= <-]; exact Hnone].
Qed.

Lemma apply_signals_new_trades (symbol : string) (date : Timestamp)
    (signals : list Signal) :
  forall self after,
    apply_signals self symbol date signals = Ok after ->
    exists new,
      trade_history after = trade_history self ++ new
      /\ (length new <= length signals)%nat
      /\ Forall (fun t => trade_date t = date) new.
Proof.
  induction signals as [|signal rest IH]; intros self after; simpl.
  - intros [= <-]. exists []. rewrite app_nil_r. split; [done|].
    split; [simpl; lia | constructor].
  - destruct (apply_signal self symbol date signal) as [mid|e] eqn:Hmid; [|done].
    simpl. intros Hrest.
    destruct (apply_signal_new_trades _ _ _ _ _ Hmid) as (n1 & E1 & L1 & F1).
    destruct (IH _ _ Hrest) as (n2 & E2 & L2 & F2).
    exists (n1 ++ n2). rewrite E2, E1, app_assoc. split; [done|].
    split; [rewrite length_app; lia|].
    apply Forall_app. split; [|done].
    eapply Forall_impl; [exact F1|]. by intros t [Ht _].
Qed.

Lemma closes_dates_subset (data : DataFrame) (d : Timestamp) :
  d ∈ map fst (closes data) -> d ∈ map fst data.
Proof.
  induction data as [|[date row] rest IH]; [done|].
  unfold closes. cbn [omap list_omap fst snd]. fold (closes rest).
  destruct row as [row|]; cbn [map fst].
  - intros Hd. apply elem_of_cons in Hd as [->|Hd]; [by left|]. right. by apply IH.
  - intros Hd. right. by apply IH.
Qed.

Lemma replay_new_trades (symbol : string) (bound : nat) (data : DataFrame) :
  forall self strategy after strategy',
    replay self strategy symbol data = Ok (after, strategy') ->
    exists new,
      trade_history after = trade_history self ++ new
      /\ ((forall strategy row,
             (length (generate_signals strategy row).1 <= bound)%nat) ->
          (length new <= bound * length (closes data))%nat)
      /\ Forall (fun t => trade_date t ∈ map fst (closes data)) new
      /\ (StronglySorted Z.le (map fst data) ->
          StronglySorted Z.le (map trade_date new)).
Proof.
  induction data as [|[date row] rest IH]; intros self strategy after strategy'.
  - intros [= <- _]. exists []. rewrite app_nil_r. split; [done|].
    split; [simpl; lia|]. split; constructor.
  - cbn [replay].
    destruct (process_row self strategy symbol date row) as [[mid s1]|e] eqn:Hmid;
      [|done].
    cbn [obind fst snd]. intros Hrest.
    destruct (IH _ _ _ _ Hrest) as (n2 & E2 & L2 & F2 & S2).
    unfold process_row in Hmid. destruct row as [row|].
    + assert (Hb : forall strategy0 : S, (forall st r,
                  (length (generate_signals st r).1 <= bound)%nat) ->
                (length (generate_signals strategy0 row).1 <= bound)%nat)
        by (intros st0 Hb; apply Hb).
      specialize (Hb strategy).
      destruct (generate_signals strategy row) as [signals s2].
      destruct (apply_signals self symbol date signals) as [ledger|e] eqn:Hledger;
        [|done].
      injection Hmid as <- _.
      destruct (apply_signals_new_trades _ _ _ _ _ Hledger) as (n1 & E1 & L1 & F1).
      cbn [trade_history record_portfolio_value] in E2.
      exists (n1 ++ n2). rewrite E2, E1, app_assoc. split; [done|].
      unfold closes. cbn [omap list_omap fst snd]. fold (closes rest).
      cbn [length map fst]. simpl in Hb.
      split; [intros Hbound; specialize (Hb Hbound); specialize (L2 Hbound);
              rewrite length_app; lia|].
      split.
      * apply Forall_app. split.
        -- eapply Forall_impl; [exact F1|]. intros t ->. by left.
        -- eapply Forall_impl; [exact F2|]. intros t Ht. by right.
      * intros Hsorted. apply StronglySorted_inv in Hsorted as [Hs Hall].
        rewrite map_app. apply StronglySorted_app_le.
        -- apply (StronglySorted_constant date). by apply Forall_fmap.
        -- by apply S2.
        -- intros x y Hx Hy.
           apply list_elem_of_fmap in Hx as (t & -> & Ht).
           rewrite Forall_forall in F1. rewrite (F1 t Ht).
           apply list_elem_of_fmap in Hy as (t' & -> & Ht').
           rewrite Forall_forall in F2. specialize (F2 t' Ht').
           apply closes_dates_subset in F2.
           rewrite Forall_forall in Hall. by apply Hall.
    + injection Hmid as <- _.
      exists n2. split; [done|].
      unfold closes. cbn [omap list_omap fst snd]. fold (closes rest).
      split; [done|]. split; [done|].
      intros Hsorted. apply StronglySorted_inv in Hsorted as [Hs _]. by apply S2.
Qed.
End TradeLog.

Section TradeLogTheorems.
Context {S : Type} `{Strategy S}.
Variable float_pow : float64 -> Q -> float64.

(** X7.  Every trade of a run is dated as a row of the frame that carries a
    close, and the log follows the order of the frame: when the dates of the
    frame are in non-decreasing order, so are the dates of the trade log. *)
Theorem trade_dates_follow_rows (self : BacktestEngine) (strategy : S)
    (symbol : string) (data : DataFrame) (capital : Q)
    (after : BacktestEngine) (strategy' : S) (result : BacktestResult) :
  run_backtest float_pow self strategy symbol data capital
  = Ok (after, strategy', result) ->
  Forall (fun t => trade_date t ∈ map fst (closes data)) (trade_history after)
  /\ (Sorted Z.le (map fst data) ->
      Sorted Z.le (map trade_date (trade_history after))).
Proof.
  intros Hrun. apply (run_backtest_replay float_pow) in Hrun.
  destruct (replay_new_trades symbol 0 data _ _ _ _ Hrun) as (new & E & _ & F & Hs).
  simpl in E. rewrite E. split; [done|].
  intros Hsorted. apply StronglySorted_Sorted, Hs.
  apply Sorted_StronglySorted; [|done].
  intros x y z. apply Z.le_trans.
Qed.
End TradeLogTheorems.

(** ** The signals of the seven classes *)

Lemma pandas_signal_cases (strategy : PandasStrategy) (data : Row) :
  ((generate_signals strategy data).1 = []
   \/ exists signal,
        (generate_signals strategy data).1 = [signal]
        /\ sig_price signal = Close data
        /\ sig_symbol signal = strategy_symbol strategy
        /\ (sig_action signal = "BUY" \/ sig_action signal = "SELL"))
  /\ strategy_symbol (generate_signals strategy data).2 = strategy_symbol strategy.
Proof.
  assert (Hshape : forall buy sell mk symbol,
            (forall action, sig_price (mk action) = Close data
                            /\ sig_symbol (mk action) = symbol
                            /\ sig_action (mk action) = action) ->
            buy_elif_sell buy sell mk = []
            \/ exists signal,
                 buy_elif_sell buy sell mk = [signal]
                 /\ sig_price signal = Close data
                 /\ sig_symbol signal = symbol
                 /\ (sig_action signal = "BUY" \/ sig_action signal = "SELL")).
  { intros buy sell mk symbol Hmk.
    destruct (buy_elif_sell_cases buy sell mk) as [E|[E|E]];
      rewrite E; [by left| |];
      right; eexists; (split; [reflexivity|]);
      destruct (Hmk "BUY") as (? & ? & ?), (Hmk "SELL") as (? & ? & ?); auto. }
  destruct strategy as [s|s|s|s|s|s|s];
    unfold generate_signals, pandas_generate_signals; cbn [prod_map fst snd id];
    unfold generate_signals; cbn [strategy_symbol].
  - unfold mac_generate_signals.
    destruct (SMA_10 data) as [sma_10|], (SMA_30 data) as [sma_30|];
      try (split; [by left | done]).
    destruct (decide _); [|split; [by left | done]].
    split; [|done]. right. eexists. split; [reflexivity|]. simpl.
    repeat (split; [done|]). destruct (Qlt_bool sma_30 sma_10); auto.
  - unfold scalping_generate_signals.
    destruct (sc_last_price s); [|split; [by left | done]].
    split; [|done]. by apply Hshape.
  - unfold momentum_generate_signals.
    destruct (Volume data); [|split; [by left | done]].
    split; [|done]. by apply Hshape.
  - unfold mean_reversion_generate_signals.
    destruct (SMA_30 data); [|split; [by left | done]].
    split; [|done]. by apply Hshape.
  - unfold bollinger_generate_signals.
    destruct (BB_Upper data), (BB_Lower data), (BB_Middle data);
      try (split; [by left | done]).
    split; [|done]. by apply Hshape.
  - unfold rsi_generate_signals.
    destruct (RSI data); [|split; [by left | done]].
    split; [|done]. by apply Hshape.
  - unfold breakout_generate_signals.
    destruct (bo_recent_high s), (bo_recent_low s);
      try (split; [by left | done]).
    split; [|done]. by apply Hshape.
Qed.

Lemma pandas_signals_length (strategy : PandasStrategy) (data : Row) :
  (length (generate_signals strategy data).1 <= 1)%nat.
Proof.
  destruct (pandas_signal_cases strategy data) as [[E|(signal & E & _)] _];
    rewrite E; simpl; lia.
Qed.

(** X8.  Whatever its class and state, a strategy object emits on a row
    either nothing or one signal priced at the row's close, carrying the
    object's own symbol and the action BUY or SELL; the call never changes
    the symbol of the object. *)
Theorem pandas_signal_shape (strategy : PandasStrategy) (data : Row) :
  ((generate_signals strategy data).1 = []
   \/ exists signal,
        (generate_signals strategy data).1 = [signal]
        /\ sig_price signal = Close data
        /\ sig_symbol signal = strategy_symbol strategy
        /\ (sig_action signal = "BUY" \/ sig_action signal = "SELL"))
  /\ strategy_symbol (generate_signals strategy data).2 = strategy_symbol strategy.
Proof. apply pandas_signal_cases. Qed.

(** ** Built-in strategies in a run *)

Lemma apply_signals_value (symbol : string) (date : Timestamp) (close : Q)
    (signals : list Signal) :
  Forall (fun signal => sig_price signal = close) signals ->
  forall self after,
    apply_signals self symbol date signals = Ok after ->
    get_portfolio_value after close symbol == get_portfolio_value self close symbol.
Proof.
  induction 1 as [|signal rest Hp Hrest IH]; intros self after; simpl.
  - by intros [= <-].
  - destruct (apply_signal self symbol date signal) as [mid|e] eqn:Hmid; [|done].
    simpl. intros Hafter. rewrite (IH _ _ Hafter).
    unfold apply_signal in Hmid. rewrite Hp in Hmid.
    destruct (decide _) as [_|_].
    + destruct (_ <? _)%Z; [|by injection Hmid as <-].
      apply (execute_trade_value _ _ _ _ _ _ _ Hmid).
    + destruct (decide _) as [_|_]; [|by injection Hmid as <-].
      destruct (positions self !! symbol); [|by injection Hmid as <-].
      apply (execute_trade_value _ _ _ _ _ _ _ Hmid).
Qed.

Lemma apply_signals_foreign (symbol : string) (date : Timestamp)
    (self : BacktestEngine) (signals : list Signal) :
  Forall (fun signal => sig_symbol signal <> symbol) signals ->
  apply_signals self symbol date signals = Ok self.
Proof.
  induction 1 as [|signal rest Hs Hrest IH]; [done|]. simpl.
  unfold apply_signal. rewrite decide_False by (by intros [_ ?]).
  rewrite decide_False by (by intros [_ ?]). simpl. exact IH.
Qed.

Lemma pandas_signals_at_close (strategy : PandasStrategy) (row : Row) :
  Forall (fun signal => sig_price signal = Close row)
    (generate_signals strategy row).1.
Proof.
  destruct (pandas_signal_cases strategy row) as [[E|(signal & E & Hp & _)] _];
    rewrite E; by repeat constructor.
Qed.

Lemma pandas_signals_symbol (strategy : PandasStrategy) (row : Row) :
  Forall (fun signal => sig_symbol signal = strategy_symbol strategy)
    (generate_signals strategy row).1.
Proof.
  destruct (pandas_signal_cases strategy row) as [[E|(signal & E & _ & Hs & _)] _];
    rewrite E; by repeat constructor.
Qed.

Lemma pandas_bar_equity (self after : BacktestEngine)
    (strategy strategy' : PandasStrategy) (symbol : string) (date : Timestamp)
    (row : Row) :
  process_row self strategy symbol date (Some row) = Ok (after, strategy') ->
  exists pt,
    portfolio_values after = portfolio_values self ++ [pt]
    /\ ep_date pt = date
    /\ ep_price pt = Close row
    /\ ep_portfolio_value pt == get_portfolio_value self (Close row) symbol.
Proof.
  unfold process_row.
  pose proof (pandas_signals_at_close strategy row) as Hclose.
  destruct (generate_signals strategy row) as [signals s1].
  destruct (apply_signals self symbol date signals) as [ledger|e] eqn:Hledger;
    [|done].
  simpl. intros [= <- _]. eexists. cbn [portfolio_values record_portfolio_value].
  assert (Hv : portfolio_values ledger = portfolio_values self).
  { apply (apply_signals_invariant symbol
             (fun e => portfolio_values e = portfolio_values self))
      with (date := date) (signals := signals) (self := self); try done.
    intros e a act q p d He Ht.
    destruct (execute_trade_cases _ _ _ _ _ _ _ Ht)
      as [->|[(_ & _ & pos & _ & ->)|(_ & held & _ & ->)]]; done. }
  rewrite Hv. split; [reflexivity|]. split; [done|]. split; [done|].
  cbn [ep_portfolio_value].
  exact (apply_signals_value symbol date (Close row) signals Hclose _ _ Hledger).
Qed.


(** X9.  A bar's own trades do not move the equity recorded for that bar:
    with any of the seven classes, the point recorded for a row is the
    ledger as the previous bars left it, marked at this row's close, because
    every signal is filled at that close. *)
Theorem bar_equity_is_previous_ledger_at_close (self after : BacktestEngine)
    (strategy strategy' : PandasStrategy) (symbol : string) (date : Timestamp)
    (row : Row) :
  process_row self strategy symbol date (Some row) = Ok (after, strategy') ->
  exists pt,
    portfolio_values after = portfolio_values self ++ [pt]
    /\ ep_date pt = date
    /\ ep_price pt = Close row
    /\ ep_portfolio_value pt == get_portfolio_value self (Close row) symbol.
Proof. apply pandas_bar_equity. Qed.

Lemma bar_equity_is_previous_ledger_at_close_witness :
  let self :=
    execute_trades (BacktestEngine_init 1000) [mkCall "AAPL" "BUY" 2 100 0] in
  let row := mkRow 90 90 90 90 None None None None None None None in
  let strategy := Scalping (scalping_seen "AAPL" 100) in
  exists after strategy' pt,
    process_row self strategy "AAPL" 1 (Some row) = Ok (after, strategy')
    /\ length (trade_history after) = 2%nat
    /\ portfolio_values after = [pt]
    /\ ep_portfolio_value pt == get_portfolio_value self 90 "AAPL".
Proof.
  intros self row strategy.
  set (out := returned (self, strategy)
                (process_row self strategy "AAPL" 1 (Some row))).
  assert (Hrun : process_row self strategy "AAPL" 1 (Some row)
                 = Ok (out.1, out.2)) by (vm_compute; reflexivity).
  destruct (bar_equity_is_previous_ledger_at_close _ _ _ _ _ _ _ Hrun)
    as (pt & Hpts & _ & _ & Hvalue).
  exists out.1, out.2, pt. split; [exact Hrun|].
  split; [vm_compute; reflexivity|]. split; [exact Hpts | exact Hvalue].
Defined.

Section PandasRuns.
Variable float_pow : float64 -> Q -> float64.

Lemma pandas_replay_mismatch (symbol : string) (data : DataFrame) :
  forall (self : BacktestEngine) (strategy : PandasStrategy) after strategy',
    strategy_symbol strategy <> symbol ->
    positions self = ∅ ->
    replay self strategy symbol data = Ok (after, strategy') ->
    trade_history after = trade_history self
    /\ positions after = ∅
    /\ current_capital after = current_capital self
    /\ exists new,
         portfolio_values after = portfolio_values self ++ new
         /\ Forall (fun pt => ep_portfolio_value pt = current_capital self) new.
Proof.
  induction data as [|[date row] rest IH]; intros self strategy after strategy' Hne Hpos.
  - intros [= <- _]. repeat (split; [done|]). exists []. by rewrite app_nil_r.
  - cbn [replay]. unfold process_row at 1. destruct row as [row|].
    + pose proof (pandas_signals_symbol strategy row) as Hsym.
      destruct (pandas_signal_cases strategy row) as [_ Hkeep].
      destruct (generate_signals strategy row) as [signals s1].
      cbn [fst snd] in *.
      rewrite (apply_signals_foreign symbol date self signals).
      2:{ eapply Forall_impl; [exact Hsym|]. intros sg ->. done. }
      cbn [obind fst snd]. intros Hrest.
      assert (Hne' : strategy_symbol s1 <> symbol) by congruence.
      destruct (IH (record_portfolio_value self date (Close row) symbol) s1
                  after strategy' Hne' Hpos Hrest)
        as (Ht & Hp & Hc & new & Hv & Hall).
      cbn [trade_history positions current_capital portfolio_values
           record_portfolio_value] in *.
      repeat (split; [done|]).
      eexists (_ :: new). rewrite Hv, <- app_assoc. split; [reflexivity|].
      constructor; [|done]. cbn [ep_portfolio_value].
      by apply get_portfolio_value_flat.
    + cbn [obind fst snd]. by apply IH.
Qed.

(** X10.  A strategy object built for another symbol than the one
    backtested never trades: its signals are dropped by the loop, so the run
    ends with an empty trade log, no position, the capital untouched and an
    equity curve flat at the capital. *)
Theorem foreign_symbol_never_trades (self : BacktestEngine)
    (strategy : PandasStrategy) (symbol : string) (data : DataFrame)
    (capital : Q) (after : BacktestEngine) (strategy' : PandasStrategy)
    (result : BacktestResult) :
  strategy_symbol strategy <> symbol ->
  run_backtest float_pow self strategy symbol data capital
  = Ok (after, strategy', result) ->
  trade_history after = []
  /\ positions after = ∅
  /\ current_capital after = capital
  /\ Forall (fun pt => ep_portfolio_value pt = capital) (portfolio_values after).
Proof.
  intros Hne Hrun. apply (run_backtest_replay float_pow) in Hrun.
  destruct (pandas_replay_mismatch symbol data (reset self capital) strategy
              after strategy' Hne eq_refl Hrun)
    as (Ht & Hp & Hc & new & Hv & Hall).
  simpl in *. by subst.
Qed.

(** X11.  A run of any of the seven classes records at most one trade per
    row that carries a close. *)
Theorem pandas_trades_bounded (self : BacktestEngine)
    (strategy : PandasStrategy) (symbol : string) (data : DataFrame)
    (capital : Q) (after : BacktestEngine) (strategy' : PandasStrategy)
    (result : BacktestResult) :
  run_backtest float_pow self strategy symbol data capital
  = Ok (after, strategy', result) ->
  (length (trade_history after) <= length (closes data))%nat.
Proof.
  intros Hrun. apply (run_backtest_replay float_pow) in Hrun.
  destruct (replay_new_trades symbol 1 data _ _ _ _ Hrun) as (new & E & L & _).
  simpl in E. rewrite E. specialize (L pandas_signals_length). lia.
Qed.
End PandasRuns.

(** ** The result of a run *)

Lemma nan_to_zero_not_nan (x : float64) : isna (nan_to_zero x) = false.
Proof. by destruct x. Qed.

Lemma closes_nil_no_trades {S : Type} `{Strategy S} (symbol : string)
    (data : DataFrame) (self : BacktestEngine) (strategy : S)
    (after : BacktestEngine) (strategy' : S) :
  closes data = [] ->
  replay self strategy symbol data = Ok (after, strategy') ->
  trade_history after = trade_history self.
Proof.
  intros Hnil Hrun.
  destruct (replay_new_trades symbol 0 data _ _ _ _ Hrun) as (new & E & _ & F & _).
  rewrite Hnil in F. destruct new as [|t new]; [by rewrite app_nil_r in E|].
  apply Forall_cons in F as [Ht _]. by apply elem_of_nil in Ht.
Qed.

Section RunResult.
Context {S : Type} `{Strategy S}.
Variable float_pow : float64 -> Q -> float64.

(** X12.  What a run returns depends only on whether some row carries a
    close.  If none does, the result is an error dictionary ('No data
    available' for an empty frame, 'No portfolio values recorded' for a
    frame of NaN closes) and nothing was traded.  Otherwise it is a report
    whose final value is the last recorded point, whose trade count is the
    length of the trade log, and none of whose three ratios is NaN. *)
Theorem run_result_shape (self : BacktestEngine) (strategy : S)
    (symbol : string) (data : DataFrame) (capital : Q)
    (after : BacktestEngine) (strategy' : S) (result : BacktestResult) :
  run_backtest float_pow self strategy symbol data capital
  = Ok (after, strategy', result) ->
  match closes data with
  | [] =>
      result = ErrorResult (if decide (data = [])
                            then "No data available for " +:+ symbol
                            else "No portfolio values recorded")
      /\ trade_history after = []
      /\ portfolio_values after = []
  | _ :: _ =>
      exists report final,
        result = Report report
        /\ last (portfolio_values after) = Some final
        /\ final_portfolio_value report = ep_portfolio_value final
        /\ total_trades report = length (trade_history after)
        /\ report_initial_capital report = capital
        /\ report_portfolio_values report = portfolio_values after
        /\ report_trade_history report = trade_history after
        /\ isna (total_return report) = false
        /\ isna (annualized_return report) = false
        /\ isna (max_drawdown report) = false
  end.
Proof.
  intros Hrun. pose proof (run_backtest_replay float_pow _ _ _ _ _ _ _ _ Hrun) as Hrep.
  pose proof (replay_curve symbol data _ _ _ _ Hrep) as Hcurve. simpl in Hcurve.
  assert (Hinit : initial_capital after = capital).
  { apply (replay_invariant symbol (fun e => initial_capital e = capital)
             ltac:(intros e a act q p d He Ht;
                   destruct (execute_trade_cases _ _ _ _ _ _ _ Ht)
                     as [->|[(_ & _ & pos & _ & ->)|(_ & held & _ & ->)]]; done)
             ltac:(done) data (reset self capital) strategy after strategy'
             eq_refl Hrep). }
  destruct (closes data) as [|c cs] eqn:Hcloses.
  - apply fmap_nil_inv in Hcurve.
    pose proof (closes_nil_no_trades symbol data _ _ _ _ Hcloses Hrep) as Hlog.
    simpl in Hlog. split; [|done].
    unfold run_backtest in Hrun. destruct data as [|bar rest].
    + rewrite decide_True by done. by injection Hrun as _ _ <-.
    + rewrite decide_False by done. rewrite Hrep in Hrun. simpl in Hrun.
      injection Hrun as <-. unfold calculate_performance_metrics.
      by rewrite Hcurve.
  - assert (Hlast : exists final, last (portfolio_values after) = Some final).
    { destruct (portfolio_values after) as [|pt pts] eqn:Hpv; [done|].
      rewrite <- Hpv. apply last_is_Some. by rewrite Hpv. }
    destruct Hlast as [final Hlast].
    unfold run_backtest in Hrun. destruct data as [|bar rest]; [done|].
    rewrite Hrep in Hrun. simpl in Hrun. injection Hrun as <-.
    unfold calculate_performance_metrics. rewrite Hlast.
    eexists _, final. split; [reflexivity|]. simpl.
    repeat (split; [done|]). split; [apply nan_to_zero_not_nan|].
    split; apply nan_to_zero_not_nan.
Qed.
End RunResult.

Lemma execute_trade_values (self after : BacktestEngine) (symbol action : string)
    (quantity : Z) (price : Q) (date : Timestamp) :
  execute_trade self symbol action quantity price date = Ok after ->
  portfolio_values after = portfolio_values self.
Proof.
  intros Ht.
  destruct (execute_trade_cases _ _ _ _ _ _ _ Ht)
    as [->|[(_ & _ & pos & _ & ->)|(_ & held & _ & ->)]]; done.
Qed.

Lemma replay_curve_grows {S : Type} `{Strategy S} (symbol : string)
    (data : DataFrame) (self : BacktestEngine) (strategy : S)
    (after : BacktestEngine) (strategy' : S) :
  replay self strategy symbol data = Ok (after, strategy') ->
  exists new, portfolio_values after = portfolio_values self ++ new.
Proof.
  apply (replay_invariant symbol
           (fun e => exists new, portfolio_values e = portfolio_values self ++ new)).
  - intros e a act q p d [new He] Ht. exists new.
    by rewrite (execute_trade_values _ _ _ _ _ _ _ Ht).
  - intros e d c [new He]. eexists (new ++ [_]). simpl. rewrite He.
    by rewrite app_assoc.
  - exists []. by rewrite app_nil_r.
Qed.

Lemma pandas_first_point (symbol : string) (data : DataFrame) :
  forall (self : BacktestEngine) (strategy : PandasStrategy) after strategy' pt,
    portfolio_values self = [] ->
    positions self = ∅ ->
    replay self strategy symbol data = Ok (after, strategy') ->
    head (portfolio_values after) = Some pt ->
    ep_portfolio_value pt == current_capital self.
Proof.
  induction data as [|[date row] rest IH];
    intros self strategy after strategy' pt Hnil Hpos.
  - intros [= <- _]. by rewrite Hnil.
  - cbn [replay].
    destruct (process_row self strategy symbol date row) as [[mid s1]|e] eqn:Hmid;
      [|done].
    cbn [obind fst snd]. intros Hrest Hhead. destruct row as [row|].
    + destruct (pandas_bar_equity _ _ _ _ _ _ _ Hmid)
        as (pt1 & Hpts & _ & _ & Hvalue).
      destruct (replay_curve_grows symbol rest _ _ _ _ Hrest) as [new Hnew].
      rewrite Hnew, Hpts, Hnil in Hhead. simpl in Hhead.
      injection Hhead as <-. rewrite Hvalue.
      by rewrite get_portfolio_value_flat.
    + injection Hmid as <- <-. by eapply IH.
Qed.

Lemma max_drawdown_from_positive (v : Q) (rest : list Q) :
  0 < v ->
  exists d, calculate_max_drawdown (v :: rest) = Fin d /\ d <= 0.
Proof.
  intros Hv. unfold calculate_max_drawdown. cbn [expanding_max zip_with].
  fold (drawdown_from v rest).
  unfold series_min. cbn [foldr]. fold (series_min (drawdown_from v rest)).
  rewrite fdiv_finite by lra.
  assert (E : (v - v) / v == 0) by (field; lra).
  destruct (drawdown_from_min rest v Hv) as [[-> ->]|(d & -> & Hd & _)].
  - exists ((v - v) / v). split; [done | lra].
  - exists (Qmin ((v - v) / v) d). split; [done|].
    pose proof (Q.le_min_r ((v - v) / v) d). lra.
Qed.

Section PandasReport.
Variable float_pow : float64 -> Q -> float64.

(** X13.  In a run of any of the seven classes the first recorded point
    equals the capital, since trades filled at the close change no value.
    With a positive capital the running peak is therefore positive, and the
    report carries a maximum drawdown that is a number at most 0 and a
    total return that is the number [(final - capital) / capital]. *)
Theorem pandas_run_starts_at_capital (self : BacktestEngine)
    (strategy : PandasStrategy) (symbol : string) (data : DataFrame)
    (capital : Q) (after : BacktestEngine) (strategy' : PandasStrategy)
    (result : BacktestResult) :
  run_backtest float_pow self strategy symbol data capital
  = Ok (after, strategy', result) ->
  (forall pt, head (portfolio_values after) = Some pt ->
     ep_portfolio_value pt == capital)
  /\ (0 < capital ->
      forall report, result = Report report ->
        (exists d, max_drawdown report = Fin d /\ d <= 0)
        /\ total_return report
           = Fin ((final_portfolio_value report - capital) / capital)).
Proof.
  intros Hrun.
  pose proof (run_backtest_replay float_pow _ _ _ _ _ _ _ _ Hrun) as Hrep.
  assert (Hfirst : forall pt, head (portfolio_values after) = Some pt ->
                     ep_portfolio_value pt == capital).
  { intros pt Hpt.
    exact (pandas_first_point symbol data (reset self capital) strategy after
             strategy' pt eq_refl eq_refl Hrep Hpt). }
  split; [done|]. intros Hcap report ->.
  assert (Hinit : initial_capital after = capital).
  { apply (replay_invariant symbol (fun e => initial_capital e = capital)
             ltac:(intros e a act q p d He Ht;
                   destruct (execute_trade_cases _ _ _ _ _ _ _ Ht)
                     as [->|[(_ & _ & pos & _ & ->)|(_ & held & _ & ->)]]; done)
             ltac:(done) data (reset self capital) strategy after strategy'
             eq_refl Hrep). }
  unfold run_backtest in Hrun. destruct data as [|bar rest]; [done|].
  rewrite Hrep in Hrun. simpl in Hrun. injection Hrun as Hres.
  unfold calculate_performance_metrics in Hres.
  destruct (last (portfolio_values after)) as [final|] eqn:Hlast; [|done].
  injection Hres as <-. cbn [max_drawdown total_return final_portfolio_value].
  rewrite Hinit. split.
  - destruct (portfolio_values after) as [|pt pts] eqn:Hpv; [done|].
    specialize (Hfirst pt eq_refl). cbn [map].
    destruct (max_drawdown_from_positive (ep_portfolio_value pt)
                (map ep_portfolio_value pts)) as (d & -> & Hd); [lra|].
    by exists d.
  - rewrite fdiv_finite by lra. done.
Qed.
End PandasReport.

(** ** Strategy objects across rows and runs *)

Lemma stateless_generate_signals (strategy : PandasStrategy) (row : Row) :
  stateless strategy -> (generate_signals strategy row).2 = strategy.
Proof.
  destruct strategy as [s|s|s|s|s|s|s]; try done; intros _;
    unfold generate_signals, pandas_generate_signals; cbn [prod_map snd];
    unfold generate_signals.
  - unfold momentum_generate_signals. by destruct (Volume row).
  - unfold mean_reversion_generate_signals. by destruct (SMA_30 row).
  - unfold bollinger_generate_signals.
    by destruct (BB_Upper row), (BB_Lower row), (BB_Middle row).
  - unfold rsi_generate_signals. by destruct (RSI row).
Qed.

Lemma stateless_replay (symbol : string) (data : DataFrame) :
  forall (self : BacktestEngine) (strategy : PandasStrategy) after strategy',
    stateless strategy ->
    replay self strategy symbol data = Ok (after, strategy') ->
    strategy' = strategy.
Proof.
  induction data as [|[date row] rest IH]; intros self strategy after strategy' Hs.
  - by intros [= _ <-].
  - cbn [replay]. unfold process_row at 1. destruct row as [row|].
    + pose proof (stateless_generate_signals strategy row Hs) as Hkeep.
      destruct (generate_signals strategy row) as [signals s1].
      simpl in Hkeep. subst s1.
      destruct (apply_signals self symbol date signals) as [ledger|e]; [|done].
      cbn [obind fst snd]. by apply IH.
    + cbn [obind fst snd]. by apply IH.
Qed.

Lemma replay_daily_returns {S : Type} `{Strategy S} (symbol : string)
    (data : DataFrame) (self : BacktestEngine) (strategy : S)
    (after : BacktestEngine) (strategy' : S) :
  replay self strategy symbol data = Ok (after, strategy') ->
  daily_returns after = daily_returns self.
Proof.
  apply (replay_invariant symbol (fun e => daily_returns e = daily_returns self));
    [|done|done].
  intros e a act q p d He Ht. rewrite <- He.
  destruct (execute_trade_cases _ _ _ _ _ _ _ Ht)
    as [->|[(_ & _ & pos & _ & ->)|(_ & held & _ & ->)]]; done.
Qed.

(** X14.  The four classes whose [generate_signals] assigns no attribute
    (Momentum, MeanReversion, BollingerBands, RSI) can be reused: a run
    hands the object back as it received it, and a second run on the same
    engine with the same object returns the equity curve and the trade log
    of the first. *)
Theorem stateless_strategy_reruns (float_pow : float64 -> Q -> float64)
    (strategy : PandasStrategy) :
  stateless strategy ->
  reruns_indistinguishable float_pow strategy
  /\ forall self symbol data capital after strategy' result,
       run_backtest float_pow self strategy symbol data capital
       = Ok (after, strategy', result) ->
       strategy' = strategy.
Proof.
  intros Hs.
  assert (Hback : forall self symbol data capital after strategy' result,
            run_backtest float_pow self strategy symbol data capital
            = Ok (after, strategy', result) ->
            strategy' = strategy).
  { intros self symbol data capital after strategy' result Hrun.
    apply (run_backtest_replay float_pow) in Hrun.
    by apply (stateless_replay symbol data _ _ _ _ Hs Hrun). }
  split; [|exact Hback].
  intros self symbol data capital a1 s1 r1 a2 s2 r2 H1 H2.
  rewrite (Hback _ _ _ _ _ _ _ H1) in H2.
  assert (Hreset : reset a1 capital = reset self capital).
  { unfold reset. f_equal.
    apply (run_backtest_replay float_pow) in H1.
    by rewrite (replay_daily_returns symbol data _ _ _ _ H1). }
  unfold run_backtest in H1, H2. rewrite Hreset, H1 in H2.
  by injection H2 as <- _ _.
Qed.

Lemma stateless_strategy_reruns_witness :
  reruns_indistinguishable sample_pow (RSIStrat (RSIStrategy_init 40 60 "AAPL")).
Proof.
  apply (stateless_strategy_reruns sample_pow
           (RSIStrat (RSIStrategy_init 40 60 "AAPL"))).
  exact I.
Defined.

(** The signals of a crossover object never repeat its last action, and
    never repeat one another. *)
Lemma mac_signals_alternate (rows : list Row) :
  forall (self : MovingAverageCrossoverStrategy),
    let actions := map sig_action (signals_over self rows).1 in
    (forall a, head actions = Some a -> mac_last_signal self <> Some a)
    /\ (forall i a b, actions !! i = Some a -> actions !! Datatypes.S i = Some b ->
          a <> b)
    /\ Forall (fun a => a = "BUY" \/ a = "SELL") actions
    /\ mac_last_signal (signals_over self rows).2
       = match last actions with
         | Some a => Some a
         | None => mac_last_signal self
         end.
Proof.
  induction rows as [|row rest IH]; intros self actions.
  - subst actions. simpl. repeat split; done.
  - subst actions. cbn [signals_over].
    destruct (generate_signals self row) as [signals s1] eqn:Hgen.
    specialize (IH s1).
    destruct (signals_over s1 rest) as [later s2] eqn:Hlater.
    cbn [fst snd] in *. destruct IH as (Hhead & Hadj & Hall & Hlast).
    unfold generate_signals, mac_generate_signals in Hgen.
    assert (Hquiet : signals = [] /\ s1 = self
                     \/ exists signal, signals = [signal]
                          /\ mac_last_signal self <> Some (sig_action signal)
                          /\ mac_last_signal s1 = Some (sig_action signal)
                          /\ (sig_action signal = "BUY" \/ sig_action signal = "SELL")).
    { destruct (SMA_10 row) as [sma_10|], (SMA_30 row) as [sma_30|];
        try (left; by injection Hgen as <- <-).
      destruct (decide _) as [Hne|_]; [|left; by injection Hgen as <- <-].
      right. injection Hgen as <- <-. eexists. split; [reflexivity|].
      simpl. split; [done|]. split; [done|].
      destruct (Qlt_bool sma_30 sma_10); auto. }
    destruct Hquiet as [[-> ->]|(signal & -> & Hnew & Hs1 & Hact)].
    + simpl. done.
    + cbn [app map]. repeat split.
      * intros a [= Ha]. by rewrite <- Ha.
      * intros [|i] a b; cbn.
        -- intros [= Ha] Hb Hab. subst a b.
           apply (Hhead (sig_action signal)); [|done].
           by destruct (map sig_action later).
        -- apply Hadj.
      * by constructor.
      * rewrite Hlast. destruct (map sig_action later) as [|a l] eqn:Hl.
        -- exact Hs1.
        -- change (last (sig_action signal :: a :: l)) with (last (a :: l)).
           by destruct (last (a :: l)) eqn:Hla;
             [|apply last_None in Hla].
Qed.

(** X15.  Over any sequence of rows, the signals of a
    MovingAverageCrossoverStrategy object alternate: each is a BUY or a
    SELL, no two consecutive ones carry the same action, and the first
    differs from the last action the object remembered. *)
Theorem crossover_signals_alternate (self : MovingAverageCrossoverStrategy)
    (rows : list Row) :
  let actions := map sig_action (signals_over self rows).1 in
  (forall a, head actions = Some a -> mac_last_signal self <> Some a)
  /\ (forall i a b, actions !! i = Some a -> actions !! Datatypes.S i = Some b ->
        a <> b)
  /\ Forall (fun a => a = "BUY" \/ a = "SELL") actions.
Proof.
  destruct (mac_signals_alternate rows self) as (H1 & H2 & H3 & _). auto.
Qed.

Lemma crossover_signals_alternate_witness :
  let up := mkRow 10 10 10 10 None (Some 11) (Some 10) None None None None in
  let down := mkRow 10 10 10 10 None (Some 9) (Some 10) None None None None in
  let self := MovingAverageCrossoverStrategy_init 5 20 "AAPL" in
  map sig_action (signals_over self [up; up; down; down; up]).1
  = ["BUY"; "SELL"; "BUY"]
  /\ "BUY" <> "SELL".
Proof.
  intros up down self. split; [vm_compute; reflexivity|].
  destruct (crossover_signals_alternate self [up; up; down; down; up])
    as (_ & Hadj & _).
  apply (Hadj 0%nat); vm_compute; reflexivity.
Defined.

(** The running high and low of a Breakout object after some rows. *)
Lemma breakout_extremes (rows : list Row) :
  forall self : BreakoutStrategy,
    rows <> [] ->
    exists h l,
      bo_recent_high (signals_over self rows).2 = Some h
      /\ bo_recent_low (signals_over self rows).2 = Some l
      /\ (forall row, row ∈ rows -> High row <= h /\ l <= Low row)
      /\ (forall p, bo_recent_high self = Some p -> p <= h)
      /\ (forall p, bo_recent_low self = Some p -> l <= p)
      /\ ((exists row, row ∈ rows /\ h = High row) \/ bo_recent_high self = Some h)
      /\ ((exists row, row ∈ rows /\ l = Low row) \/ bo_recent_low self = Some l).
Proof.
  induction rows as [|row rest IH]; intros self Hne; [done|].
  cbn [signals_over].
  destruct (generate_signals self row) as [signals s1] eqn:Hgen.
  unfold generate_signals, breakout_generate_signals in Hgen.
  injection Hgen as _ Hs1.
  set (h1 := match bo_recent_high self with
             | Some h => if Qlt_bool h (High row) then High row else h
             | None => High row
             end) in Hs1.
  set (l1 := match bo_recent_low self with
             | Some l => if Qlt_bool (Low row) l then Low row else l
             | None => Low row
             end) in Hs1.
  assert (Hh1 : High row <= h1
                /\ (forall p, bo_recent_high self = Some p -> p <= h1)
                /\ (h1 = High row \/ bo_recent_high self = Some h1)).
  { subst h1. destruct (bo_recent_high self) as [h|].
    - destruct (Qlt_bool h (High row)) eqn:E.
      + apply Qlt_bool_iff in E. split; [lra|]. split; [|by left].
        intros p [= <-]. lra.
      + apply Qlt_bool_false in E. split; [done|]. split; [|by right].
        intros p [= <-]. lra.
    - split; [lra|]. split; [done | by left]. }
  assert (Hl1 : l1 <= Low row
                /\ (forall p, bo_recent_low self = Some p -> l1 <= p)
                /\ (l1 = Low row \/ bo_recent_low self = Some l1)).
  { subst l1. destruct (bo_recent_low self) as [l|].
    - destruct (Qlt_bool (Low row) l) eqn:E.
      + apply Qlt_bool_iff in E. split; [lra|]. split; [|by left].
        intros p [= <-]. lra.
      + apply Qlt_bool_false in E. split; [done|]. split; [|by right].
        intros p [= <-]. lra.
    - split; [lra|]. split; [done | by left]. }
  destruct Hh1 as (Hrow_h & Hprev_h & Hfrom_h).
  destruct Hl1 as (Hrow_l & Hprev_l & Hfrom_l).
  destruct rest as [|row2 rest].
  - cbn [signals_over fst snd]. subst s1. cbn [bo_recent_high bo_recent_low].
    exists h1, l1. split; [done|]. split; [done|]. split.
    { intros r Hr. apply list_elem_of_singleton in Hr as ->. done. }
    split; [done|]. split; [done|]. split.
    + destruct Hfrom_h as [E|E]; [left; exists row; split; [by left | done] | by right].
    + destruct Hfrom_l as [E|E]; [left; exists row; split; [by left | done] | by right].
  - destruct (IH s1 ltac:(done)) as (h & l & Eh & El & Hall & Hph & Hpl & Hfh & Hfl).
    destruct (signals_over s1 (row2 :: rest)) as [later s2].
    cbn [fst snd] in *. exists h, l. split; [done|]. split; [done|].
    assert (Hh1h : h1 <= h) by (apply Hph; by subst s1).
    assert (Hll1 : l <= l1) by (apply Hpl; by subst s1).
    split.
    { intros r Hr. apply elem_of_cons in Hr as [->|Hr]; [lra | by apply Hall]. }
    split. { intros p Hp. specialize (Hprev_h p Hp). lra. }
    split. { intros p Hp. specialize (Hprev_l p Hp). lra. }
    split.
    + destruct Hfh as [(r & Hr & E)|E].
      * left. exists r. split; [by right | done].
      * subst s1. cbn [bo_recent_high] in E. injection E as <-.
        destruct Hfrom_h as [E|E]; [left; exists row; split; [by left | done] | by right].
    + destruct Hfl as [(r & Hr & E)|E].
      * left. exists r. split; [by right | done].
      * subst s1. cbn [bo_recent_low] in E. injection E as <-.
        destruct Hfrom_l as [E|E]; [left; exists row; split; [by left | done] | by right].
Qed.

(** X16.  A freshly built Breakout object emits nothing on its first row,
    and after any rows its running high is the highest [High] and its
    running low the lowest [Low] among the rows it has seen. *)
Theorem breakout_tracks_extremes (symbol : string) (first : Row)
    (rest : list Row) :
  let self := BreakoutStrategy_init symbol in
  (generate_signals self first).1 = []
  /\ exists h l,
       bo_recent_high (signals_over self (first :: rest)).2 = Some h
       /\ bo_recent_low (signals_over self (first :: rest)).2 = Some l
       /\ (forall row, row ∈ first :: rest -> High row <= h /\ l <= Low row)
       /\ (exists row, row ∈ first :: rest /\ h = High row)
       /\ (exists row, row ∈ first :: rest /\ l = Low row).
Proof.
  intros self. split; [done|].
  destruct (breakout_extremes (first :: rest) self ltac:(done))
    as (h & l & Eh & El & Hall & _ & _ & Hfh & Hfl).
  exists h, l. repeat (split; [done|]).
  split; [by destruct Hfh | by destruct Hfl].
Qed.

(** ** Sizing and drawdown *)

Lemma drawdown_from_bounds (values : list Q) :
  forall peak, 0 < peak -> Forall (fun v => 0 < v) values ->
    (values = [] /\ series_min (drawdown_from peak values) = NaN)
    \/ (exists d, series_min (drawdown_from peak values) = Fin d
                  /\ -1 < d /\ d <= 0).
Proof.
  induction values as [|v rest IH]; intros peak Hpeak Hall; [by left|].
  apply Forall_cons in Hall as [Hv Hrest].
  right. unfold drawdown_from. cbn [expanding_max_from zip_with].
  fold (drawdown_from (Qmax peak v) rest).
  unfold series_min. cbn [foldr]. fold (series_min (drawdown_from (Qmax peak v) rest)).
  pose proof (Q.le_max_l peak v) as Hl.
  pose proof (Q.le_max_r peak v) as Hr.
  assert (Hpos : 0 < Qmax peak v) by lra.
  rewrite fdiv_finite by lra.
  set (e := (v - Qmax peak v) / Qmax peak v).
  assert (Hle : e <= 0).
  { unfold e. apply Qle_shift_div_r; [done|]. lra. }
  assert (Hgt : -1 < e).
  { unfold e. apply Qlt_shift_div_l; [done|]. lra. }
  destruct (IH (Qmax peak v) Hpos Hrest) as [[-> ->]|(d & -> & Hd1 & Hd0)].
  - exists e. done.
  - exists (Qmin e d). split; [done|].
    destruct (Q.min_spec e d) as [[_ E]|[_ E]]; rewrite E; done.
Qed.

(** X18.  On a curve of positive values the maximum drawdown is a number
    greater than -1 and at most 0: a portfolio that keeps a positive value
    never loses the whole of its peak. *)
Theorem max_drawdown_above_minus_one (v : Q) (rest : list Q) :
  Forall (fun x => 0 < x) (v :: rest) ->
  exists d, calculate_max_drawdown (v :: rest) = Fin d /\ -1 < d /\ d <= 0.
Proof.
  intros Hall. apply Forall_cons in Hall as [Hv Hrest].
  unfold calculate_max_drawdown. cbn [expanding_max zip_with].
  fold (drawdown_from v rest).
  unfold series_min. cbn [foldr]. fold (series_min (drawdown_from v rest)).
  rewrite fdiv_finite by lra.
  assert (E : (v - v) / v == 0) by (field; lra).
  destruct (drawdown_from_bounds rest v Hv Hrest) as [[-> ->]|(d & -> & Hd1 & Hd0)].
  - exists ((v - v) / v). split; [done|]. lra.
  - exists (Qmin ((v - v) / v) d). split; [done|].
    destruct (Q.min_spec ((v - v) / v) d) as [[_ E']|[_ E']]; rewrite E'; lra.
Qed.

Lemma max_drawdown_above_minus_one_witness :
  exists d, calculate_max_drawdown [100; 50; 120; 30] = Fin d /\ -1 < d /\ d <= 0.
Proof.
  apply (max_drawdown_above_minus_one 100 [50; 120; 30]).
  repeat constructor.
Defined.

(** ** Concrete instances *)

Lemma own_symbol_run_eq :
  run_backtest sample_pow (BacktestEngine_init 100000)
    (Scalping (ScalpingStrategy_init "AAPL")) "AAPL" three_bars 1000
  = Ok (own_symbol_run.1.1, own_symbol_run.1.2, own_symbol_run.2).
Proof. vm_compute. reflexivity. Defined.

Lemma foreign_symbol_run_eq :
  run_backtest sample_pow (BacktestEngine_init 100000)
    (Scalping (ScalpingStrategy_init "AAPL")) "MSFT" three_bars 1000
  = Ok (foreign_symbol_run.1.1, foreign_symbol_run.1.2, foreign_symbol_run.2).
Proof. vm_compute. reflexivity. Defined.

Lemma equity_curve_follows_rows_witness :
  map (fun pt => (ep_date pt, ep_price pt)) (portfolio_values own_symbol_run.1.1)
  = closes three_bars
  /\ length (portfolio_values own_symbol_run.1.1) = 3%nat.
Proof.
  exact (equity_curve_follows_rows sample_pow _ _ _ _ _ _ _ _ own_symbol_run_eq).
Defined.

Lemma run_ledger_balances_witness :
  current_capital own_symbol_run.1.1
  == 1000 + cash_flows (trade_history own_symbol_run.1.1)
  /\ held_quantity own_symbol_run.1.1 "AAPL" = 2%Z.
Proof.
  destruct (run_ledger_balances sample_pow _ _ _ _ _ _ _ _ own_symbol_run_eq)
    as (_ & Hcash & _ & _ & Hheld).
  split; [exact Hcash|]. vm_compute. reflexivity.
Defined.

Lemma trade_dates_follow_rows_witness :
  Sorted Z.le (map fst three_bars)
  /\ Sorted Z.le (map trade_date (trade_history own_symbol_run.1.1)).
Proof.
  assert (Hs : Sorted Z.le (map fst three_bars)).
  { repeat constructor; vm_compute; discriminate. }
  split; [exact Hs|].
  exact (proj2 (trade_dates_follow_rows sample_pow _ _ _ _ _ _ _ _
                  own_symbol_run_eq) Hs).
Defined.

Lemma foreign_symbol_never_trades_witness :
  "AAPL" <> "MSFT"
  /\ trade_history foreign_symbol_run.1.1 = []
  /\ Forall (fun pt => ep_portfolio_value pt = 1000)
       (portfolio_values foreign_symbol_run.1.1).
Proof.
  assert (Hne : "AAPL" <> "MSFT") by discriminate.
  destruct (foreign_symbol_never_trades sample_pow (BacktestEngine_init 100000)
              (Scalping (ScalpingStrategy_init "AAPL")) "MSFT" three_bars 1000
              _ _ _ Hne foreign_symbol_run_eq) as (Hlog & _ & _ & Hflat).
  done.
Defined.

Lemma pandas_trades_bounded_witness :
  (length (trade_history own_symbol_run.1.1) <= length (closes three_bars))%nat.
Proof.
  exact (pandas_trades_bounded sample_pow _ _ _ _ _ _ _ _ own_symbol_run_eq).
Defined.

Lemma run_result_shape_witness :
  exists report final,
    own_symbol_run.2 = Report report
    /\ last (portfolio_values own_symbol_run.1.1) = Some final
    /\ final_portfolio_value report = ep_portfolio_value final
    /\ total_trades report = length (trade_history own_symbol_run.1.1).
Proof.
  pose proof (run_result_shape sample_pow _ _ _ _ _ _ _ _ own_symbol_run_eq)
    as Hshape.
  change (closes three_bars) with [(0%Z, 100); (ns_per_day, 90);
                                   ((2 * ns_per_day)%Z, 99)] in Hshape.
  destruct Hshape as (report & final & Hr & Hl & Hf & Ht & _).
  by exists report, final.
Defined.

Lemma pandas_run_starts_at_capital_witness :
  (forall pt, head (portfolio_values own_symbol_run.1.1) = Some pt ->
     ep_portfolio_value pt == 1000)
  /\ forall report, own_symbol_run.2 = Report report ->
       exists d, max_drawdown report = Fin d /\ d <= 0.
Proof.
  destruct (pandas_run_starts_at_capital sample_pow _ _ _ _ _ _ _ _
              own_symbol_run_eq) as [Hfirst Hreport].
  split; [exact Hfirst|].
  intros report Hr. apply (Hreport ltac:(reflexivity) report Hr).
Defined.

(** ** The price histories of the live strategies *)

Lemma slice_from_last {A : Type} (n : Z) (l : list A) :
  (0 < n)%Z -> slice_from (- n) l = last_prices (Z.to_nat n) l.
Proof.
  intros Hn. unfold slice_from, last_prices.
  destruct (Z.ltb_spec (- n) 0) as [_|H]; [|lia].
  f_equal. lia.
Qed.

Lemma last_prices_all {A : Type} (n : nat) (l : list A) :
  (length l <= n)%nat -> last_prices n l = l.
Proof.
  intros H. unfold last_prices.
  replace (length l - n)%nat with 0%nat by lia. reflexivity.
Qed.

Lemma last_prices_length {A : Type} (n : nat) (l : list A) :
  length (last_prices n l) = Nat.min n (length l).
Proof. unfold last_prices. rewrite length_drop. lia. Qed.

Lemma last_prices_snoc {A : Type} (n : nat) (l : list A) (x : A) :
  (0 < n)%nat ->
  last_prices n (last_prices n l ++ [x]) = last_prices n (l ++ [x]).
Proof.
  intros Hn. unfold last_prices.
  rewrite !length_app, length_drop. cbn [length].
  destruct (Nat.le_gt_cases (length l) n) as [H|H].
  - replace (length l - n)%nat with 0%nat by lia. rewrite drop_0.
    by replace (length l - 0 + 1 - n)%nat with (length l + 1 - n)%nat by lia.
  - replace (length l - (length l - n) + 1 - n)%nat with 1%nat by lia.
    rewrite drop_app_le by (rewrite length_drop; lia).
    rewrite drop_drop.
    replace (length l + 1 - n)%nat with (length l - n + 1)%nat by lia.
    by rewrite drop_app_le by lia.
Qed.

(** What one call leaves under the symbol. *)
Lemma update_price_history_lookup (window : Z) (h : gmap string (list Q))
    (symbol : string) (price : Q) :
  (0 <= window)%Z ->
  update_price_history window h symbol price !! symbol
  = Some (last_prices (Z.to_nat window + 1)
            (default [] (h !! symbol) ++ [price])).
Proof.
  intros Hw. unfold update_price_history. cbv zeta.
  destruct (Z.ltb_spec (window + 1)
              (Z.of_nat (length (default [] (h !! symbol) ++ [price]))))
    as [H|H]; rewrite lookup_insert_eq; f_equal.
  - replace (- window - 1)%Z with (- (window + 1))%Z by lia.
    rewrite slice_from_last by lia. f_equal. lia.
  - symmetry. apply last_prices_all. lia.
Qed.

Lemma update_price_history_other (window : Z) (h : gmap string (list Q))
    (symbol other : string) (price : Q) :
  other <> symbol ->
  update_price_history window h symbol price !! other = h !! other.
Proof.
  intros Hne. unfold update_price_history. cbv zeta.
  by destruct (_ <? _)%Z; rewrite lookup_insert_ne.
Qed.

Lemma record_prices_snoc (window : Z) (h : gmap string (list Q))
    (symbol : string) (prices : list Q) (price : Q) :
  record_prices window h symbol (prices ++ [price])
  = update_price_history window (record_prices window h symbol prices)
      symbol price.
Proof. unfold record_prices. by rewrite foldl_app. Qed.

Lemma record_prices_lookup (window : Z) (h : gmap string (list Q))
    (symbol : string) (prices : list Q) :
  (0 <= window)%Z ->
  default [] (record_prices window h symbol prices !! symbol)
  = match prices with
    | [] => default [] (h !! symbol)
    | _ => last_prices (Z.to_nat window + 1)
             (default [] (h !! symbol) ++ prices)
    end.
Proof.
  intros Hw. induction prices as [|price prices IH] using rev_ind; [done|].
  rewrite record_prices_snoc, update_price_history_lookup by done.
  cbn [default]. rewrite IH.
  destruct prices as [|p0 prices].
  - by destruct (_ ++ _).
  - rewrite last_prices_snoc by lia. rewrite <- app_assoc.
    by destruct ((p0 :: prices) ++ [price]) eqn:E; [destruct prices; done|].
Qed.

(** X19. A price history is a sliding window: after [update_price_history]
    was called for a symbol with each of a non-empty sequence of prices,
    starting without an entry for it, the entry holds the last
    [window + 1] of them, in order (all of them while there are fewer), and
    the entries of the other symbols are as they were. *)
Theorem price_history_keeps_last_prices (window : Z)
    (h : gmap string (list Q)) (symbol : string) (prices : list Q) :
  (0 <= window)%Z -> h !! symbol = None -> prices <> [] ->
  record_prices window h symbol prices !! symbol
  = Some (last_prices (Z.to_nat window + 1) prices)
  /\ forall other, other <> symbol ->
       record_prices window h symbol prices !! other = h !! other.
Proof.
  intros Hw Hnone Hne. split.
  - pose proof (record_prices_lookup window h symbol prices Hw) as H.
    rewrite Hnone in H. cbn [default app] in H.
    destruct prices as [|p0 prices] using rev_ind; [done|].
    clear IHprices.
    rewrite record_prices_snoc, update_price_history_lookup in * by done.
    cbn [default] in H. f_equal.
    by destruct (prices ++ [p0]) eqn:E; [destruct prices; done|].
  - intros other Hother. clear Hne.
    induction prices as [|price prices IH] using rev_ind; [done|].
    by rewrite record_prices_snoc, update_price_history_other.
Qed.

Lemma price_history_keeps_last_prices_witness :
  record_prices 2 ∅ "SYMBOL_1" [10; 11; 12; 13; 14] !! "SYMBOL_1"
  = Some [12; 13; 14].
Proof.
  exact (proj1 (price_history_keeps_last_prices 2 ∅ "SYMBOL_1"
                  [10; 11; 12; 13; 14] ltac:(lia) (lookup_empty _)
                  ltac:(discriminate))).
Defined.

(** ** The relative strength index *)

Lemma diff_length (prices : list (option Q)) :
  length (diff prices) = length prices.
Proof.
  destruct prices as [|p later]; [done|].
  cbn [diff length]. rewrite length_zip_with. cbn [length]. lia.
Qed.

Lemma window_sum_nonneg (window i : nat) (xs : list Q) :
  Forall (fun x => 0 <= x) xs -> 0 <= window_sum window i xs.
Proof.
  intros Hxs. unfold window_sum.
  assert (H : Forall (fun x => 0 <= x)
                (take window (drop (i + 1 - window) xs))).
  { by apply Forall_take, Forall_drop. }
  induction H as [|x l Hx Hl IH]; cbn [foldr]; lra.
Qed.

Lemma gains_nonneg (delta : list (option Q)) :
  Forall (fun x => 0 <= x) (gains delta).
Proof.
  unfold gains. apply Forall_fmap, Forall_true. intros [x|]; cbn; [|lra].
  destruct (Qlt_bool 0 x) eqn:E; [|lra].
  apply Qlt_bool_iff in E. lra.
Qed.

Lemma losses_nonneg (delta : list (option Q)) :
  Forall (fun x => 0 <= x) (losses delta).
Proof.
  unfold losses. apply Forall_fmap, Forall_true. intros [x|]; cbn; [|lra].
  destruct (Qlt_bool x 0) eqn:E; [|lra].
  apply Qlt_bool_iff in E. lra.
Qed.

Lemma rolling_mean_lookup (window : nat) (xs : list Q) (i : nat) :
  (i < length xs)%nat ->
  rolling_mean window xs !! i
  = Some (if (i + 1 <? window)%nat || (window =? 0)%nat then None
          else Some (window_sum window i xs / inject_Z (Z.of_nat window))).
Proof.
  intros Hi. unfold rolling_mean. rewrite list_lookup_imap.
  destruct (lookup_lt_is_Some_2 xs i Hi) as [x ->]. done.
Qed.

(** The value of a row, from the sums of its window. *)
Lemma calculate_rsi_lookup (prices : list (option Q)) (period : Z)
    (rsi : list float64) (i : nat) :
  (0 < period)%Z -> calculate_rsi prices period = Some rsi ->
  (i < length prices)%nat ->
  exists x,
    rsi !! i = Some x
    /\ if (i + 1 <? Z.to_nat period)%nat then x = NaN
       else
         let gain := window_sum (Z.to_nat period) i (gains (diff prices)) in
         let loss := window_sum (Z.to_nat period) i (losses (diff prices)) in
         if Qlt_bool 0 (gain + loss)
         then feq x (Fin (100 * gain / (gain + loss)))
         else x = NaN.
Proof.
  intros Hperiod Hrun Hi. unfold calculate_rsi in Hrun.
  destruct (Z.ltb_spec period 0) as [|_]; [lia|].
  cbv zeta in Hrun. injection Hrun as <-.
  set (n := Z.to_nat period) in *.
  assert (Hn : (0 < n)%nat) by lia.
  rewrite list_lookup_fmap, lookup_zip_with.
  rewrite !rolling_mean_lookup
    by (unfold gains, losses; rewrite length_map, diff_length; done).
  replace (n =? 0)%nat with false by (symmetry; apply Nat.eqb_neq; lia).
  rewrite orb_false_r.
  cbn [mbind option_bind fmap option_fmap option_map].
  destruct (i + 1 <? n)%nat; [by eexists|].
  pose proof (window_sum_nonneg n i _ (gains_nonneg (diff prices))) as Hg.
  pose proof (window_sum_nonneg n i _ (losses_nonneg (diff prices))) as Hl.
  set (gain := window_sum n i (gains (diff prices))) in *.
  set (loss := window_sum n i (losses (diff prices))) in *.
  assert (Hq : 0 < inject_Z (Z.of_nat n)) by (apply inject_Z_pos; lia).
  set (q := inject_Z (Z.of_nat n)) in *.
  eexists. split; [reflexivity|]. cbv zeta.
  unfold fdiv.
  destruct (Qeq_bool (loss / q) 0) eqn:Eloss.
  - apply Qeq_bool_iff in Eloss.
    assert (Hl0 : loss == 0).
    { assert (H : loss == loss / q * q) by (field; lra).
      rewrite H, Eloss. ring. }
    destruct (Qlt_bool 0 (gain / q)) eqn:Egain.
    + apply Qlt_bool_iff in Egain.
      assert (Hg0 : 0 < gain).
      { assert (H : gain == gain / q * q) by (field; lra).
        rewrite H. apply Qmult_lt_0_compat; lra. }
      replace (Qlt_bool 0 (gain + loss)) with true
        by (symmetry; apply Qlt_bool_iff; lra).
      cbn. rewrite Hl0. field. lra.
    + apply Qlt_bool_false in Egain.
      assert (Hg0 : gain <= 0).
      { assert (H : gain == gain / q * q) by (field; lra).
        assert (H2 : gain / q * q <= 0 * q)
          by (apply Qmult_le_compat_r; lra).
        rewrite <- H, Qmult_0_l in H2. done. }
      replace (Qlt_bool (gain / q) 0) with false.
      2:{ symmetry. apply Qlt_bool_false.
          apply Qle_shift_div_l; lra. }
      replace (Qlt_bool 0 (gain + loss)) with false
        by (symmetry; apply Qlt_bool_false; lra).
      done.
  - apply Qeq_bool_neq in Eloss.
    assert (Hl0 : 0 < loss).
    { destruct (Qlt_le_dec 0 loss) as [|Hle]; [done|].
      exfalso. apply Eloss.
      assert (H0 : loss == 0) by lra. rewrite H0. field. lra. }
    replace (Qlt_bool 0 (gain + loss)) with true
      by (symmetry; apply Qlt_bool_iff; lra).
    cbn [fadd qdivf]. unfold fdiv.
    assert (Hden : 0 < 1 + gain / q / (loss / q)).
    { assert (0 <= gain / q / (loss / q)); [|lra].
      apply Qle_shift_div_l.
      - apply Qlt_shift_div_l; lra.
      - rewrite Qmult_0_l. apply Qle_shift_div_l; lra. }
    destruct (Qeq_bool (1 + gain / q / (loss / q)) 0) eqn:Eden.
    { apply Qeq_bool_iff in Eden. lra. }
    cbn. field. repeat split; lra.
Qed.

Lemma calculate_rsi_length (prices : list (option Q)) (period : Z)
    (rsi : list float64) :
  calculate_rsi prices period = Some rsi -> length rsi = length prices.
Proof.
  unfold calculate_rsi. destruct (period <? 0)%Z; [done|].
  cbv zeta. intros [= <-].
  rewrite length_map, length_zip_with. unfold rolling_mean.
  rewrite !length_imap. unfold gains, losses.
  rewrite !length_map, diff_length. lia.
Qed.

(** X27. The RSI of a row is the share of the gains in the movement of its
    window: with [period] positive, the column has a value for each row of
    the prices; it is NaN in the first [period - 1] rows, and from row
    [period - 1] on it is [100 * gain / (gain + loss)], with [gain] and
    [loss] the sums of the rises and of the falls over the last [period]
    rows (the undefined change of the first row, and any change from or to
    a NaN price, counting as no change), or NaN when the window holds
    neither a rise nor a fall. *)
Theorem rsi_is_share_of_gains (prices : list (option Q)) (period : Z)
    (rsi : list float64) (i : nat) :
  (0 < period)%Z -> calculate_rsi prices period = Some rsi ->
  (i < length prices)%nat ->
  exists x,
    rsi !! i = Some x
    /\ if (i + 1 <? Z.to_nat period)%nat then x = NaN
       else
         let gain := window_sum (Z.to_nat period) i (gains (diff prices)) in
         let loss := window_sum (Z.to_nat period) i (losses (diff prices)) in
         if Qlt_bool 0 (gain + loss)
         then feq x (Fin (100 * gain / (gain + loss)))
         else x = NaN.
Proof. apply calculate_rsi_lookup. Qed.

(** X28. Every value of the RSI column is NaN or a number between 0 and
    100: no row is infinite, negative or above 100, whatever the prices
    (NaN prices included). *)
Theorem rsi_between_0_and_100 (prices : list (option Q)) (period : Z)
    (rsi : list float64) (i : nat) (x : float64) :
  (0 < period)%Z -> calculate_rsi prices period = Some rsi ->
  rsi !! i = Some x ->
  x = NaN \/ exists r, x = Fin r /\ 0 <= r <= 100.
Proof.
  intros Hperiod Hrun Hx.
  assert (Hi : (i < length prices)%nat).
  { rewrite <- (calculate_rsi_length prices period rsi Hrun).
    by apply lookup_lt_is_Some_1. }
  destruct (calculate_rsi_lookup prices period rsi i Hperiod Hrun Hi)
    as (y & Hy & Hform).
  rewrite Hx in Hy. injection Hy as <-.
  destruct (i + 1 <? Z.to_nat period)%nat; [by left|].
  cbv zeta in Hform.
  pose proof (window_sum_nonneg (Z.to_nat period) i _
                (gains_nonneg (diff prices))) as Hg.
  pose proof (window_sum_nonneg (Z.to_nat period) i _
                (losses_nonneg (diff prices))) as Hl.
  set (gain := window_sum _ i (gains _)) in *.
  set (loss := window_sum _ i (losses _)) in *.
  destruct (Qlt_bool 0 (gain + loss)) eqn:E; [|by left].
  apply Qlt_bool_iff in E.
  destruct x as [r| | |]; try done. right. exists r. split; [done|].
  cbn [feq] in Hform. rewrite Hform. split.
  - apply Qle_shift_div_l; [done|]. rewrite Qmult_0_l.
    apply Qmult_le_0_compat; lra.
  - apply Qle_shift_div_r; [done|]. lra.
Qed.

Lemma rsi_is_share_of_gains_witness :
  exists x,
    default [] (calculate_rsi four_closes 2) !! 2%nat = Some x
    /\ feq x (Fin (200 / 3)).
Proof.
  destruct (rsi_is_share_of_gains four_closes 2
              (default [] (calculate_rsi four_closes 2)) 2
              ltac:(lia) ltac:(vm_compute; reflexivity)
              ltac:(vm_compute; lia)) as (x & Hx & Hform).
  exists x. split; [exact Hx|].
  vm_compute in Hx. injection Hx as <-. vm_compute. reflexivity.
Defined.

Lemma rsi_between_0_and_100_witness :
  exists r,
    default NaN (default [] (calculate_rsi four_closes 2) !! 1%nat) = Fin r
    /\ 0 <= r <= 100.
Proof.
  destruct (rsi_between_0_and_100 four_closes 2
              (default [] (calculate_rsi four_closes 2)) 1
              (default NaN (default [] (calculate_rsi four_closes 2) !! 1%nat))
              ltac:(lia) ltac:(vm_compute; reflexivity)
              ltac:(vm_compute; reflexivity)) as [Hnan|Hr].
  - vm_compute in Hnan. discriminate.
  - exact Hr.
Defined.

(** ** Parameters that play no part *)

(** Two strategy objects that answer every row alike drive the replay
    alike. *)
Lemma replay_simulation {S1 S2 : Type} {G1 : Strategy S1} {G2 : Strategy S2}
    (R : S1 -> S2 -> Prop) :
  (forall s1 s2 row, R s1 s2 ->
     (generate_signals s1 row).1 = (generate_signals s2 row).1
     /\ R (generate_signals s1 row).2 (generate_signals s2 row).2) ->
  forall data self s1 s2 symbol, R s1 s2 ->
    match replay self s1 symbol data, replay self s2 symbol data with
    | Ok (e1, t1), Ok (e2, t2) => e1 = e2 /\ R t1 t2
    | Raise a, Raise b => a = b
    | _, _ => False
    end.
Proof.
  intros Hstep data.
  induction data as [|[date row] data IH]; intros self s1 s2 symbol HR.
  - done.
  - cbn [replay]. unfold process_row.
    destruct row as [row|]; cbn [obind fst snd]; [|by apply IH].
    destruct (Hstep s1 s2 row HR) as [Hsig HR'].
    destruct (generate_signals s1 row) as [signals1 t1].
    destruct (generate_signals s2 row) as [signals2 t2].
    cbn [fst snd] in Hsig, HR'. subst signals2.
    destruct (apply_signals self symbol date signals1) as [self'|e];
      cbn [obind fst snd]; [|done].
    by apply IH.
Qed.

Lemma run_backtest_simulation {S1 S2 : Type} {G1 : Strategy S1}
    {G2 : Strategy S2} (R : S1 -> S2 -> Prop)
    (float_pow : float64 -> Q -> float64) (self : BacktestEngine) (s1 : S1) (s2 : S2)
    (symbol : string) (data : DataFrame) (capital : Q) :
  (forall s1 s2 row, R s1 s2 ->
     (generate_signals s1 row).1 = (generate_signals s2 row).1
     /\ R (generate_signals s1 row).2 (generate_signals s2 row).2) ->
  R s1 s2 ->
  engine_and_report (run_backtest float_pow self s1 symbol data capital)
  = engine_and_report (run_backtest float_pow self s2 symbol data capital).
Proof.
  intros Hstep HR. unfold run_backtest.
  destruct data as [|bar data]; [done|].
  pose proof (replay_simulation R Hstep (bar :: data) (reset self capital)
                s1 s2 symbol HR) as Hsim.
  destruct (replay (reset self capital) s1 symbol (bar :: data))
    as [[e1 t1]|a];
    destruct (replay (reset self capital) s2 symbol (bar :: data))
      as [[e2 t2]|b]; cbn [obind fst snd engine_and_report]; try done.
  - by destruct Hsim as [-> _].
  - by subst.
Qed.

(** X29. The window parameters of the two band and average classes play no
    part in a run: two [MovingAverageCrossoverStrategy] objects that differ
    only in [short_window] and [long_window] (the rows are read at
    ['SMA_10'] and ['SMA_30'] whatever they are), and two
    [BollingerBandsStrategy] objects that differ in [window], [std_dev] and
    [last_signal], leave the same engine and return the same result (or
    raise the same exception) on every frame. *)
Theorem window_parameters_are_ignored (float_pow : float64 -> Q -> float64)
    (self : BacktestEngine) (symbol : string) (data : DataFrame)
    (capital : Q) (name : string) :
  (forall short_window long_window short_window' long_window' last_signal,
     engine_and_report
       (run_backtest float_pow self
          (mkMovingAverageCrossover short_window long_window name last_signal)
          symbol data capital)
     = engine_and_report
         (run_backtest float_pow self
            (mkMovingAverageCrossover short_window' long_window' name
               last_signal)
            symbol data capital))
  /\ (forall window std_dev last_signal window' std_dev' last_signal',
        engine_and_report
          (run_backtest float_pow self
             (mkBollingerBands window std_dev name last_signal)
             symbol data capital)
        = engine_and_report
            (run_backtest float_pow self
               (mkBollingerBands window' std_dev' name last_signal')
               symbol data capital)).
Proof.
  split.
  - intros sw lw sw' lw' last.
    apply (run_backtest_simulation
             (fun s1 s2 => mac_symbol s1 = mac_symbol s2
                           /\ mac_last_signal s1 = mac_last_signal s2));
      [|done].
    intros s1 s2 row [Hsym Hlast].
    unfold generate_signals, mac_generate_signals.
    destruct (SMA_10 row) as [sma_10|]; [|done].
    destruct (SMA_30 row) as [sma_30|]; [|done].
    cbv zeta. rewrite Hlast, Hsym.
    by destruct (decide _).
  - intros w sd last w' sd' last'.
    apply (run_backtest_simulation
             (fun s1 s2 => bb_symbol s1 = bb_symbol s2)); [|done].
    intros s1 s2 row Hsym.
    unfold generate_signals, bollinger_generate_signals.
    destruct (BB_Upper row) as [upper|]; [|done].
    destruct (BB_Lower row) as [lower|]; [|done].
    destruct (BB_Middle row) as [middle|]; [|done].
    cbv zeta. cbn [fst snd]. by rewrite Hsym.
Qed.

(** ** Runs without cash *)

(** Without cash no quantity is sized. *)
Lemma calculate_position_size_broke (self : BacktestEngine) (price : Q) :
  current_capital self <= 0 -> (calculate_position_size self price <= 0)%Z.
Proof.
  intros Hc. unfold calculate_position_size. cbv zeta.
  destruct (Qlt_bool 0 price) eqn:Hp; [|done].
  apply Qlt_bool_iff in Hp. apply py_int_nonpos.
  apply Qle_shift_div_r; [done|]. lra.
Qed.

Lemma apply_signals_broke (symbol : string) (date : Timestamp)
    (self : BacktestEngine) (signals : list Signal) :
  current_capital self <= 0 -> positions self = ∅ ->
  apply_signals self symbol date signals = Ok self.
Proof.
  intros Hc Hp. induction signals as [|signal rest IH]; [done|].
  cbn [apply_signals].
  assert (E : apply_signal self symbol date signal = Ok self).
  { unfold apply_signal. destruct (decide _) as [_|_].
    - cbv zeta.
      pose proof (calculate_position_size_broke self (sig_price signal) Hc).
      by destruct (Z.ltb_spec 0
                     (calculate_position_size self (sig_price signal)));
        [lia|].
    - destruct (decide _) as [_|_]; [|done]. by rewrite Hp, lookup_empty. }
  rewrite E. exact IH.
Qed.

(** A replay that starts without cash and without positions returns, and
    only records its cash. *)
Lemma broke_replay {S : Type} `{Strategy S} (symbol : string)
    (data : DataFrame) :
  forall (self : BacktestEngine) (strategy : S),
    current_capital self <= 0 -> positions self = ∅ ->
    exists after strategy',
      replay self strategy symbol data = Ok (after, strategy')
      /\ trade_history after = trade_history self
      /\ positions after = ∅
      /\ current_capital after = current_capital self
      /\ exists new,
           portfolio_values after = portfolio_values self ++ new
           /\ Forall (fun pt => ep_portfolio_value pt = current_capital self)
                new.
Proof.
  induction data as [|[date row] rest IH]; intros self strategy Hc Hp.
  - exists self, strategy. repeat (split; [done|]).
    exists []. by rewrite app_nil_r.
  - cbn [replay]. unfold process_row at 1. destruct row as [row|].
    + destruct (generate_signals strategy row) as [signals s1].
      rewrite (apply_signals_broke symbol date self signals Hc Hp).
      cbn [obind fst snd].
      destruct (IH (record_portfolio_value self date (Close row) symbol) s1
                  Hc Hp)
        as (after & strategy' & Hrun & Ht & Hpos & Hcash & new & Hv & Hall).
      exists after, strategy'.
      cbn [trade_history positions current_capital portfolio_values
           record_portfolio_value] in *.
      repeat (split; [done|]).
      eexists (_ :: new). rewrite Hv, <- app_assoc. split; [reflexivity|].
      constructor; [|done]. cbn [ep_portfolio_value].
      by apply get_portfolio_value_flat.
    + cbn [obind fst snd]. by apply IH.
Qed.

Section RunsWithoutCash.
Context {S : Type} `{Strategy S}.
Variable float_pow : float64 -> Q -> float64.

(** X17.  An engine without cash never trades.  The sized quantity of a
    BUY is not positive when the cash is not positive, and there is nothing
    to sell: a run started with a capital that is zero or negative, with
    any strategy and on any frame, returns, records no trade, holds no
    position, keeps the capital as it is, and its equity curve is flat at
    the capital. *)
Theorem no_cash_never_trades (self : BacktestEngine) (strategy : S)
    (symbol : string) (data : DataFrame) (capital : Q) :
  capital <= 0 ->
  exists after strategy' result,
    run_backtest float_pow self strategy symbol data capital
    = Ok (after, strategy', result)
    /\ trade_history after = []
    /\ positions after = ∅
    /\ current_capital after = capital
    /\ Forall (fun pt => ep_portfolio_value pt = capital)
         (portfolio_values after).
Proof.
  intros Hc.
  destruct (broke_replay symbol data (reset self capital) strategy Hc eq_refl)
    as (after & strategy' & Hrun & Ht & Hpos & Hcash & new & Hv & Hall).
  cbn [reset trade_history current_capital portfolio_values app] in *.
  unfold run_backtest. destruct data as [|bar rest].
  - cbn [replay] in Hrun. injection Hrun as <- <-.
    eexists _, _, _. split; [reflexivity|]. by rewrite Hv.
  - rewrite Hrun. cbn [obind fst snd].
    eexists _, _, _. split; [reflexivity|]. by rewrite Hv.
Qed.
End RunsWithoutCash.

(** ** The maximum drawdown of a recorded curve *)

Lemma drawdown_from_flat (c : Q) (values : list Q) :
  c < 0 -> Forall (fun v => v = c) values ->
  forall peak, peak == c ->
    (values = [] /\ series_min (drawdown_from peak values) = NaN)
    \/ (exists d, series_min (drawdown_from peak values) = Fin d /\ d == 0).
Proof.
  intros Hc Hall.
  induction Hall as [|v rest -> Hrest IH]; intros peak Hpeak; [by left|].
  right. unfold drawdown_from. cbn [expanding_max_from zip_with].
  fold (drawdown_from (Qmax peak c) rest).
  unfold series_min. cbn [foldr].
  fold (series_min (drawdown_from (Qmax peak c) rest)).
  assert (Hmax : Qmax peak c == c).
  { apply Q.max_r. lra. }
  rewrite fdiv_finite by lra.
  assert (E : (c - Qmax peak c) / Qmax peak c == 0).
  { rewrite Hmax. field. lra. }
  destruct (IH (Qmax peak c) Hmax) as [[-> ->]|(d & -> & Hd)].
  - by eexists.
  - eexists. split; [reflexivity|].
    destruct (Q.min_spec ((c - Qmax peak c) / Qmax peak c) d)
      as [[_ ->]|[_ ->]]; done.
Qed.

Lemma rises_from_flat (c : Q) (values : list Q) :
  Forall (fun v => v = c) values -> rises_from c values.
Proof.
  induction 1 as [|v rest -> Hrest IH]; [done|].
  cbn [rises_from]. split; [lra | done].
Qed.

(** A curve flat at a negative value has no drawdown. *)
Lemma max_drawdown_flat (c : Q) (values : list Q) :
  c < 0 -> values <> [] -> Forall (fun v => v = c) values ->
  exists d,
    calculate_max_drawdown values = Fin d
    /\ d == 0
    /\ Sorted Qle values.
Proof.
  intros Hc Hne Hall. destruct values as [|v rest]; [done|].
  apply Forall_cons in Hall as [-> Hrest].
  unfold calculate_max_drawdown. cbn [expanding_max zip_with].
  fold (drawdown_from c rest).
  unfold series_min. cbn [foldr]. fold (series_min (drawdown_from c rest)).
  rewrite fdiv_finite by lra.
  assert (E : (c - c) / c == 0) by (field; lra).
  assert (Hs : Sorted Qle (c :: rest)).
  { apply rises_from_sorted. by apply rises_from_flat. }
  destruct (drawdown_from_flat c rest Hc Hrest c ltac:(reflexivity))
    as [[-> ->]|(d & -> & Hd)].
  - by eexists.
  - eexists. split; [reflexivity|]. split; [|done].
    destruct (Q.min_spec ((c - c) / c) d) as [[_ ->]|[_ ->]]; done.
Qed.

Section RecordedDrawdown.
Variable float_pow : float64 -> Q -> float64.

(** C7, as amended.  On the equity curve a run records, with any of the
    seven strategy classes, on any frame and from any capital other than 0,
    the maximum drawdown is a number, it is at most 0, it is 0 exactly when
    the curve never decreases, and it is the number the result carries.
    (From a positive capital the first point is the capital, so every
    running peak is positive; from a negative one nothing is traded and
    the curve is flat.) *)
Theorem recorded_max_drawdown_nonpositive (self : BacktestEngine)
    (strategy : PandasStrategy) (symbol : string) (data : DataFrame)
    (capital : Q) (after : BacktestEngine) (strategy' : PandasStrategy)
    (result : BacktestResult) :
  ~ capital == 0 ->
  run_backtest float_pow self strategy symbol data capital
  = Ok (after, strategy', result) ->
  portfolio_values after <> [] ->
  exists d,
    calculate_max_drawdown (map ep_portfolio_value (portfolio_values after))
    = Fin d
    /\ d <= 0
    /\ (d == 0
        <-> Sorted Qle (map ep_portfolio_value (portfolio_values after)))
    /\ forall report, result = Report report -> max_drawdown report = Fin d.
Proof.
  intros Hcap Hrun Hne.
  pose proof (run_backtest_replay float_pow _ _ _ _ _ _ _ _ Hrun) as Hrep.
  assert (Hres : result = calculate_performance_metrics float_pow after).
  { unfold run_backtest in Hrun. destruct data as [|bar rest].
    - injection Hrun as <- _ _. done.
    - rewrite Hrep in Hrun. cbn [obind fst snd] in Hrun.
      by injection Hrun as <-. }
  assert (Hcurve : exists d,
            calculate_max_drawdown
              (map ep_portfolio_value (portfolio_values after)) = Fin d
            /\ d <= 0
            /\ (d == 0
                <-> Sorted Qle
                      (map ep_portfolio_value (portfolio_values after)))).
  { destruct (Qlt_le_dec 0 capital) as [Hpos|Hneg].
    - destruct (portfolio_values after) as [|pt pts] eqn:Hpv; [done|].
      assert (Hfirst : ep_portfolio_value pt == capital).
      { apply (pandas_first_point symbol data (reset self capital) strategy
                 after strategy' pt eq_refl eq_refl Hrep).
        by rewrite Hpv. }
      cbn [map].
      apply max_drawdown_positive_start. lra.
    - assert (Hlt : capital < 0).
      { destruct (Qlt_le_dec capital 0) as [|Hge]; [done|].
        exfalso. apply Hcap. lra. }
      destruct (broke_replay symbol data (reset self capital) strategy Hneg
                  eq_refl)
        as (after0 & strategy0 & Hrun0 & _ & _ & _ & new & Hv & Hall).
      rewrite Hrep in Hrun0. injection Hrun0 as <- <-.
      cbn [reset portfolio_values current_capital app] in Hv, Hall.
      rewrite Hv in *.
      destruct (max_drawdown_flat capital (map ep_portfolio_value new) Hlt)
        as (d & Hd & Hzero & Hsorted).
      + by destruct new.
      + apply Forall_fmap. exact Hall.
      + exists d. split; [done|]. split; [lra|]. done. }
  destruct Hcurve as (d & Hd & Hle & Hiff).
  exists d. repeat (split; [done|]).
  intros report Hreport. rewrite Hres in Hreport.
  unfold calculate_performance_metrics in Hreport.
  destruct (last (portfolio_values after)); [|done].
  injection Hreport as <-. cbn [max_drawdown]. by rewrite Hd.
Qed.
End RecordedDrawdown.

Lemma recorded_max_drawdown_nonpositive_witness :
  exists d,
    calculate_max_drawdown
      (map ep_portfolio_value (portfolio_values own_symbol_run.1.1)) = Fin d
    /\ d <= 0
    /\ (d == 0
        <-> Sorted Qle
              (map ep_portfolio_value (portfolio_values own_symbol_run.1.1)))
    /\ forall report,
         own_symbol_run.2 = Report report -> max_drawdown report = Fin d.
Proof.
  apply (recorded_max_drawdown_nonpositive sample_pow
           (BacktestEngine_init 100000)
           (Scalping (ScalpingStrategy_init "AAPL")) "AAPL" three_bars 1000
           own_symbol_run.1.1 own_symbol_run.1.2 own_symbol_run.2).
  - intros H0. vm_compute in H0. discriminate.
  - vm_compute. reflexivity.
  - vm_compute. discriminate.
Defined.

(** C7, counterexample.  A run started with a capital of 0 buys nothing
    and records a curve flat at 0; every running peak is 0, every drawdown
    is 0 / 0, and [calculate_max_drawdown] returns NaN, not a number that is
    at most 0, although the curve never decreases.  (The result carries
    0.0 in its place.) *)
Lemma max_drawdown_nan_at_zero_capital :
  run_backtest sample_pow (BacktestEngine_init 100000)
    (Scalping (ScalpingStrategy_init "AAPL")) "AAPL" three_bars 0
  = Ok (zero_capital_run.1.1, zero_capital_run.1.2, zero_capital_run.2)
  /\ map ep_portfolio_value (portfolio_values zero_capital_run.1.1)
     = [0; 0; 0]
  /\ calculate_max_drawdown [0; 0; 0] = NaN
  /\ Sorted Qle [0; 0; 0]
  /\ ~ max_drawdown_claim [0; 0; 0]
  /\ exists report,
       zero_capital_run.2 = Report report /\ max_drawdown report = Fin 0.
Proof.
  split; [vm_compute; reflexivity|].
  split; [vm_compute; reflexivity|].
  split; [vm_compute; reflexivity|].
  split.
  { repeat constructor; vm_compute; discriminate. }
  split.
  { intros (d & Hd & _). vm_compute in Hd. discriminate. }
  eexists. split; vm_compute; reflexivity.
Qed.

Lemma no_cash_never_trades_witness :
  exists after strategy' result,
    run_backtest sample_pow (BacktestEngine_init 100000)
      (Scalping (ScalpingStrategy_init "AAPL")) "AAPL" three_bars 0
    = Ok (after, strategy', result)
    /\ trade_history after = []
    /\ Forall (fun pt => ep_portfolio_value pt = 0) (portfolio_values after).
Proof.
  destruct (no_cash_never_trades sample_pow (BacktestEngine_init 100000)
              (Scalping (ScalpingStrategy_init "AAPL")) "AAPL" three_bars 0
              ltac:(vm_compute; discriminate))
    as (after & strategy' & result & Hrun & Ht & _ & _ & Hflat).
  by exists after, strategy', result.
Defined.

(** ** The loop of [calculate_signals] *)

Import TradingStrategies.

Lemma scan_market_snoc {S : Type}
    (on_price : S -> string -> Q -> S * option (option LiveSignal))
    (self : S) (md : MarketData) (key : string) (data : Tick) :
  scan_market on_price self (md ++ [(key, data)])
  = let acc := scan_market on_price self md in
    match acc.2 with
    | None => acc
    | Some signals =>
        match tick_price data with
        | Some price =>
            if Qlt_bool 0 price then
              let out := on_price acc.1 (symbol_of_key key) price in
              match out.2 with
              | None => (out.1, None)
              | Some None => (out.1, Some signals)
              | Some (Some entry) =>
                  (out.1, Some (<[symbol_of_key key := entry]> signals))
              end
            else acc
        | None => acc
        end
    end.
Proof. unfold scan_market. by rewrite foldl_app. Qed.

(** An invariant of the class is an invariant of the loop. *)
Lemma scan_market_invariant {S : Type}
    (on_price : S -> string -> Q -> S * option (option LiveSignal))
    (P : S -> Prop) :
  (forall self symbol price, P self -> P (on_price self symbol price).1) ->
  forall self md, P self -> P (scan_market on_price self md).1.
Proof.
  intros Hstep self md Hself.
  induction md as [|[key data] md IH] using rev_ind; [done|].
  rewrite scan_market_snoc. cbv zeta.
  destruct (scan_market on_price self md) as [self1 [signals1|]];
    cbn [fst snd] in *; [|done].
  destruct (tick_price data) as [price|]; [|done].
  destruct (Qlt_bool 0 price); [|done].
  pose proof (Hstep self1 (symbol_of_key key) price IH) as HP.
  by destruct (on_price self1 (symbol_of_key key) price) as [self2 [[made|]|]].
Qed.

(** Every entry of the result was made by the class, in a state the loop
    went through, for a key of the market data that carries a positive
    price. *)
Lemma scan_market_entries {S : Type}
    (on_price : S -> string -> Q -> S * option (option LiveSignal))
    (P : S -> Prop) (self : S) (md : MarketData)
    (signals : gmap string LiveSignal) (symbol : string)
    (entry : LiveSignal) :
  (forall self symbol price, P self -> P (on_price self symbol price).1) ->
  P self ->
  (scan_market on_price self md).2 = Some signals ->
  signals !! symbol = Some entry ->
  exists key data price self0,
    (key, data) ∈ md /\ symbol = symbol_of_key key
    /\ tick_price data = Some price /\ 0 < price
    /\ P self0
    /\ (on_price self0 symbol price).2 = Some (Some entry).
Proof.
  intros Hstep Hself. revert signals.
  induction md as [|[key data] md IH] using rev_ind; intros signals Hrun Hin.
  - cbn in Hrun. injection Hrun as <-. by rewrite lookup_empty in Hin.
  - pose proof (scan_market_invariant on_price P Hstep self md Hself) as HP.
    rewrite scan_market_snoc in Hrun. cbv zeta in Hrun.
    destruct (scan_market on_price self md) as [self1 [signals1|]] eqn:Escan;
      cbn [fst snd] in Hrun, HP; [|done].
    assert (Hold : signals1 !! symbol = Some entry ->
              exists key1 data1 price1 self2,
                (key1, data1) ∈ md ++ [(key, data)]
                /\ symbol = symbol_of_key key1
                /\ tick_price data1 = Some price1 /\ 0 < price1
                /\ P self2
                /\ (on_price self2 symbol price1).2 = Some (Some entry)).
    { intros H.
      destruct (IH signals1 eq_refl H)
        as (k0 & d0 & p0 & s0 & H1 & H2 & H3 & H4 & H5 & H6).
      exists k0, d0, p0, s0. set_solver. }
    destruct (tick_price data) as [price|] eqn:Eprice;
      [|injection Hrun as <-; by apply Hold].
    destruct (Qlt_bool 0 price) eqn:Epos;
      [|injection Hrun as <-; by apply Hold].
    destruct (on_price self1 (symbol_of_key key) price) as [self2 [[made|]|]]
      eqn:Eon; cbn [fst snd] in Hrun; [| |done].
    + injection Hrun as <-.
      destruct (decide (symbol = symbol_of_key key)) as [->|Hne].
      * rewrite lookup_insert_eq in Hin. injection Hin as ->.
        exists key, data, price, self1.
        split; [set_solver|]. split; [done|]. split; [done|].
        split; [by apply Qlt_bool_iff|]. split; [done|]. by rewrite Eon.
      * rewrite lookup_insert_ne in Hin by done. by apply Hold.
    + injection Hrun as <-. by apply Hold.
Qed.

(** The loop raises only where the class does. *)
Lemma scan_market_returns {S : Type}
    (on_price : S -> string -> Q -> S * option (option LiveSignal))
    (P : S -> Prop) :
  (forall self symbol price, P self ->
     (on_price self symbol price).2 <> None
     /\ P (on_price self symbol price).1) ->
  forall self md, P self ->
    (scan_market on_price self md).2 <> None
    /\ P (scan_market on_price self md).1.
Proof.
  intros Hstep self md Hself.
  induction md as [|[key data] md IH] using rev_ind; [done|].
  rewrite scan_market_snoc. cbv zeta.
  destruct (scan_market on_price self md) as [self1 [signals1|]];
    cbn [fst snd] in *; [|by destruct IH].
  destruct IH as [_ IH].
  destruct (tick_price data) as [price|]; [|done].
  destruct (Qlt_bool 0 price); [|done].
  destruct (Hstep self1 (symbol_of_key key) price IH) as [Hsome HP].
  by destruct (on_price self1 (symbol_of_key key) price) as [self2 [[made|]|]].
Qed.

(** What a loop that returns has done to the histories. *)
Lemma scan_market_history {S : Type}
    (on_price : S -> string -> Q -> S * option (option LiveSignal))
    (hist : S -> gmap string (list Q)) (win : S -> Z) :
  (forall self symbol price,
     hist (on_price self symbol price).1
     = update_price_history (win self) (hist self) symbol price
     /\ win (on_price self symbol price).1 = win self) ->
  forall self md,
    (scan_market on_price self md).2 <> None ->
    hist (scan_market on_price self md).1
    = record_market (win self) (hist self) md
    /\ win (scan_market on_price self md).1 = win self.
Proof.
  intros Hstep self md.
  induction md as [|[key data] md IH] using rev_ind; [done|].
  rewrite scan_market_snoc. cbv zeta.
  unfold record_market. rewrite foldl_app. cbn [foldl fst snd].
  fold (record_market (win self) (hist self) md).
  destruct (scan_market on_price self md) as [self1 [signals1|]];
    cbn [fst snd] in *; [|done].
  destruct (IH ltac:(done)) as [IHh IHw].
  destruct (tick_price data) as [price|]; [|done].
  destruct (Qlt_bool 0 price); [|done].
  destruct (Hstep self1 (symbol_of_key key) price) as [Hh Hw].
  rewrite <- IHh, <- IHw.
  by destruct (on_price self1 (symbol_of_key key) price) as [self2 [[made|]|]].
Qed.

(** *** The three classes *)

Lemma ma_on_price_entry (self : MovingAverageCrossover) (symbol : string)
    (price : Q) (entry : LiveSignal) :
  (ma_on_price self symbol price).2 = Some (Some entry) ->
  live_price entry = price.
Proof.
  unfold ma_on_price. cbv zeta. destruct (_ <=? _)%Z; cbn [snd]; [|done].
  by intros [= <-].
Qed.

Lemma ma_on_price_state (self : MovingAverageCrossover) (symbol : string)
    (price : Q) :
  (ma_on_price self symbol price).2 <> None
  /\ ma_price_history (ma_on_price self symbol price).1
     = update_price_history (long_window self) (ma_price_history self)
         symbol price
  /\ long_window (ma_on_price self symbol price).1 = long_window self
  /\ short_window (ma_on_price self symbol price).1 = short_window self.
Proof. unfold ma_on_price. cbv zeta. by destruct (_ <=? _)%Z. Qed.

Lemma mom_on_price_entry (self : MomentumStrategy) (symbol : string)
    (price : Q) (entry : LiveSignal) :
  (mom_on_price self symbol price).2 = Some (Some entry) ->
  live_price entry = price.
Proof.
  unfold mom_on_price. cbv zeta. destruct (_ <=? _)%nat; cbn [snd]; [|done].
  destruct (calculate_momentum _ _); cbn [snd]; [|done].
  by intros [= <-].
Qed.

Lemma mom_on_price_state (self : MomentumStrategy) (symbol : string)
    (price : Q) :
  mom_price_history (mom_on_price self symbol price).1
  = update_price_history (lookback_period self) (mom_price_history self)
      symbol price
  /\ lookback_period (mom_on_price self symbol price).1 = lookback_period self
  /\ momentum_threshold (mom_on_price self symbol price).1
     = momentum_threshold self.
Proof.
  unfold mom_on_price. cbv zeta. destruct (_ <=? _)%nat; [|done].
  by destruct (calculate_momentum _ _).
Qed.

Lemma py_index_is_Some {A : Type} (l : list A) (i : Z) :
  (- Z.of_nat (length l) <= i < Z.of_nat (length l))%Z ->
  is_Some (py_index l i).
Proof.
  intros H. unfold py_index.
  destruct (Z.ltb_spec i 0).
  - destruct (Z.ltb_spec (Z.of_nat (length l) + i) 0); [lia|].
    apply lookup_lt_is_Some. lia.
  - apply lookup_lt_is_Some. lia.
Qed.

(** [calculate_momentum] raises for no list when the look-back is not
    negative. *)
Lemma calculate_momentum_is_Some (self : MomentumStrategy) (prices : list Q) :
  (0 <= lookback_period self)%Z ->
  is_Some (calculate_momentum self prices).
Proof.
  intros Hlb. unfold calculate_momentum.
  destruct (Nat.ltb_spec (length prices) 2) as [|Hlen]; [done|].
  destruct (py_index_is_Some prices (-1) ltac:(lia)) as [current ->].
  destruct (py_index_is_Some prices
              (- Z.min (Z.of_nat (length prices)) (lookback_period self))
              ltac:(lia)) as [past ->].
  cbn. by destruct (Qeq_bool past 0).
Qed.

Lemma mom_on_price_returns (self : MomentumStrategy) (symbol : string)
    (price : Q) :
  (0 <= lookback_period self)%Z ->
  (mom_on_price self symbol price).2 <> None.
Proof.
  intros Hlb. unfold mom_on_price. cbv zeta.
  destruct (_ <=? _)%nat; [|done].
  match goal with
  | |- context [calculate_momentum ?s ?l] =>
      destruct (calculate_momentum_is_Some s l Hlb) as [m ->]
  end.
  done.
Qed.

Section LiveStrategies.
Variable np_std : list Q -> float64.

Lemma mr_on_price_entry (self : MeanReversion) (symbol : string)
    (price : Q) (entry : LiveSignal) :
  (mr_on_price np_std self symbol price).2 = Some (Some entry) ->
  live_price entry = price.
Proof.
  unfold mr_on_price. cbv zeta. destruct (_ <=? _)%Z; cbn [snd]; [|done].
  destruct (calculate_bollinger_bands _ _ _); cbn [snd]; [|done].
  by intros [= <-].
Qed.

Lemma mr_on_price_state (self : MeanReversion) (symbol : string)
    (price : Q) :
  (mr_on_price np_std self symbol price).2 <> None
  /\ mr_price_history (mr_on_price np_std self symbol price).1
     = update_price_history (window self) (mr_price_history self)
         symbol price
  /\ window (mr_on_price np_std self symbol price).1 = window self
  /\ std_dev (mr_on_price np_std self symbol price).1 = std_dev self.
Proof.
  unfold mr_on_price. cbv zeta. destruct (_ <=? _)%Z; [|done].
  by destruct (calculate_bollinger_bands _ _ _).
Qed.

(** Every entry of the dictionary of signals stands for a key of the market
    data that carries a positive price, and repeats that price. *)
Lemma calculate_signals_entries (self self' : TradingStrategy)
    (md : MarketData) (signals : gmap string LiveSignal) (symbol : string)
    (entry : LiveSignal) :
  calculate_signals np_std self md = (self', Some signals) ->
  signals !! symbol = Some entry ->
  exists key data,
    (key, data) ∈ md /\ symbol = symbol_of_key key
    /\ tick_price data = Some (live_price entry) /\ 0 < live_price entry.
Proof.
  intros Hrun Hin.
  assert (Hscan : exists key data price,
            (key, data) ∈ md /\ symbol = symbol_of_key key
            /\ tick_price data = Some price /\ 0 < price
            /\ live_price entry = price).
  { destruct self as [s|s|s]; cbn [calculate_signals] in Hrun;
      unfold ma_calculate_signals, mr_calculate_signals,
        mom_calculate_signals in Hrun.
    - destruct (scan_market ma_on_price s md) as [s1 r] eqn:E.
      cbn in Hrun. injection Hrun as _ ->.
      destruct (scan_market_entries ma_on_price (fun _ => True) s md signals
                  symbol entry
                  ltac:(done) I ltac:(by rewrite E) Hin)
        as (key & data & price & s0 & H1 & H2 & H3 & H4 & _ & H5).
      exists key, data, price. repeat split; try done.
      by apply (ma_on_price_entry s0 symbol).
    - destruct (scan_market (mr_on_price np_std) s md) as [s1 r] eqn:E.
      cbn in Hrun. injection Hrun as _ ->.
      destruct (scan_market_entries (mr_on_price np_std) (fun _ => True) s md
                  signals symbol entry ltac:(done) I ltac:(by rewrite E) Hin)
        as (key & data & price & s0 & H1 & H2 & H3 & H4 & _ & H5).
      exists key, data, price. repeat split; try done.
      by apply (mr_on_price_entry s0 symbol).
    - destruct (scan_market mom_on_price s md) as [s1 r] eqn:E.
      cbn in Hrun. injection Hrun as _ ->.
      destruct (scan_market_entries mom_on_price (fun _ => True) s md signals
                  symbol entry
                  ltac:(done) I ltac:(by rewrite E) Hin)
        as (key & data & price & s0 & H1 & H2 & H3 & H4 & _ & H5).
      exists key, data, price. repeat split; try done.
      by apply (mom_on_price_entry s0 symbol). }
  destruct Hscan as (key & data & price & H1 & H2 & H3 & H4 & H5).
  exists key, data. rewrite H5. done.
Qed.

(** A call returns, and with the histories fed, when the window is not
    negative. *)
Lemma calculate_signals_state (self : TradingStrategy) (md : MarketData) :
  (0 <= history_window self)%Z ->
  (calculate_signals np_std self md).2 <> None
  /\ price_history (calculate_signals np_std self md).1
     = record_market (history_window self) (price_history self) md
  /\ history_window (calculate_signals np_std self md).1
     = history_window self.
Proof.
  intros Hw.
  destruct self as [s|s|s]; cbn [calculate_signals history_window
                                  price_history] in *;
    unfold ma_calculate_signals, mr_calculate_signals, mom_calculate_signals.
  - assert (Hret : (scan_market ma_on_price s md).2 <> None).
    { apply (scan_market_returns ma_on_price (fun _ => True)); [|done].
      intros s0 symbol price _. split; [|done].
      apply ma_on_price_state. }
    destruct (scan_market_history ma_on_price ma_price_history long_window
                ltac:(intros s0 symbol price; split;
                      apply ma_on_price_state) s md Hret) as [Hh Hwin].
    by destruct (scan_market ma_on_price s md) as [s1 r].
  - assert (Hret : (scan_market (mr_on_price np_std) s md).2 <> None).
    { apply (scan_market_returns (mr_on_price np_std) (fun _ => True));
        [|done].
      intros s0 symbol price _. split; [|done].
      apply mr_on_price_state. }
    destruct (scan_market_history (mr_on_price np_std) mr_price_history window
                ltac:(intros s0 symbol price; split;
                      apply mr_on_price_state) s md Hret) as [Hh Hwin].
    by destruct (scan_market (mr_on_price np_std) s md) as [s1 r].
  - assert (Hret : (scan_market mom_on_price s md).2 <> None).
    { apply (scan_market_returns mom_on_price
               (fun s0 => 0 <= lookback_period s0)%Z); [|done].
      intros s0 symbol price H0. split.
      - by apply mom_on_price_returns.
      - by rewrite (proj1 (proj2 (mom_on_price_state s0 symbol price))). }
    destruct (scan_market_history mom_on_price mom_price_history
                lookback_period
                ltac:(intros s0 symbol price; split;
                      apply mom_on_price_state) s md Hret) as [Hh Hwin].
    by destruct (scan_market mom_on_price s md) as [s1 r].
Qed.

End LiveStrategies.

Section LiveStrategyProperties.
Variable np_std : list Q -> float64.

(** X20. Whatever the class, every entry of the dictionary
    [calculate_signals] returns is filed under ["SYMBOL_" + key] for a key
    of the market data whose entry carries a positive ['price'], and the
    entry repeats that price: keys without a price, or with a price that is
    not positive, leave no signal. *)
Theorem signals_stand_for_priced_keys (self self' : TradingStrategy)
    (md : MarketData) (signals : gmap string LiveSignal) (symbol : string)
    (entry : LiveSignal) :
  calculate_signals np_std self md = (self', Some signals) ->
  signals !! symbol = Some entry ->
  exists key data,
    (key, data) ∈ md /\ symbol = symbol_of_key key
    /\ tick_price data = Some (live_price entry) /\ 0 < live_price entry.
Proof. apply calculate_signals_entries. Qed.

(** X21. [should_buy] and [should_sell] answer True only for a symbol of
    the form ["SYMBOL_" + key] with [key] a key of the market data: asked
    about any other symbol, such as a key of the market data itself when no
    key is the prefixed form of another, they answer False (or raise). *)
Theorem should_buy_needs_prefixed_symbol (self : TradingStrategy)
    (symbol : string) (md : MarketData) :
  (forall key data, (key, data) ∈ md -> symbol <> symbol_of_key key) ->
  (should_buy np_std self symbol md).2 <> Some true
  /\ (should_sell np_std self symbol md).2 <> Some true.
Proof.
  intros Hkeys.
  assert (Hno : forall self' signals action,
            calculate_signals np_std self md = (self', Some signals) ->
            has_signal signals symbol action = false).
  { intros self' signals action Hrun. unfold has_signal.
    destruct (signals !! symbol) as [entry|] eqn:E; [|done].
    destruct (calculate_signals_entries np_std self self' md signals symbol
                entry Hrun E) as (key & data & Hin & Hsym & _).
    by destruct (Hkeys key data Hin). }
  unfold should_buy, should_sell. cbv zeta.
  destruct (calculate_signals np_std self md) as [self' [signals|]] eqn:Erun;
    cbn [fst snd fmap option_fmap option_map]; [|done].
  rewrite !(Hno self' signals) by done. done.
Qed.

(** X22. Asking is not free of effects: a call of [should_buy] (or
    [should_sell]) with a non-negative window returns and leaves every
    positive price of the market data appended to the history of its
    symbol, so that asking first [should_buy] and then [should_sell] about
    the same market data records each of its prices twice. *)
Theorem asking_records_prices (self : TradingStrategy) (symbol : string)
    (md : MarketData) :
  (0 <= history_window self)%Z ->
  is_Some (should_buy np_std self symbol md).2
  /\ price_history (should_buy np_std self symbol md).1
     = record_market (history_window self) (price_history self) md
  /\ price_history (should_sell np_std self symbol md).1
     = record_market (history_window self) (price_history self) md
  /\ price_history
       (should_sell np_std (should_buy np_std self symbol md).1 symbol md).1
     = record_market (history_window self) (price_history self) (md ++ md).
Proof.
  intros Hw.
  destruct (calculate_signals_state np_std self md Hw) as (Hret & Hh & Hwin).
  unfold should_buy, should_sell. cbv zeta. cbn [fst snd].
  split.
  { destruct (calculate_signals np_std self md).2; [by eexists|done]. }
  split; [done|]. split; [done|].
  destruct (calculate_signals_state np_std
              (calculate_signals np_std self md).1 md
              ltac:(by rewrite Hwin)) as (_ & Hh2 & _).
  rewrite Hh2, Hh, Hwin. unfold record_market. by rewrite foldl_app.
Qed.

End LiveStrategyProperties.

(** X23. The momentum of a history spans one price less than the
    look-back: with [lookback_period] prices or more in the list, the past
    price is the one [lookback_period - 1] places before the last, and with
    fewer it is the first of the list; the momentum is the relative change
    from that price to the last. *)
Theorem momentum_spans_lookback_minus_one (self : MomentumStrategy)
    (front middle : list Q) (past current : Q) :
  lookback_period self = (Z.of_nat (length middle) + 2)%Z
  \/ (front = [] /\ (Z.of_nat (length middle) + 2 <= lookback_period self)%Z) ->
  ~ past == 0 ->
  calculate_momentum self (front ++ past :: middle ++ [current])
  = Some ((current - past) / past).
Proof.
  intros Hlb Hpast. unfold calculate_momentum.
  set (prices := front ++ past :: middle ++ [current]).
  assert (Hlen : length prices = (length front + length middle + 2)%nat).
  { unfold prices. rewrite length_app. cbn [length]. rewrite length_app.
    cbn [length]. lia. }
  destruct (Nat.ltb_spec (length prices) 2) as [|_]; [lia|].
  assert (Hcur : py_index prices (-1) = Some current).
  { unfold py_index. cbn [Z.ltb Z.compare].
    destruct (Z.ltb_spec (Z.of_nat (length prices) + -1) 0); [lia|].
    replace (Z.to_nat (Z.of_nat (length prices) + -1))
      with (length front + S (length middle))%nat by lia.
    unfold prices. rewrite lookup_app_r by lia.
    replace (length front + S (length middle) - length front)%nat
      with (S (length middle)) by lia.
    change ((past :: middle ++ [current]) !! S (length middle))
      with ((middle ++ [current]) !! length middle).
    rewrite lookup_app_r by lia.
    by replace (length middle - length middle)%nat with 0%nat by lia. }
  assert (Hpst : py_index prices
                   (- Z.min (Z.of_nat (length prices)) (lookback_period self))
                 = Some past).
  { unfold py_index.
    set (m := Z.min (Z.of_nat (length prices)) (lookback_period self)).
    assert (Hm : (Z.of_nat (length prices) - m = Z.of_nat (length front))%Z).
    { destruct Hlb as [Hlb|[-> Hlb]]; cbn [length] in *; lia. }
    destruct (Z.ltb_spec (- m) 0) as [_|]; [|lia].
    destruct (Z.ltb_spec (Z.of_nat (length prices) + - m) 0); [lia|].
    replace (Z.to_nat (Z.of_nat (length prices) + - m))
      with (length front + 0)%nat by lia.
    unfold prices. by rewrite lookup_app_r, Nat.add_comm, Nat.add_sub by lia. }
  rewrite Hcur, Hpst. cbn [mbind option_bind].
  destruct (Qeq_bool past 0) eqn:E; [|done].
  by apply Qeq_bool_iff in E.
Qed.

(** A look-back of one compares the last price with itself. *)
Lemma calculate_momentum_lookback_1 (self : MomentumStrategy)
    (prices : list Q) :
  lookback_period self = 1%Z ->
  exists momentum,
    calculate_momentum self prices = Some momentum /\ momentum == 0.
Proof.
  intros Hlb. unfold calculate_momentum.
  destruct (Nat.ltb_spec (length prices) 2) as [|Hlen];
    [by exists 0|].
  replace (- Z.min (Z.of_nat (length prices)) (lookback_period self))%Z
    with (-1)%Z by lia.
  destruct (py_index_is_Some prices (-1) ltac:(lia)) as [current ->].
  cbn [mbind option_bind].
  destruct (Qeq_bool current 0) eqn:E; [by exists 0|].
  exists ((current - current) / current). split; [done|].
  apply Qeq_bool_neq in E. by field.
Qed.

Lemma mom_on_price_hold (self : MomentumStrategy) (symbol : string)
    (price : Q) (entry : LiveSignal) :
  (0 <= lookback_period self <= 1)%Z -> 0 <= momentum_threshold self ->
  (mom_on_price self symbol price).2 = Some (Some entry) ->
  live_signal entry = "HOLD".
Proof.
  intros Hlb Hthr. unfold mom_on_price. cbv zeta.
  cbn [mom_price_history lookback_period momentum_threshold].
  rewrite update_price_history_lookup by lia. cbn [default id].
  set (prices := last_prices _ _).
  destruct (Nat.leb_spec 2 (length prices)) as [Hlen|]; cbn [snd]; [|done].
  assert (Hone : lookback_period self = 1%Z).
  { unfold prices in Hlen. rewrite last_prices_length in Hlen. lia. }
  match goal with
  | |- context [calculate_momentum ?s prices] =>
      destruct (calculate_momentum_lookback_1 s prices Hone)
        as (momentum & -> & Hzero)
  end.
  cbn [snd]. intros [= <-]. cbn [live_signal].
  assert (H1 : Qlt_bool (momentum_threshold self) momentum = false).
  { apply Qlt_bool_false. lra. }
  assert (H2 : Qlt_bool momentum (- momentum_threshold self) = false).
  { apply Qlt_bool_false. lra. }
  by rewrite H1, H2.
Qed.

Section MomentumEdge.
Variable np_std : list Q -> float64.

(** X24. A [MomentumStrategy] whose look-back is 0 or 1, with a threshold
    that is not negative, never trades: with a look-back of 0 its histories
    never hold the two prices a signal needs, with a look-back of 1 the
    momentum compares the last price with itself, so every signal is HOLD
    and [should_buy] and [should_sell] answer False for every symbol and
    every market data. *)
Theorem short_lookback_never_trades (self : MomentumStrategy)
    (symbol : string) (md : MarketData) :
  (0 <= lookback_period self <= 1)%Z -> 0 <= momentum_threshold self ->
  (should_buy np_std (IsMomentumStrategy self) symbol md).2 = Some false
  /\ (should_sell np_std (IsMomentumStrategy self) symbol md).2 = Some false.
Proof.
  intros Hlb Hthr.
  destruct (calculate_signals_state np_std (IsMomentumStrategy self) md
              ltac:(cbn; lia)) as (Hret & _).
  unfold should_buy, should_sell. cbv zeta. cbn [fst snd].
  cbn [calculate_signals] in *. unfold mom_calculate_signals in *.
  destruct (scan_market mom_on_price self md) as [self' [signals|]] eqn:Erun;
    cbn [prod_map fst snd id fmap option_fmap option_map] in *; [|done].
  assert (Hhold : forall action, action <> "HOLD" ->
            has_signal signals symbol action = false).
  { intros action Haction. unfold has_signal.
    destruct (signals !! symbol) as [entry|] eqn:E; [|done].
    destruct (scan_market_entries mom_on_price
                (fun s => (0 <= lookback_period s <= 1)%Z
                          /\ 0 <= momentum_threshold s)
                self md signals symbol entry) as
      (key & data & price & s0 & _ & _ & _ & _ & [Hlb0 Hthr0] & Hmade).
    - intros s0 symbol0 price0 [H1 H2].
      destruct (mom_on_price_state s0 symbol0 price0) as (_ & -> & ->).
      done.
    - done.
    - by rewrite Erun.
    - done.
    - rewrite (mom_on_price_hold s0 symbol price entry Hlb0 Hthr0 Hmade).
      apply bool_decide_eq_false. congruence. }
  by rewrite !Hhold by done.
Qed.

End MomentumEdge.

(** ** The strategy manager *)

Lemma set_active_strategy_spec (self : StrategyManager) (name : string) :
  strategies (set_active_strategy self name) = strategies self
  /\ active_strategy (set_active_strategy self name)
     = if decide (is_Some (strategies self !! name))
       then name else active_strategy self.
Proof. unfold set_active_strategy. by destruct (decide _). Qed.

(** X25. The active strategy is always a registered one: starting from a
    manager whose active name is registered, any sequence of
    [set_active_strategy] calls leaves the dictionary of strategies as it
    was, [get_active_strategy] finds its strategy (no KeyError), and the
    active name is the last registered name that was asked for, or the
    former one when none was: unknown names are ignored. *)
Theorem active_strategy_stays_registered (self : StrategyManager)
    (names : list string) :
  is_Some (get_active_strategy self) ->
  strategies (foldl set_active_strategy self names) = strategies self
  /\ is_Some (get_active_strategy (foldl set_active_strategy self names))
  /\ active_strategy (foldl set_active_strategy self names)
     = default (active_strategy self) (last (registered_names self names)).
Proof.
  intros Hactive.
  induction names as [|name names IH] using rev_ind; [done|].
  rewrite foldl_app. cbn [foldl].
  destruct IH as (IHs & IHa & IHn).
  destruct (set_active_strategy_spec (foldl set_active_strategy self names)
              name) as [Hs Ha].
  unfold get_active_strategy in *. rewrite Hs, Ha, IHs.
  unfold registered_names in *. rewrite filter_app.
  destruct (decide (is_Some (strategies self !! name))) as [Hin|Hout].
  - rewrite (filter_cons_True _ name []) by done.
    rewrite filter_nil, last_snoc. done.
  - rewrite (filter_cons_False _ name []) by done.
    rewrite filter_nil, app_nil_r. rewrite <- IHn.
    by rewrite <- IHs.
Qed.

(** ** Position sizes *)

Lemma position_size_fraction (self : TradingStrategy) (account_value : Q) :
  position_size self account_value
  = get_position_size (account_fraction self) account_value.
Proof. by destruct self. Qed.

(** X26. The size of a live position is a whole number of shares, at least
    1 whatever the account value (zero and negative ones included), and
    ignores the price of the share: it is 1 as long as the class's fraction
    of the account is below 200, and from 100 on it is that fraction
    counted in whole hundreds. *)
Theorem live_position_size_bounds (self : TradingStrategy)
    (account_value : Q) :
  (1 <= position_size self account_value)%Z
  /\ (account_value * account_fraction self < 200 ->
      position_size self account_value = 1%Z)
  /\ (100 <= account_value * account_fraction self ->
      inject_Z (position_size self account_value) * 100
      <= account_value * account_fraction self
      /\ account_value * account_fraction self
         < (inject_Z (position_size self account_value) + 1) * 100).
Proof.
  rewrite position_size_fraction. unfold get_position_size.
  set (x := account_value * account_fraction self / 100).
  assert (Hx : account_value * account_fraction self == x * 100).
  { unfold x. field. }
  split; [lia|]. split.
  - intros Hsmall. apply Z.max_l.
    destruct (Qlt_le_dec x 0) as [Hneg|Hpos].
    + pose proof (py_int_nonpos x ltac:(lra)). lia.
    + rewrite py_int_floor by done.
      assert (H : (Qfloor x < 2)%Z); [|lia].
      rewrite Zlt_Qlt. pose proof (Qfloor_le x).
      change (inject_Z 2) with 2. lra.
  - intros Hbig.
    assert (Hone : 1 <= x) by lra.
    rewrite py_int_floor by lra.
    assert (Hfl : (1 <= Qfloor x)%Z).
    { change 1%Z with (Qfloor 1). by apply Qfloor_resp_le. }
    rewrite Z.max_r by done.
    pose proof (Qfloor_le x). pose proof (Qlt_floor x) as Hlt.
    rewrite inject_Z_plus in Hlt. change (inject_Z 1) with 1 in Hlt.
    split; lra.
Qed.

(** ** Instances *)

Lemma signals_stand_for_priced_keys_witness :
  exists key data,
    (key, data) ∈ [("1", price_tick 110)] /\ "SYMBOL_1" = symbol_of_key key
    /\ tick_price data = Some 110 /\ 0 < 110.
Proof.
  pose (run := calculate_signals no_std momentum_after_100
                 [("1", price_tick 110)]).
  pose (signals := default ∅ run.2).
  pose (entry := default (mkLiveSignal 0 "" []) (signals !! "SYMBOL_1")).
  assert (H1 : calculate_signals no_std momentum_after_100
                 [("1", price_tick 110)] = (run.1, Some signals)).
  { vm_compute. reflexivity. }
  assert (H2 : signals !! "SYMBOL_1" = Some entry).
  { vm_compute. reflexivity. }
  exact (signals_stand_for_priced_keys no_std momentum_after_100 run.1
           [("1", price_tick 110)] signals "SYMBOL_1" entry H1 H2).
Defined.

Lemma should_buy_needs_prefixed_symbol_witness :
  (should_buy no_std momentum_after_100 "SYMBOL_1" [("1", price_tick 110)]).2
  = Some true
  /\ (should_buy no_std momentum_after_100 "1" [("1", price_tick 110)]).2
     <> Some true.
Proof.
  split; [vm_compute; reflexivity|].
  apply (should_buy_needs_prefixed_symbol no_std momentum_after_100 "1"
           [("1", price_tick 110)]).
  intros key data Hin. apply list_elem_of_singleton in Hin.
  injection Hin as -> _. discriminate.
Defined.

Lemma asking_records_prices_witness :
  price_history
    (should_sell no_std
       (should_buy no_std momentum_after_100 "SYMBOL_1"
          [("1", price_tick 110)]).1
       "SYMBOL_1" [("1", price_tick 110)]).1
  !! "SYMBOL_1" = Some [100; 110; 110].
Proof.
  destruct (asking_records_prices no_std momentum_after_100 "SYMBOL_1"
              [("1", price_tick 110)] ltac:(cbn; lia)) as (_ & _ & _ & H).
  rewrite H. vm_compute. reflexivity.
Defined.

Lemma momentum_spans_lookback_minus_one_witness :
  calculate_momentum (MomentumStrategy_init 3 0.02) [100; 110; 120; 121]
  = Some ((121 - 110) / 110).
Proof.
  apply (momentum_spans_lookback_minus_one (MomentumStrategy_init 3 0.02)
           [100] [120] 110 121).
  - left. reflexivity.
  - intros H. vm_compute in H. discriminate.
Defined.

Lemma short_lookback_never_trades_witness :
  (should_buy no_std (IsMomentumStrategy (MomentumStrategy_init 1 0.02))
     "SYMBOL_1" [("1", price_tick 110)]).2 = Some false.
Proof.
  apply (short_lookback_never_trades no_std (MomentumStrategy_init 1 0.02)
           "SYMBOL_1" [("1", price_tick 110)]).
  - cbn. lia.
  - vm_compute. discriminate.
Defined.

Lemma active_strategy_stays_registered_witness :
  active_strategy
    (foldl set_active_strategy StrategyManager_init
       ["momentum"; "scalping"])
  = "momentum".
Proof.
  destruct (active_strategy_stays_registered StrategyManager_init
              ["momentum"; "scalping"] ltac:(vm_compute; by eexists))
    as (_ & _ & H).
  rewrite H. vm_compute. reflexivity.
Defined.

Lemma live_position_size_bounds_witness :
  position_size (IsMovingAverageCrossover (MovingAverageCrossover_init 10 30))
    0 = 1%Z
  /\ inject_Z
       (position_size
          (IsMovingAverageCrossover (MovingAverageCrossover_init 10 30))
          100000) * 100
     <= 100000 * 0.05.
Proof.
  destruct (live_position_size_bounds
              (IsMovingAverageCrossover (MovingAverageCrossover_init 10 30))
              0) as (_ & Hsmall & _).
  destruct (live_position_size_bounds
              (IsMovingAverageCrossover (MovingAverageCrossover_init 10 30))
              100000) as (_ & _ & Hbig).
  split.
  - apply Hsmall. vm_compute. reflexivity.
  - apply Hbig. vm_compute. discriminate.
Defined.

(** ** The first signals of a key *)

Lemma scan_market_single {S : Type}
    (on_price : S -> string -> Q -> S * option (option LiveSignal))
    (self : S) (key : string) (price : Q) :
  0 < price ->
  scan_market on_price self [(key, price_tick price)]
  = let out := on_price self (symbol_of_key key) price in
    match out.2 with
    | None => (out.1, None)
    | Some None => (out.1, Some ∅)
    | Some (Some entry) => (out.1, Some (<[symbol_of_key key := entry]> ∅))
    end.
Proof.
  intros Hp. apply Qlt_bool_iff in Hp.
  unfold scan_market. cbn [foldl fst snd price_tick tick_price].
  by rewrite Hp.
Qed.

Lemma single_signal_is_Some (key : string) (made : option LiveSignal) :
  is_Some
    (match made with
     | Some entry => <[symbol_of_key key := entry]> ∅
     | None => (∅ : gmap string LiveSignal)
     end !! symbol_of_key key)
  <-> is_Some made.
Proof.
  destruct made as [entry|].
  - rewrite lookup_insert_eq. split; by eexists.
  - rewrite lookup_empty. done.
Qed.

Section FirstSignals.
Variable np_std : list Q -> float64.

(** One call with one priced key: a signal is filed exactly when the
    history, the new price included, has reached the length the class
    wants. *)
Lemma calculate_signals_single (self : TradingStrategy) (key : string)
    (price : Q) :
  (0 <= history_window self)%Z -> 0 < price ->
  exists signals,
    (calculate_signals np_std self [(key, price_tick price)]).2
    = Some signals
    /\ (is_Some (signals !! symbol_of_key key)
        <-> (warm_up self
             <= Z.of_nat
                  (length
                     (default []
                        (update_price_history (history_window self)
                           (price_history self) (symbol_of_key key) price
                         !! symbol_of_key key))))%Z).
Proof.
  intros Hw Hp.
  destruct self as [s|s|s];
    cbn [calculate_signals history_window price_history warm_up] in *;
    unfold ma_calculate_signals, mr_calculate_signals, mom_calculate_signals;
    rewrite scan_market_single by done; cbv zeta.
  - unfold ma_on_price. cbv zeta. cbn [ma_price_history long_window].
    set (prices := default [] _).
    destruct (Z.leb_spec (long_window s) (Z.of_nat (length prices)));
      cbn [fst snd prod_map id]; eexists; (split; [reflexivity|]).
    + rewrite lookup_insert_eq. split; [done|by eexists].
    + rewrite lookup_empty. split; [by intros [? ?]|lia].
  - unfold mr_on_price. cbv zeta. cbn [mr_price_history window].
    set (prices := default [] _).
    destruct (Z.leb_spec (window s) (Z.of_nat (length prices))) as [Hlen|Hlen];
      cbn [fst snd prod_map id].
    + unfold calculate_bollinger_bands. cbn [window].
      destruct (Z.ltb_spec (Z.of_nat (length prices)) (window s)); [lia|].
      cbn [fst snd prod_map id]. eexists. split; [reflexivity|].
      rewrite lookup_insert_eq. split; [done|by eexists].
    + eexists. split; [reflexivity|].
      rewrite lookup_empty. split; [by intros [? ?]|lia].
  - unfold mom_on_price. cbv zeta.
    cbn [mom_price_history lookback_period].
    set (prices := default [] _).
    destruct (Nat.leb_spec 2 (length prices)) as [Hlen|Hlen];
      cbn [fst snd prod_map id].
    + match goal with
      | |- context [calculate_momentum ?s0 prices] =>
          destruct (calculate_momentum_is_Some s0 prices Hw) as [m ->]
      end.
      cbn [fst snd prod_map id]. eexists. split; [reflexivity|].
      rewrite lookup_insert_eq. split; [lia|by eexists].
    + eexists. split; [reflexivity|].
      rewrite lookup_empty. split; [by intros [? ?]|lia].
Qed.

Lemma calculate_signals_warm_up (self : TradingStrategy) (md : MarketData) :
  warm_up (calculate_signals np_std self md).1 = warm_up self.
Proof.
  destruct self as [s|s|s]; cbn [calculate_signals];
    unfold ma_calculate_signals, mr_calculate_signals, mom_calculate_signals.
  - pose proof (scan_market_invariant ma_on_price
                  (fun s0 => long_window s0 = long_window s)
                  ltac:(intros s0 symbol price H0; cbv beta in *;
                        destruct (ma_on_price_state s0 symbol price)
                          as (_ & _ & E & _); congruence)
                  s md eq_refl) as H.
    by destruct (scan_market ma_on_price s md).
  - pose proof (scan_market_invariant (mr_on_price np_std)
                  (fun s0 => window s0 = window s)
                  ltac:(intros s0 symbol price H0; cbv beta in *;
                        destruct (mr_on_price_state np_std s0 symbol price)
                          as (_ & _ & E & _); congruence)
                  s md eq_refl) as H.
    by destruct (scan_market (mr_on_price np_std) s md).
  - by destruct (scan_market mom_on_price s md).
Qed.

Lemma feed_key_snoc (self : TradingStrategy) (key : string)
    (prices : list Q) (price : Q) :
  feed_key np_std self key (prices ++ [price])
  = calculate_signals np_std (feed_key np_std self key prices).1
      [(key, price_tick price)].
Proof. unfold feed_key. by rewrite foldl_app. Qed.

Lemma feed_key_state (self : TradingStrategy) (key : string)
    (prices : list Q) :
  (0 <= history_window self)%Z -> Forall (fun price => 0 < price) prices ->
  price_history (feed_key np_std self key prices).1
  = record_prices (history_window self) (price_history self)
      (symbol_of_key key) prices
  /\ history_window (feed_key np_std self key prices).1 = history_window self
  /\ warm_up (feed_key np_std self key prices).1 = warm_up self.
Proof.
  intros Hw Hpos.
  induction prices as [|price prices IH] using rev_ind; [done|].
  apply Forall_app in Hpos as [Hpos Hp].
  apply (proj1 (Forall_singleton _ _)) in Hp.
  destruct (IH Hpos) as (IHh & IHw & IHu).
  rewrite feed_key_snoc, record_prices_snoc.
  destruct (calculate_signals_state np_std
              (feed_key np_std self key prices).1
              [(key, price_tick price)] ltac:(by rewrite IHw))
    as (_ & Hh & Hwin).
  rewrite calculate_signals_warm_up, Hh, Hwin, IHh, IHw.
  split; [|done].
  unfold record_market. cbn [foldl fst snd price_tick tick_price].
  apply Qlt_bool_iff in Hp. by rewrite Hp.
Qed.

(** X30. A key gets its first signal when its history is long enough, and
    one on every call from then on: after [calculate_signals] was called
    once for each of a non-empty sequence of positive prices of one key, on
    an object that had no history for it and whose window attribute is not
    negative, the last call returned, and its dictionary has an entry for
    the key's symbol exactly when the prices given, or the [window + 1] the
    history keeps of them if these are fewer, are at least [long_window]
    (MovingAverageCrossover), [window] (MeanReversion), or 2
    (MomentumStrategy, which therefore never signals with a look-back of
    0). *)
Theorem signals_start_after_warm_up (self : TradingStrategy) (key : string)
    (prices : list Q) :
  price_history self !! symbol_of_key key = None ->
  (0 <= history_window self)%Z ->
  Forall (fun price => 0 < price) prices -> prices <> [] ->
  exists signals,
    (feed_key np_std self key prices).2 = Some signals
    /\ (is_Some (signals !! symbol_of_key key)
        <-> (warm_up self
             <= Z.min (Z.of_nat (length prices)) (history_window self + 1))%Z).
Proof.
  intros Hnone Hw Hpos Hne.
  destruct prices as [|price prices _] using rev_ind; [done|].
  apply Forall_app in Hpos as [Hpos Hp].
  apply (proj1 (Forall_singleton _ _)) in Hp.
  destruct (feed_key_state self key prices Hw Hpos) as (Hh & Hwin & Hup).
  rewrite feed_key_snoc.
  destruct (calculate_signals_single (feed_key np_std self key prices).1 key
              price ltac:(by rewrite Hwin) Hp) as (signals & Hrun & Hiff).
  exists signals. split; [done|].
  rewrite Hiff, Hup, Hwin, Hh, <- record_prices_snoc.
  rewrite record_prices_lookup by done. rewrite Hnone. cbn [default app].
  assert (Hlen : length
            (match prices ++ [price] with
             | [] => []
             | _ :: _ =>
                 last_prices (Z.to_nat (history_window self) + 1)
                   (prices ++ [price])
             end)
          = Nat.min (Z.to_nat (history_window self) + 1)
              (length (prices ++ [price]))).
  { destruct (prices ++ [price]) eqn:E; [by destruct prices|].
    by rewrite last_prices_length. }
  rewrite Hlen. lia.
Qed.

End FirstSignals.

Lemma signals_start_after_warm_up_witness :
  (exists signals,
     (feed_key no_std
        (IsMovingAverageCrossover (MovingAverageCrossover_init 1 3)) "1"
        [10; 11]).2 = Some signals
     /\ signals !! "SYMBOL_1" = None)
  /\ exists signals,
       (feed_key no_std
          (IsMovingAverageCrossover (MovingAverageCrossover_init 1 3)) "1"
          [10; 11; 12]).2 = Some signals
       /\ is_Some (signals !! "SYMBOL_1").
Proof.
  split.
  - destruct (signals_start_after_warm_up no_std
                (IsMovingAverageCrossover (MovingAverageCrossover_init 1 3))
                "1" [10; 11] (lookup_empty _) ltac:(cbn; lia)
                ltac:(repeat constructor) ltac:(discriminate))
      as (signals & Hrun & Hiff).
    exists signals. split; [exact Hrun|].
    destruct (signals !! "SYMBOL_1") eqn:E; [|done].
    assert (H : is_Some (signals !! symbol_of_key "1")).
    { change (symbol_of_key "1") with "SYMBOL_1". rewrite E. by eexists. }
    apply Hiff in H. cbn in H. lia.
  - destruct (signals_start_after_warm_up no_std
                (IsMovingAverageCrossover (MovingAverageCrossover_init 1 3))
                "1" [10; 11; 12] (lookup_empty _) ltac:(cbn; lia)
                ltac:(repeat constructor) ltac:(discriminate))
      as (signals & Hrun & Hiff).
    exists signals. split; [exact Hrun|].
    apply Hiff. cbn. lia.
Defined.
